(** * Broker relay (Cloud Functions): a shallow embedding and its properties

    The two implementation files, [src/functions/index.js] (firebase-functions
    v2, module [V2] below) and [src/pagina_Invert/functions/index.js]
    (firebase-functions v1, module [V1] below), are embedded as functions of a
    small state-and-exception monad over an explicit world: the per-user
    document store, the upstream HTTP service and the timer.  The store is
    taken to be reliable (a read or write fails only where the SDK itself
    refuses it), and a response body, once the response has arrived, can be
    read.  Each file sees the upstream service through its own [fetch]
    implementation, which words its own failures; the file's handlers are
    parameterised by the service as that implementation presents it. *)

From Stdlib Require Import ZArith String Ascii List DecimalString Lia.
From Stdlib Require DecimalPos.
From stdpp Require Import gmap strings list fin_maps.

Open Scope Z_scope.
Open Scope string_scope.
Open Scope list_scope.
Set Warnings "-register-all".

(** ** JavaScript values

    The values that flow through the handlers: callable input, parsed JSON
    bodies, stored document fields and returned payloads.  Numbers are
    restricted to integers (every number the code itself looks at, an HTTP
    status, a retry hint, is one).  [JTimestamp] is a Firestore timestamp
    object as read back from a document. *)

Inductive JsVal : Type :=
| JUndefined
| JNull
| JBool (b : bool)
| JNum (n : Z)
| JStr (s : string)
| JArr (items : list JsVal)
| JObj (fields : list (string * JsVal))
| JTimestamp (t : Z).

(** [!!v] in JavaScript. *)
Definition truthy (v : JsVal) : bool :=
  match v with
  | JUndefined | JNull => false
  | JBool b => b
  | JNum n => negb (Z.eqb n 0)
  | JStr s => negb (String.eqb s "")
  | JArr _ | JObj _ | JTimestamp _ => true
  end.

(** [a || b]. *)
Definition jsOr (a b : JsVal) : JsVal := if truthy a then a else b.

(** [a && b]. *)
Definition jsAnd (a b : JsVal) : JsVal := if truthy a then b else a.

(** [Array.isArray(v)]. *)
Definition isArray (v : JsVal) : bool :=
  match v with JArr _ => true | _ => false end.

(** [v === "s"] for a string literal. *)
Definition strictEqStr (v : JsVal) (s : string) : bool :=
  match v with JStr s' => String.eqb s' s | _ => false end.

(** Decimal rendering of an integer, as [String(n)] gives it. *)
Definition decimal (n : Z) : string := NilZero.string_of_int (Z.to_int n).

(** [String(v)], which is also what a template literal and [+] with a string
    apply to the JSON values the handlers concatenate.  (On a Firestore
    timestamp, which no path of the code stores under a key it concatenates,
    [+] would use [valueOf] instead; see [sameText].) *)
Fixpoint toStr (v : JsVal) : string :=
  match v with
  | JUndefined => "undefined"
  | JNull => "null"
  | JBool true => "true"
  | JBool false => "false"
  | JNum n => decimal n
  | JStr s => s
  | JArr items =>
      (fix join (l : list JsVal) : string :=
         match l with
         | [] => ""
         | x :: r =>
             (match x with JUndefined | JNull => "" | _ => toStr x end)
             +:+ (match r with [] => "" | _ :: _ => "," +:+ join r end)
         end) items
  | JObj _ | JTimestamp _ => "[object Object]"
  end.

(** The binding of key [k] in an object literal; as in [JSON.parse], the last
    of several bindings of one key wins. *)
Fixpoint lookupField (k : string) (l : list (string * JsVal)) : option JsVal :=
  match l with
  | [] => None
  | (k', v) :: r =>
      match lookupField k r with
      | Some x => Some x
      | None => if String.eqb k k' then Some v else None
      end
  end.

(** [s.includes(pat)]. *)
Definition includes (s pat : string) : bool :=
  match String.index 0 pat s with Some _ => true | None => false end.

(** ** [parseInt(s, 10)]

    [None] is [NaN].  Leading white space is skipped, then an optional sign
    and the longest run of decimal digits are read.  The real result is a
    double; it is only ever passed to [Math.min(_, 15)], on which the double
    and the exact integer agree.

    The only string the code parses is the value of a response header, a byte
    string: each character is a code unit below 256.  Among those, the white
    space and line terminators of JavaScript are TAB, LF, VT, FF, CR (9 to
    13), the space (32) and the no-break space U+00A0 (160). *)

Definition isSpace (c : ascii) : bool :=
  let n := nat_of_ascii c in
  (Nat.eqb n 32 || (Nat.leb 9 n && Nat.leb n 13) || Nat.eqb n 160)%bool.

Definition digitOf (c : ascii) : option Z :=
  let n := nat_of_ascii c in
  if (Nat.leb 48 n && Nat.leb n 57)%bool then Some (Z.of_nat n - 48) else None.

Fixpoint skipSpaces (s : string) : string :=
  match s with
  | String c r => if isSpace c then skipSpaces r else s
  | EmptyString => s
  end.

Fixpoint readDigits (acc : Z) (s : string) : Z :=
  match s with
  | String c r =>
      match digitOf c with
      | Some d => readDigits (10 * acc + d) r
      | None => acc
      end
  | EmptyString => acc
  end.

Definition startsWithDigit (s : string) : bool :=
  match s with
  | String c _ => match digitOf c with Some _ => true | None => false end
  | EmptyString => false
  end.

Definition parseInt (s : string) : option Z :=
  let t := skipSpaces s in
  let '(neg, u) :=
    match t with
    | String "-" r => (true, r)
    | String "+" r => (false, r)
    | _ => (false, t)
    end in
  if startsWithDigit u
  then Some (if neg then - readDigits 0 u else readDigits 0 u)
  else None.

(** ** Exceptions *)

Inductive Thrown : Type :=
| Error (message : string) (status : option Z)
    (* [new Error(message)], with [err.status] when it was assigned *)
| TypeError (message : string)
    (* a property read or destructuring of [null] or [undefined] *)
| SyntaxError (message : string)
    (* [res.json()] on a body that is not JSON *)
| FetchRejection (message : string)
    (* what [fetch] itself rejects with: a network-level failure *)
| StoreRejection (message : string)
    (* what the document store rejects a write with *)
| HttpsError (code message : string).
    (* the typed failure of the callable transport *)

(** [err.message]. *)
Definition message_of (e : Thrown) : string :=
  match e with
  | Error m _ | TypeError m | SyntaxError m | FetchRejection m
  | StoreRejection m | HttpsError _ m => m
  end.

(** [err.status]; [None] is [undefined]. *)
Definition status_of (e : Thrown) : option Z :=
  match e with
  | Error _ s => s
  | _ => None
  end.

Inductive Completion (A : Type) : Type :=
| Normal (a : A)
| Throw (e : Thrown).
Arguments Normal {A} a.
Arguments Throw {A} e.

(** [v.k]: reading a property of [null] or [undefined] throws; the handlers
    only read plain data keys, which primitives, arrays and timestamps do not
    have. *)
Definition getProp (v : JsVal) (k : string) : Completion JsVal :=
  match v with
  | JUndefined =>
      Throw (TypeError ("Cannot read properties of undefined (reading '" +:+ k +:+ "')"))
  | JNull =>
      Throw (TypeError ("Cannot read properties of null (reading '" +:+ k +:+ "')"))
  | JObj fields =>
      Normal (match lookupField k fields with Some x => x | None => JUndefined end)
  | _ => Normal JUndefined
  end.

(** ** The world: document store, upstream service, timer *)

Record Request : Type := mkRequest {
  req_url : string;
  req_method : string;
  req_token : string;           (* the [auth-token] header *)
  req_body : option JsVal       (* the value handed to [JSON.stringify] *)
}.

(** [JSON.parse] of a response body.  [syntaxMessage] is the message of the
    error [res.json()] fails with, as the [fetch] implementation words it. *)
Inductive Parsed : Type :=
| NotJson (syntaxMessage : string)
| Json (v : JsVal).

Record Response : Type := mkResponse {
  res_status : Z;
  res_retryAfter : option string;   (* [res.headers.get("retry-after")] *)
  res_body : Parsed
}.

(** [res.ok]. *)
Definition res_ok (r : Response) : bool :=
  (Z.leb 200 (res_status r) && Z.leb (res_status r) 299)%bool.

Inductive FetchOutcome : Type :=
| Responded (r : Response)
| Rejected (message : string).

Inductive Event : Type :=
| EvFetch (req : Request)
| EvSleep (ms : Z).

(** The upstream service answers a request knowing everything that happened
    before it in this invocation.  The answer is what the [fetch]
    implementation of the file presents to the code: a response, or a failure
    of the implementation itself.  The messages of such failures (the
    rejection of [fetch]; the parse error of [res.json()] on a body that is
    not JSON) are worded by the implementation: [src/functions/index.js] uses
    the [fetch] of the runtime, [src/pagina_Invert/functions/index.js] the
    [node-fetch] package. *)
Definition Upstream : Type := list Event -> Request -> FetchOutcome.

Record World : Type := mkWorld {
  store : gmap string (gmap string JsVal);   (* collection [users], by uid *)
  clock : Z;                                 (* milliseconds *)
  trace : list Event                         (* oldest first *)
}.

Definition M (A : Type) : Type := World -> Completion A * World.

Definition ret {A} (a : A) : M A := fun w => (Normal a, w).
Definition throw {A} (e : Thrown) : M A := fun w => (Throw e, w).
Definition lift {A} (c : Completion A) : M A := fun w => (c, w).

Definition bind {A B} (m : M A) (k : A -> M B) : M B :=
  fun w =>
    match m w with
    | (Normal a, w') => k a w'
    | (Throw e, w') => (Throw e, w')
    end.

(** [try { m } catch (err) { h err }]. *)
Definition tryCatch {A} (m : M A) (h : Thrown -> M A) : M A :=
  fun w =>
    match m w with
    | (Normal a, w') => (Normal a, w')
    | (Throw e, w') => h e w'
    end.

Notation "'let!' x ':=' m 'in' k" := (bind m (fun x => k))
  (at level 10, x name, m at level 100, k at level 200).
Notation "m ';;' k" := (bind m (fun _ => k))
  (at level 100, k at level 200, right associativity).

Definition log (e : Event) (w : World) : World :=
  mkWorld (store w) (clock w) (trace w ++ [e]).

(** The delay a Node timer really uses for a requested one ([None] is [NaN]). *)
Definition timerDelay (requested : option Z) : Z :=
  match requested with
  | Some d => if (Z.leb 1 d && Z.leb d 2147483647)%bool then d else 1
  | None => 1
  end.

(** [await new Promise((r) => setTimeout(r, requested))]. *)
Definition sleep (requested : option Z) : M unit :=
  fun w =>
    let ms := timerDelay requested in
    (Normal tt, mkWorld (store w) (clock w + ms) (trace w ++ [EvSleep ms])).

(** [Date.now()]. *)
Definition dateNow : M Z := fun w => (Normal (clock w), w).

(** *** Document store *)

Inductive FieldWrite : Type :=
| WValue (v : JsVal)
| WDelete               (* [FieldValue.delete()] *)
| WServerTimestamp.     (* [FieldValue.serverTimestamp()] *)

Definition applyWrite (now : Z) (d : gmap string JsVal) (kw : string * FieldWrite)
  : gmap string JsVal :=
  match snd kw with
  | WValue v => <[fst kw := v]> d
  | WDelete => delete (fst kw) d
  | WServerTimestamp => <[fst kw := JTimestamp now]> d
  end.

Definition applyWrites (now : Z) (ws : list (string * FieldWrite)) (d : gmap string JsVal)
  : gmap string JsVal :=
  fold_left (applyWrite now) ws d.

(** The store refuses a document with an [undefined] field. *)
Definition hasUndefined (ws : list (string * FieldWrite)) : bool :=
  existsb (fun kw => match snd kw with WValue JUndefined => true | _ => false end) ws.

(** [db.collection("users").doc(uid).get()]; [None] is [!doc.exists]. *)
Definition docGet (uid : string) : M (option (gmap string JsVal)) :=
  fun w => (Normal (store w !! uid), w).

(** [doc.data().k]. *)
Definition field (d : gmap string JsVal) (k : string) : JsVal :=
  match d !! k with Some v => v | None => JUndefined end.

(** [.set(ws, { merge: true })]: creates the document when there is none. *)
Definition docSetMerge (uid : string) (ws : list (string * FieldWrite)) : M unit :=
  fun w =>
    if hasUndefined ws
    then (Throw (StoreRejection "Cannot use undefined as a Firestore value"), w)
    else
      let old := match store w !! uid with Some d => d | None => ∅ end in
      (Normal tt,
       mkWorld (<[uid := applyWrites (clock w) ws old]> (store w)) (clock w) (trace w)).

(** [.update(ws)]: rejected when there is no document. *)
Definition docUpdate (uid : string) (ws : list (string * FieldWrite)) : M unit :=
  fun w =>
    if hasUndefined ws
    then (Throw (StoreRejection "Cannot use undefined as a Firestore value"), w)
    else
      match store w !! uid with
      | Some old =>
          (Normal tt,
           mkWorld (<[uid := applyWrites (clock w) ws old]> (store w)) (clock w) (trace w))
      | None => (Throw (StoreRejection "No document to update"), w)
      end.

(** *** Callable input *)

Record Auth : Type := mkAuth {
  auth_uid : string;
  auth_email : JsVal      (* [auth.token.email] *)
}.

(** The base URLs for a region. *)
Definition provisioningUrl (region : string) : string :=
  "https://mt-provisioning-api-v1." +:+ region +:+ ".agiliumtrade.ai".
Definition clientUrl (region : string) : string :=
  "https://mt-client-api-v1." +:+ region +:+ ".agiliumtrade.ai".
Definition metastatsUrl (region : string) : string :=
  "https://metastats-api-v1." +:+ region +:+ ".agiliumtrade.ai".

(** Options of [metaFetch]; [None] is an absent key. *)
Record Opts : Type := mkOpts {
  opt_retries : option Z;
  opt_method : option string;
  opt_body : option JsVal
}.

Definition noOpts : Opts := mkOpts None None None.

(** [const { k, ... } = v]: destructuring [null] or [undefined] throws. *)
Definition destructure (v : JsVal) (what k : string) : Completion JsVal :=
  match v with
  | JUndefined =>
      Throw (TypeError ("Cannot destructure property '" +:+ k +:+ "' of '" +:+ what
                        +:+ "' as it is undefined."))
  | JNull =>
      Throw (TypeError ("Cannot destructure property '" +:+ k +:+ "' of '" +:+ what
                        +:+ "' as it is null."))
  | _ => getProp v k
  end.

(** [await fetch(url, { method, headers, body })]. *)
Definition fetch (upstream : Upstream) (req : Request) : M Response :=
  fun w =>
    match upstream (trace w) req with
    | Responded r => (Normal r, log (EvFetch req) w)
    | Rejected m => (Throw (FetchRejection m), log (EvFetch req) w)
    end.

(** [res.json()]. *)
Definition resJson (r : Response) : M JsVal :=
  match res_body r with
  | Json v => ret v
  | NotJson m => throw (SyntaxError m)
  end.

(** The pieces of [metaFetch] below are the same text in both files; what
    differs is the [fetch] they call, hence the wording of the failures that
    the [Upstream] of each file presents.

    The error [metaFetch] builds for a response that is not [ok]:
    [msg = JSON.parse(text).message || msg] under a [try], then [new Error(msg)]
    with [err.status = res.status]. *)
Definition upstreamError (r : Response) : Thrown :=
  let fallback := JStr ("HTTP " +:+ decimal (res_status r)) in
  let msg :=
    match res_body r with
    | NotJson _ => fallback
    | Json v =>
        match getProp v "message" with
        | Normal m => jsOr m fallback
        | Throw _ => fallback
        end
    end in
  Error (toStr msg) (Some (res_status r)).

(** The error thrown after the retry loop. *)
Definition stillProcessing : Thrown :=
  Error "MetaApi sigue procesando. Reintenta en unos segundos." None.

(** The delay requested on a 202:
    [Math.min(parseInt(res.headers.get("retry-after") || "5", 10), 15) * 1000]. *)
Definition retryDelay (r : Response) : option Z :=
  let hint :=
    match res_retryAfter r with
    | Some h => if String.eqb h "" then "5" else h
    | None => "5"
    end in
  match parseInt hint with
  | Some wait => Some (Z.min wait 15 * 1000)
  | None => None
  end.

(** The request [metaFetch] sends, from its options. *)
Definition requestOf (url token : string) (opts : Opts) : Request :=
  let method :=
    match opt_method opts with
    | Some m => if String.eqb m "" then "GET" else m
    | None => "GET"
    end in
  let body :=
    match opt_body opts with
    | Some b => if truthy b then Some b else None
    | None => None
    end in
  mkRequest url method token body.

(** [opts.retries ?? 5]. *)
Definition maxRetriesOf (opts : Opts) : Z :=
  match opt_retries opts with Some n => n | None => 5 end.

(** ** [src/functions/index.js] *)

Module V2.

Record CallableRequest : Type := mkCallableRequest {
  rq_auth : option Auth;     (* [request.auth] *)
  rq_data : JsVal            (* [request.data] *)
}.

Section Handlers.

Variable upstream : Upstream.           (* the service, through the global [fetch] *)
Variable toISOString : Z -> string.     (* [Date.prototype.toISOString] *)
Variable METAAPI_TOKEN : string.        (* [METAAPI_TOKEN.value()] *)

Definition REGION : string := "london".

(** The loop [for (let i = 0; i <= maxRetries; i++)] of [metaFetch], by the
    number [n] of iterations left, followed by the [throw] after it. *)
Fixpoint metaFetchLoop (n : nat) (req : Request) : M JsVal :=
  match n with
  | O => throw stillProcessing
  | S n' =>
      let! res := fetch upstream req in
      if Z.eqb (res_status res) 202 then
        (sleep (retryDelay res) ;; metaFetchLoop n' req)
      else if negb (res_ok res) then throw (upstreamError res)
      else resJson res
  end.

Definition metaFetch (url token : string) (opts : Opts) : M JsVal :=
  metaFetchLoop (Z.to_nat (maxRetriesOf opts + 1)) (requestOf url token opts).

Definition getAccountId (uid : string) : M JsVal :=
  let! doc := docGet uid in
  let id := match doc with Some d => field d "metaApiAccountId" | None => JBool false end in
  if negb (truthy id)
  then throw (HttpsError "not-found" "No tienes cuenta de broker conectada.")
  else ret id.

Definition requireAuth (request : CallableRequest) : M Auth :=
  match rq_auth request with
  | None => throw (HttpsError "unauthenticated" "Inicia sesion primero.")
  | Some a => ret a
  end.

(** The existing-link check of [connectBroker]: [Some payload] is its early
    [return], [None] falls through to the creation. *)
Definition checkExisting (token : string) (userDoc : option (gmap string JsVal))
  : M (option JsVal) :=
  match userDoc with
  | Some d =>
      if truthy (field d "metaApiAccountId") then
        let existingId := field d "metaApiAccountId" in
        tryCatch
          (let! acct :=
             metaFetch (provisioningUrl REGION +:+ "/users/current/accounts/"
                        +:+ toStr existingId)
                       token (mkOpts (Some 0) None None) in
           let! state := lift (getProp acct "state") in
           ret (Some (JObj [("success", JBool true);
                            ("message", JStr "Cuenta ya vinculada");
                            ("state", state)])))
          (fun _ => ret None)
      else ret None
  | None => ret None
  end.

(** The create-account request of [connectBroker] with its [catch]. *)
Definition createAccount (token : string) (brokerServer mtLogin mtPassword platform : JsVal)
  : M JsVal :=
  tryCatch
    (metaFetch (provisioningUrl REGION +:+ "/users/current/accounts") token
       (mkOpts (Some 0) (Some "POST")
          (Some (JObj [("name", JStr ("DON-" +:+ toStr mtLogin));
                       ("type", JStr "cloud");
                       ("login", JStr (toStr mtLogin));
                       ("password", mtPassword);
                       ("server", brokerServer);
                       ("platform", jsOr platform (JStr "mt5"));
                       ("region", JStr REGION);
                       ("application", JStr "MetaApi");
                       ("magic", JNum 0);
                       ("metastatsApiEnabled", JBool true);
                       ("resourceSlots", JNum 1);
                       ("copyFactoryRoles", JArr [])]))))
    (fun err =>
       if (negb (String.eqb (message_of err) "")
           && includes (message_of err) "already exists")%bool
       then throw (HttpsError "already-exists" "Esta cuenta MT5 ya esta registrada.")
       else throw (HttpsError "internal" ("Error MetaApi: " +:+ message_of err))).

(** The loop [for (var i = 0; i < 30; i++)] of [connectBroker], by the number
    [n] of iterations left; the result is [deployed]. *)
Fixpoint pollDeploy (token : string) (accountId : JsVal) (n : nat) : M bool :=
  match n with
  | O => ret false
  | S n' =>
      sleep (Some 2000) ;;
      let! hit :=
        tryCatch
          (let! st :=
             metaFetch (provisioningUrl REGION +:+ "/users/current/accounts/"
                        +:+ toStr accountId)
                       token (mkOpts (Some 0) None None) in
           let! state := lift (getProp st "state") in
           if strictEqStr state "DEPLOYED" then ret true
           else
             let! cs := lift (getProp st "connectionStatus") in
             ret (strictEqStr cs "CONNECTED"))
          (fun _ => ret false) in
      if hit then ret true else pollDeploy token accountId n'
  end.

Definition connectBroker (request : CallableRequest) : M JsVal :=
  let! auth := requireAuth request in
  let uid := auth_uid auth in
  let token := METAAPI_TOKEN in
  let! brokerServer := lift (destructure (rq_data request) "request.data" "brokerServer") in
  let! mtLogin := lift (getProp (rq_data request) "mtLogin") in
  let! mtPassword := lift (getProp (rq_data request) "mtPassword") in
  let! platform := lift (getProp (rq_data request) "platform") in
  if (negb (truthy brokerServer) || negb (truthy mtLogin) || negb (truthy mtPassword))%bool
  then throw (HttpsError "invalid-argument" "Faltan datos: servidor, login o password.")
  else
    let! userDoc := docGet uid in
    let! linked := checkExisting token userDoc in
    match linked with
    | Some payload => ret payload
    | None =>
        let! account := createAccount token brokerServer mtLogin mtPassword platform in
        let email := jsOr (auth_email auth) (JStr "") in
        let! accountId := lift (getProp account "id") in
        docSetMerge uid
          [("email", WValue email);
           ("metaApiAccountId", WValue accountId);
           ("brokerServer", WValue brokerServer);
           ("mtLogin", WValue (JStr (toStr mtLogin)));
           ("platform", WValue (jsOr platform (JStr "mt5")));
           ("connectedAt", WServerTimestamp);
           ("updatedAt", WServerTimestamp)] ;;
        let! deployed := pollDeploy token accountId 30 in
        ret (JObj [("success", JBool true);
                   ("deployed", JBool deployed);
                   ("message",
                    JStr (if deployed then "Cuenta conectada"
                          else "Cuenta creada. Desplegando, intenta en 1-2 min."))])
    end.

Definition getUserStatus (request : CallableRequest) : M JsVal :=
  let! auth := requireAuth request in
  let! doc := docGet (auth_uid auth) in
  match doc with
  | Some d =>
      if truthy (field d "metaApiAccountId") then
        ret (JObj [("connected", JBool true);
                   ("brokerServer", field d "brokerServer");
                   ("mtLogin", field d "mtLogin");
                   ("platform", field d "platform")])
      else ret (JObj [("connected", JBool false)])
  | None => ret (JObj [("connected", JBool false)])
  end.

Definition getAccountInfo (request : CallableRequest) : M JsVal :=
  let! auth := requireAuth request in
  let! id := getAccountId (auth_uid auth) in
  metaFetch (clientUrl REGION +:+ "/users/current/accounts/" +:+ toStr id
             +:+ "/account-information")
            METAAPI_TOKEN noOpts.

Definition getMetrics (request : CallableRequest) : M JsVal :=
  let! auth := requireAuth request in
  let! id := getAccountId (auth_uid auth) in
  let token := METAAPI_TOKEN in
  tryCatch
    (let! res :=
       metaFetch (metastatsUrl REGION +:+ "/users/current/accounts/" +:+ toStr id
                  +:+ "/metrics") token noOpts in
     let! metrics := lift (getProp res "metrics") in
     ret (JObj [("ok", JBool true);
                ("metrics", jsOr metrics res);
                ("source", JStr "metastats")]))
    (fun err =>
       if match status_of err with Some s => Z.eqb s 403 | None => false end then
         tryCatch
           (metaFetch (provisioningUrl REGION +:+ "/users/current/accounts/" +:+ toStr id
                       +:+ "/enable-metastats-api")
                      token (mkOpts (Some 0) (Some "PUT") (Some (JObj []))) ;;
            ret tt)
           (fun _ => ret tt) ;;
         ret (JObj [("ok", JBool false);
                    ("metrics", JNull);
                    ("source", JStr "none");
                    ("reason", JStr "metastats_enabling")])
       else throw (HttpsError "internal" (message_of err))).

(** The first [try] block of [getTrades]: the statistics source and the
    shaping of its result. *)
Definition tradesPrimary (token : string) (id start end_ : JsVal) : M JsVal :=
  let! res :=
    metaFetch (metastatsUrl REGION +:+ "/users/current/accounts/" +:+ toStr id
               +:+ "/historical-trades/time/" +:+ toStr start +:+ "/" +:+ toStr end_
               +:+ "?updateHistory=true") token noOpts in
  let! trades := lift (getProp res "trades") in
  ret (JObj [("trades", jsOr trades (if isArray res then res else JArr []));
             ("source", JStr "metastats")]).

(** The second [try] block of [getTrades]: the trading-session source and the
    shaping of its result. *)
Definition tradesSecondary (token : string) (id start end_ : JsVal) : M JsVal :=
  let! res :=
    metaFetch (clientUrl REGION +:+ "/users/current/accounts/" +:+ toStr id
               +:+ "/history-deals/time/" +:+ toStr start +:+ "/" +:+ toStr end_)
              token noOpts in
  let! trades :=
    if isArray res then ret res
    else (let! deals := lift (getProp res "deals") in ret (jsOr deals (JArr []))) in
  ret (JObj [("trades", trades); ("source", JStr "client")]).

Definition getTrades (request : CallableRequest) : M JsVal :=
  let! auth := requireAuth request in
  let! id := getAccountId (auth_uid auth) in
  let token := METAAPI_TOKEN in
  let! t1 := dateNow in
  let now := toISOString t1 in
  let! t2 := dateNow in
  let ago := toISOString (t2 - 365 * 86400000) in
  let! startDate :=
    if truthy (rq_data request) then lift (getProp (rq_data request) "startDate")
    else ret (rq_data request) in
  let start := jsOr startDate (JStr ago) in
  let! endDate :=
    if truthy (rq_data request) then lift (getProp (rq_data request) "endDate")
    else ret (rq_data request) in
  let end_ := jsOr endDate (JStr now) in
  tryCatch (tradesPrimary token id start end_)
    (fun _ =>
       tryCatch (tradesSecondary token id start end_)
         (fun err => throw (HttpsError "internal" (message_of err)))).

Definition getDailyGrowth (request : CallableRequest) : M JsVal :=
  let! auth := requireAuth request in
  let! id := getAccountId (auth_uid auth) in
  tryCatch
    (let! res :=
       metaFetch (metastatsUrl REGION +:+ "/users/current/accounts/" +:+ toStr id
                  +:+ "/daily-growth") METAAPI_TOKEN noOpts in
     let! growth := lift (getProp res "dailyGrowth") in
     ret (JObj [("data", jsOr growth (if isArray res then res else JArr []))]))
    (fun _ => ret (JObj [("data", JArr [])])).

Definition disconnectBroker (request : CallableRequest) : M JsVal :=
  let! auth := requireAuth request in
  let uid := auth_uid auth in
  let token := METAAPI_TOKEN in
  let! doc := docGet uid in
  match doc with
  | None => ret (JObj [("ok", JBool true)])
  | Some d =>
      if negb (truthy (field d "metaApiAccountId")) then ret (JObj [("ok", JBool true)])
      else
        let id := field d "metaApiAccountId" in
        tryCatch
          (metaFetch (provisioningUrl REGION +:+ "/users/current/accounts/" +:+ toStr id)
                     token (mkOpts (Some 0) (Some "DELETE") None) ;;
           ret tt)
          (fun _ => ret tt) ;;
        docUpdate uid
          [("metaApiAccountId", WDelete);
           ("brokerServer", WDelete);
           ("mtLogin", WDelete);
           ("disconnectedAt", WServerTimestamp)] ;;
        ret (JObj [("ok", JBool true)])
  end.

End Handlers.
End V2.

(** ** [src/pagina_Invert/functions/index.js] *)

Module V1.

Record CallableContext : Type := mkCallableContext {
  ctx_auth : option Auth      (* [ctx.auth] *)
}.

Section Handlers.

Variable upstream : Upstream.           (* the service, through [require("node-fetch")] *)
Variable toISOString : Z -> string.     (* [Date.prototype.toISOString] *)
Variable configToken : option string.   (* [functions.config().metaapi?.token] *)
Variable configRegion : option string.  (* [functions.config().metaapi?.region] *)

Definition META_TOKEN : string :=
  match configToken with Some t => t | None => "" end.

Definition REGION : string :=
  match configRegion with
  | Some r => if String.eqb r "" then "london" else r
  | None => "london"
  end.

(** The loop [for (let i = 0; i <= maxRetries; i++)] of [metaFetch], by the
    number [n] of iterations left, followed by the [throw] after it. *)
Fixpoint metaFetchLoop (n : nat) (req : Request) : M JsVal :=
  match n with
  | O => throw stillProcessing
  | S n' =>
      let! res := fetch upstream req in
      if Z.eqb (res_status res) 202 then
        (sleep (retryDelay res) ;; metaFetchLoop n' req)
      else if negb (res_ok res) then throw (upstreamError res)
      else resJson res
  end.

Definition metaFetch (url : string) (opts : Opts) : M JsVal :=
  metaFetchLoop (Z.to_nat (maxRetriesOf opts + 1)) (requestOf url META_TOKEN opts).

Definition requireAuth (ctx : CallableContext) : M Auth :=
  match ctx_auth ctx with
  | None => throw (HttpsError "unauthenticated" "Inicia sesión primero.")
  | Some a => ret a
  end.

Definition getAccountId (uid : string) : M JsVal :=
  let! doc := docGet uid in
  let id := match doc with Some d => field d "metaApiAccountId" | None => JBool false end in
  if negb (truthy id)
  then throw (HttpsError "not-found" "No tienes cuenta de broker conectada.")
  else ret id.

(** The existing-link check of [connectBroker]: [Some payload] is its early
    [return], [None] falls through to the creation. *)
Definition checkExisting (userDoc : option (gmap string JsVal)) : M (option JsVal) :=
  match userDoc with
  | Some d =>
      if truthy (field d "metaApiAccountId") then
        let existingId := field d "metaApiAccountId" in
        tryCatch
          (let! acct :=
             metaFetch (provisioningUrl REGION +:+ "/users/current/accounts/"
                        +:+ toStr existingId)
                       (mkOpts (Some 0) None None) in
           let! state := lift (getProp acct "state") in
           ret (Some (JObj [("success", JBool true);
                            ("message", JStr "Cuenta ya vinculada");
                            ("accountId", existingId);
                            ("state", state)])))
          (fun _ => ret None)
      else ret None
  | None => ret None
  end.

(** The create-account request of [connectBroker] with its [catch]. *)
Definition createAccount (brokerServer mtLogin mtPassword platform : JsVal) : M JsVal :=
  tryCatch
    (metaFetch (provisioningUrl REGION +:+ "/users/current/accounts")
       (mkOpts (Some 0) (Some "POST")
          (Some (JObj [("name", JStr ("DON-" +:+ toStr mtLogin));
                       ("type", JStr "cloud");
                       ("login", JStr (toStr mtLogin));
                       ("password", mtPassword);
                       ("server", brokerServer);
                       ("platform", jsOr platform (JStr "mt5"));
                       ("region", JStr REGION);
                       ("application", JStr "MetaApi");
                       ("magic", JNum 0);
                       ("metastatsApiEnabled", JBool true);
                       ("resourceSlots", JNum 1);
                       ("copyFactoryRoles", JArr [])]))))
    (fun err =>
       if includes (message_of err) "already exists"
       then throw (HttpsError "already-exists"
                     "Esta cuenta MT5 ya está registrada. Contacta soporte.")
       else throw (HttpsError "internal" ("Error MetaApi: " +:+ message_of err))).

(** The loop [for (let i = 0; i < 30; i++)] of [connectBroker], by the number
    [n] of iterations left; the result is [deployed]. *)
Fixpoint pollDeploy (accountId : JsVal) (n : nat) : M bool :=
  match n with
  | O => ret false
  | S n' =>
      sleep (Some 2000) ;;
      let! hit :=
        tryCatch
          (let! st :=
             metaFetch (provisioningUrl REGION +:+ "/users/current/accounts/"
                        +:+ toStr accountId)
                       (mkOpts (Some 0) None None) in
           let! state := lift (getProp st "state") in
           if strictEqStr state "DEPLOYED" then ret true
           else
             let! cs := lift (getProp st "connectionStatus") in
             ret (strictEqStr cs "CONNECTED"))
          (fun _ => ret false) in
      if hit then ret true else pollDeploy accountId n'
  end.

Definition connectBroker (data : JsVal) (ctx : CallableContext) : M JsVal :=
  let! auth := requireAuth ctx in
  let uid := auth_uid auth in
  let! brokerServer := lift (destructure data "data" "brokerServer") in
  let! mtLogin := lift (getProp data "mtLogin") in
  let! mtPassword := lift (getProp data "mtPassword") in
  let! platform := lift (getProp data "platform") in
  if (negb (truthy brokerServer) || negb (truthy mtLogin) || negb (truthy mtPassword))%bool
  then throw (HttpsError "invalid-argument" "Faltan datos: servidor, login o password.")
  else
    let! userDoc := docGet uid in
    let! linked := checkExisting userDoc in
    match linked with
    | Some payload => ret payload
    | None =>
        let! account := createAccount brokerServer mtLogin mtPassword platform in
        let! accountId := lift (getProp account "id") in
        docSetMerge uid
          [("email", WValue (jsOr (auth_email auth) (JStr "")));
           ("metaApiAccountId", WValue accountId);
           ("brokerServer", WValue brokerServer);
           ("mtLogin", WValue (JStr (toStr mtLogin)));
           ("platform", WValue (jsOr platform (JStr "mt5")));
           ("connectedAt", WServerTimestamp);
           ("updatedAt", WServerTimestamp)] ;;
        let! deployed := pollDeploy accountId 30 in
        ret (JObj [("success", JBool true);
                   ("deployed", JBool deployed);
                   ("message",
                    JStr (if deployed then "Cuenta conectada exitosamente"
                          else "Cuenta creada. Se está desplegando, intenta en 1-2 min."))])
    end.

Definition getUserStatus (_data : JsVal) (ctx : CallableContext) : M JsVal :=
  let! auth := requireAuth ctx in
  let! doc := docGet (auth_uid auth) in
  match doc with
  | Some d =>
      if truthy (field d "metaApiAccountId") then
        ret (JObj [("connected", JBool true);
                   ("brokerServer", field d "brokerServer");
                   ("mtLogin", field d "mtLogin");
                   ("platform", field d "platform")])
      else ret (JObj [("connected", JBool false)])
  | None => ret (JObj [("connected", JBool false)])
  end.

Definition getAccountInfo (_data : JsVal) (ctx : CallableContext) : M JsVal :=
  let! auth := requireAuth ctx in
  let! id := getAccountId (auth_uid auth) in
  let! info :=
    metaFetch (clientUrl REGION +:+ "/users/current/accounts/" +:+ toStr id
               +:+ "/account-information") noOpts in
  ret info.

Definition getMetrics (data : JsVal) (ctx : CallableContext) : M JsVal :=
  let! auth := requireAuth ctx in
  let! id := getAccountId (auth_uid auth) in
  tryCatch
    (let! res :=
       metaFetch (metastatsUrl REGION +:+ "/users/current/accounts/" +:+ toStr id
                  +:+ "/metrics") noOpts in
     let! metrics := lift (getProp res "metrics") in
     ret (JObj [("ok", JBool true);
                ("metrics", jsOr metrics res);
                ("source", JStr "metastats")]))
    (fun err =>
       if match status_of err with Some s => Z.eqb s 403 | None => false end then
         tryCatch
           (metaFetch (provisioningUrl REGION +:+ "/users/current/accounts/" +:+ toStr id
                       +:+ "/enable-metastats-api")
                      (mkOpts (Some 0) (Some "PUT") (Some (JObj []))) ;;
            ret tt)
           (fun _ => ret tt) ;;
         ret (JObj [("ok", JBool false);
                    ("metrics", JNull);
                    ("source", JStr "none");
                    ("reason", JStr "metastats_enabling")])
       else throw (HttpsError "internal" (message_of err))).

(** The first [try] block of [getTrades]. *)
Definition tradesPrimary (id start end_ : JsVal) : M JsVal :=
  let! res :=
    metaFetch (metastatsUrl REGION +:+ "/users/current/accounts/" +:+ toStr id
               +:+ "/historical-trades/time/" +:+ toStr start +:+ "/" +:+ toStr end_
               +:+ "?updateHistory=true") noOpts in
  let! trades := lift (getProp res "trades") in
  ret (JObj [("trades", jsOr trades (if isArray res then res else JArr []));
             ("source", JStr "metastats")]).

(** The second [try] block of [getTrades]. *)
Definition tradesSecondary (id start end_ : JsVal) : M JsVal :=
  let! res :=
    metaFetch (clientUrl REGION +:+ "/users/current/accounts/" +:+ toStr id
               +:+ "/history-deals/time/" +:+ toStr start +:+ "/" +:+ toStr end_)
              noOpts in
  let! trades :=
    if isArray res then ret res
    else (let! deals := lift (getProp res "deals") in ret (jsOr deals (JArr []))) in
  ret (JObj [("trades", trades); ("source", JStr "client")]).

(** [data?.k]. *)
Definition optChain (v : JsVal) (k : string) : Completion JsVal :=
  match v with
  | JUndefined | JNull => Normal JUndefined
  | _ => getProp v k
  end.

Definition getTrades (data : JsVal) (ctx : CallableContext) : M JsVal :=
  let! auth := requireAuth ctx in
  let! id := getAccountId (auth_uid auth) in
  let! t1 := dateNow in
  let now := toISOString t1 in
  let! t2 := dateNow in
  let ago := toISOString (t2 - 365 * 86400000) in
  let! startDate := lift (optChain data "startDate") in
  let start := jsOr startDate (JStr ago) in
  let! endDate := lift (optChain data "endDate") in
  let end_ := jsOr endDate (JStr now) in
  tryCatch (tradesPrimary id start end_)
    (fun _ =>
       tryCatch (tradesSecondary id start end_)
         (fun err => throw (HttpsError "internal" (message_of err)))).

Definition getDailyGrowth (_data : JsVal) (ctx : CallableContext) : M JsVal :=
  let! auth := requireAuth ctx in
  let! id := getAccountId (auth_uid auth) in
  tryCatch
    (let! res :=
       metaFetch (metastatsUrl REGION +:+ "/users/current/accounts/" +:+ toStr id
                  +:+ "/daily-growth") noOpts in
     let! growth := lift (getProp res "dailyGrowth") in
     ret (JObj [("data", jsOr growth (if isArray res then res else JArr []))]))
    (fun _ => ret (JObj [("data", JArr [])])).

Definition disconnectBroker (_data : JsVal) (ctx : CallableContext) : M JsVal :=
  let! auth := requireAuth ctx in
  let uid := auth_uid auth in
  let! doc := docGet uid in
  match doc with
  | None => ret (JObj [("ok", JBool true)])
  | Some d =>
      if negb (truthy (field d "metaApiAccountId")) then ret (JObj [("ok", JBool true)])
      else
        let id := field d "metaApiAccountId" in
        tryCatch
          (metaFetch (provisioningUrl REGION +:+ "/users/current/accounts/" +:+ toStr id)
                     (mkOpts (Some 0) (Some "DELETE") None) ;;
           ret tt)
          (fun _ => ret tt) ;;
        docUpdate uid
          [("metaApiAccountId", WDelete);
           ("brokerServer", WDelete);
           ("mtLogin", WDelete);
           ("disconnectedAt", WServerTimestamp)] ;;
        ret (JObj [("ok", JBool true)])
  end.

End Handlers.
End V1.

(** ** Observations, requests and sample worlds used by the statements *)

(** The number of HTTP requests in a stretch of the trace. *)
Fixpoint fetchCount (l : list Event) : nat :=
  match l with
  | [] => O
  | EvFetch _ :: r => S (fetchCount r)
  | EvSleep _ :: r => fetchCount r
  end.

(** The requests of a stretch of the trace, in order. *)
Fixpoint requestsOf (l : list Event) : list Request :=
  match l with
  | [] => []
  | EvFetch q :: r => q :: requestsOf r
  | EvSleep _ :: r => requestsOf r
  end.

(** An event of [metaFetch] for request [req]: the request itself, or a sleep
    of at most 15 seconds. *)
Definition clientEvent (req : Request) (e : Event) : Prop :=
  match e with
  | EvFetch q => q = req
  | EvSleep ms => 1 <= ms <= 15000
  end.

(** [v == null]: the two values whose properties cannot be read. *)
Definition nullish (v : JsVal) : bool :=
  match v with JUndefined | JNull => true | _ => false end.

(** An upstream service that answers every request with 202 and no hint. *)
Definition busy : Upstream :=
  fun _ _ => Responded (mkResponse 202 None (NotJson "")).

Definition emptyWorld : World := mkWorld ∅ 0 [].

(** The options [{ retries: 0 }]. *)
Definition singleAttempt : Opts := mkOpts (Some 0) None None.

(** A service whose answer carries a retry-after hint of one hour. *)
Definition busyHour : Upstream :=
  fun _ _ => Responded (mkResponse 202 (Some "3600") (NotJson "")).

(** A service that refuses with 403 and a JSON error body. *)
Definition forbidden : Upstream :=
  fun _ _ =>
    Responded (mkResponse 403 None
                 (Json (JObj [("error", JStr "ForbiddenError");
                              ("message", JStr "MetaStats API is not enabled")]))).

(** The fields [disconnectBroker] deletes. *)
Definition unlinkedKeys : list string := ["metaApiAccountId"; "brokerServer"; "mtLogin"].

(** What a call of [disconnectBroker] by the authenticated caller [a] in world
    [w] must have produced. *)
Definition disconnected (a : Auth) (w : World) (out : Completion JsVal * World) : Prop :=
  fst out = Normal (JObj [("ok", JBool true)]) /\
  (match store w !! auth_uid a with
   | Some d => truthy (field d "metaApiAccountId") = false
   | None => True
   end -> snd out = w) /\
  (forall d,
      store w !! auth_uid a = Some d ->
      truthy (field d "metaApiAccountId") = true ->
      exists d',
        store (snd out) !! auth_uid a = Some d' /\
        (forall k, In k unlinkedKeys -> d' !! k = None) /\
        d' !! "disconnectedAt" = Some (JTimestamp (clock (snd out))) /\
        (forall k, ~ In k unlinkedKeys -> k <> "disconnectedAt" -> d' !! k = d !! k) /\
        (forall u, u <> auth_uid a -> store (snd out) !! u = store w !! u)).

(** A user linked to account ["acc-1"]. *)
Definition alice : Auth := mkAuth "alice" (JStr "alice@example.com").

Definition aliceDoc : gmap string JsVal :=
  <["metaApiAccountId" := JStr "acc-1"]>
  (<["brokerServer" := JStr "Xyz-Live"]>
  (<["mtLogin" := JStr "12345"]>
  (<["platform" := JStr "mt5"]>
  (<["email" := JStr "alice@example.com"]>
  (<["connectedAt" := JTimestamp 1000]> ∅))))).

Definition linkedWorld : World := mkWorld (<["alice" := aliceDoc]> ∅) 5000 [].

(** An upstream service that answers every request with 204 and no body. *)
Definition noContent : Upstream :=
  fun _ _ => Responded (mkResponse 204 None (NotJson "Unexpected end of JSON input")).

(** The world after the two-second sleep that opens a polling round. *)
Definition slept (w : World) : World :=
  mkWorld (store w) (clock w + 2000) (trace w ++ [EvSleep 2000]).

(** The status request of [connectBroker] for account [id]. *)
Definition statusRequest (token : string) (id : JsVal) : Request :=
  requestOf (provisioningUrl "london" +:+ "/users/current/accounts/" +:+ toStr id)
            token singleAttempt.

(** Whether the outcome of a status lookup makes the polling loop stop:
    [st.state === "DEPLOYED" || st.connectionStatus === "CONNECTED"] evaluated
    without throwing. *)
Definition reportsDeployed (c : Completion JsVal) : bool :=
  match c with
  | Normal st =>
      match getProp st "state" with
      | Normal s =>
          if strictEqStr s "DEPLOYED" then true
          else match getProp st "connectionStatus" with
               | Normal cs => strictEqStr cs "CONNECTED"
               | Throw _ => false
               end
      | Throw _ => false
      end
  | Throw _ => false
  end.

(** The events of one polling round: the two-second sleep, the status
    request, and nothing else but the client's own sleep on a 202. *)
Definition pollRound (req : Request) (round : list Event) : Prop :=
  exists rest,
    round = EvSleep 2000 :: EvFetch req :: rest /\
    fetchCount rest = O /\
    (forall e, In e rest -> clientEvent req e).

(** The field [k] of the callable input, [undefined] when there is none. *)
Definition inputField (data : JsVal) (k : string) : JsVal :=
  match getProp data k with Normal v => v | Throw _ => JUndefined end.

(** The input passes the argument check of [connectBroker]. *)
Definition hasCredentials (data : JsVal) : bool :=
  (truthy (inputField data "brokerServer")
   && truthy (inputField data "mtLogin")
   && truthy (inputField data "mtPassword"))%bool.

(** The create-account request for the given input. *)
Definition createRequest (region token : string) (data : JsVal) : Request :=
  mkRequest (provisioningUrl region +:+ "/users/current/accounts") "POST" token
    (Some (JObj [("name", JStr ("DON-" +:+ toStr (inputField data "mtLogin")));
                 ("type", JStr "cloud");
                 ("login", JStr (toStr (inputField data "mtLogin")));
                 ("password", inputField data "mtPassword");
                 ("server", inputField data "brokerServer");
                 ("platform", jsOr (inputField data "platform") (JStr "mt5"));
                 ("region", JStr region);
                 ("application", JStr "MetaApi");
                 ("magic", JNum 0);
                 ("metastatsApiEnabled", JBool true);
                 ("resourceSlots", JNum 1);
                 ("copyFactoryRoles", JArr [])])).

(** A service where every account is deployed. *)
Definition deployedService : Upstream :=
  fun _ _ =>
    Responded (mkResponse 200 None
                 (Json (JObj [("_id", JStr "acc-1"); ("state", JStr "DEPLOYED")]))).

Definition credentials : JsVal :=
  JObj [("brokerServer", JStr "Xyz-Live"); ("mtLogin", JStr "12345");
        ("mtPassword", JStr "p"); ("platform", JStr "mt5")].

(** The document fields written once the account has been created. *)
Definition linkWrites (a : Auth) (data accountId : JsVal) : list (string * FieldWrite) :=
  [("email", WValue (jsOr (auth_email a) (JStr "")));
   ("metaApiAccountId", WValue accountId);
   ("brokerServer", WValue (inputField data "brokerServer"));
   ("mtLogin", WValue (JStr (toStr (inputField data "mtLogin"))));
   ("platform", WValue (jsOr (inputField data "platform") (JStr "mt5")));
   ("connectedAt", WServerTimestamp);
   ("updatedAt", WServerTimestamp)].

(** The success payload that ends [connectBroker]. *)
Definition connectPayload (deployed : bool) : JsVal :=
  JObj [("success", JBool true);
        ("deployed", JBool deployed);
        ("message",
         JStr (if deployed then "Cuenta conectada"
               else "Cuenta creada. Desplegando, intenta en 1-2 min."))].

(** A service that creates the account on POST and reports it deployed on
    every later GET. *)
Definition provisioner : Upstream :=
  fun _ req =>
    if String.eqb (req_method req) "POST"
    then Responded (mkResponse 201 None
                      (Json (JObj [("id", JStr "acc-9"); ("state", JStr "DEPLOYING")])))
    else Responded (mkResponse 200 None
                      (Json (JObj [("_id", JStr "acc-9"); ("state", JStr "DEPLOYED")]))).

(** The metrics request and the enable-statistics request for account [id]. *)
Definition metricsUrl (id : JsVal) : string :=
  metastatsUrl "london" +:+ "/users/current/accounts/" +:+ toStr id +:+ "/metrics".

Definition enableRequest (token : string) (id : JsVal) : Request :=
  mkRequest (provisioningUrl "london" +:+ "/users/current/accounts/" +:+ toStr id
             +:+ "/enable-metastats-api") "PUT" token (Some (JObj [])).

(** [request.data && request.data.k]. *)
Definition rangeField (data : JsVal) (k : string) : JsVal :=
  if truthy data then inputField data k else data.

(** The requests to the two sources of [getTrades]. *)
Definition primaryRequest (token : string) (id start end_ : JsVal) : Request :=
  mkRequest (metastatsUrl "london" +:+ "/users/current/accounts/" +:+ toStr id
             +:+ "/historical-trades/time/" +:+ toStr start +:+ "/" +:+ toStr end_
             +:+ "?updateHistory=true") "GET" token None.

Definition secondaryRequest (token : string) (id start end_ : JsVal) : Request :=
  mkRequest (clientUrl "london" +:+ "/users/current/accounts/" +:+ toStr id
             +:+ "/history-deals/time/" +:+ toStr start +:+ "/" +:+ toStr end_)
            "GET" token None.

(** The events a handler appended to the trace of [w]. *)
Definition newEvents (w w' : World) : list Event := drop (length (trace w)) (trace w').

(** A service whose statistics endpoints refuse with 403 and whose
    trading-session endpoints answer with one deal. *)
Definition statsDisabled : Upstream :=
  fun _ req =>
    if String.prefix "https://metastats" (req_url req)
    then Responded (mkResponse 403 None (Json (JObj [("message", JStr "Forbidden")])))
    else Responded (mkResponse 200 None (Json (JArr [JObj [("id", JStr "deal-1")]]))).

Definition range2024 : JsVal :=
  JObj [("startDate", JStr "2024-01-01"); ("endDate", JStr "2024-12-31")].

(** Two failures of the same kind: equal, or typed failures with the same
    code whose message may differ only for the codes [unauthenticated] and
    [already-exists], or two [TypeError]s. *)
Definition sameFailure (e1 e2 : Thrown) : Prop :=
  match e1, e2 with
  | HttpsError c1 m1, HttpsError c2 m2 =>
      c1 = c2 /\ (c1 = "unauthenticated" \/ c1 = "already-exists" \/ m1 = m2)
  | TypeError _, TypeError _ => True
  | _, _ => e1 = e2
  end.

(** A payload without its [message] and [accountId] fields. *)
Definition dropWording (v : JsVal) : JsVal :=
  match v with
  | JObj fields =>
      JObj (List.filter
              (fun kv => negb (String.eqb (fst kv) "message"
                               || String.eqb (fst kv) "accountId")%bool) fields)
  | _ => v
  end.

Definition sameModuloWording (v1 v2 : JsVal) : Prop := dropWording v1 = dropWording v2.

(** Two runs agree: same final world, and both return results related by
    [R] or both fail with failures of the same kind. *)
Definition agree (R : JsVal -> JsVal -> Prop) (o1 o2 : Completion JsVal * World) : Prop :=
  snd o1 = snd o2 /\
  match fst o1, fst o2 with
  | Normal v1, Normal v2 => R v1 v2
  | Throw e1, Throw e2 => sameFailure e1 e2
  | _, _ => False
  end.

(** ** Budgets and frames of a whole invocation *)

(** The number of attempts a call of [metaFetch] may make. *)
Definition attempts (opts : Opts) : Z := Z.max 0 (maxRetriesOf opts + 1).

(** What the client makes of the first answer that is not a 202. *)
Definition settle (o : FetchOutcome) : Completion JsVal :=
  match o with
  | Rejected m => Throw (FetchRejection m)
  | Responded r =>
      if res_ok r then
        match res_body r with
        | Json v => Normal v
        | NotJson m => Throw (SyntaxError m)
        end
      else Throw (upstreamError r)
  end.

(** A URL under one of the three base URLs of the upstream service. *)
Definition relayUrl (url : string) : Prop :=
  String.prefix (provisioningUrl "london") url = true \/
  String.prefix (clientUrl "london") url = true \/
  String.prefix (metastatsUrl "london") url = true.

(** A request to the upstream service that carries the credential. *)
Definition relayRequest (token : string) (q : Request) : Prop :=
  req_token q = token /\ relayUrl (req_url q).

(** A computation moves every world [w] to one related to it by [R n]. *)
Definition spends (R : Z -> World -> World -> Prop) (n : Z) {A : Type} (m : M A) : Prop :=
  forall w, R n w (snd (m w)).

(** At most [n] requests were appended, all of them relay requests with the
    credential [token], and no record but that of [uid] has changed. *)
Definition relayed (token uid : string) (n : Z) (w w' : World) : Prop :=
  exists evs,
    trace w' = trace w ++ evs /\
    Z.of_nat (fetchCount evs) <= n /\
    (forall q, In q (requestsOf evs) -> relayRequest token q) /\
    (forall u, u <> uid -> store w' !! u = store w !! u).

(** At most [n] milliseconds have been slept, and time has not gone back. *)
Definition elapsed (n : Z) (w w' : World) : Prop :=
  clock w <= clock w' <= clock w + n.

(** The store is as it was. *)
Definition storeKept (n : Z) (w w' : World) : Prop := store w' = store w.

(** A run that fails with the typed failure [code] and leaves the world as it
    was. *)
Definition rejectedAs (code : string) (w : World) (out : Completion JsVal * World) : Prop :=
  exists message, out = (Throw (HttpsError code message), w).

(** [doc.exists && doc.data().metaApiAccountId], as a truth value: the caller
    has a linked broker account. *)
Definition linked (w : World) (uid : string) : bool :=
  match store w !! uid with
  | Some d => truthy (field d "metaApiAccountId")
  | None => false
  end.

(** A service that answers 202 to the first two requests of an invocation
    and then 200 with an account. *)
Definition readyAtThird : Upstream :=
  fun h _ =>
    if Nat.ltb (fetchCount h) 2
    then Responded (mkResponse 202 (Some "1") (NotJson ""))
    else Responded (mkResponse 200 None (Json (JObj [("state", JStr "DEPLOYED")]))).

(** The options of the create-account call for the given input. *)
Definition createOpts (token : string) (data : JsVal) : Opts :=
  mkOpts (Some 0) (Some "POST") (req_body (createRequest "london" token data)).

(** A service that refuses every request with 400 because the account is
    already registered. *)
Definition duplicateAccount : Upstream :=
  fun _ _ =>
    Responded (mkResponse 400 None
                 (Json (JObj [("message", JStr "Account already exists in the system")]))).

(** The fields [connectBroker] writes into the caller's record. *)
Definition linkKeys : list string :=
  ["email"; "metaApiAccountId"; "brokerServer"; "mtLogin"; "platform";
   "connectedAt"; "updatedAt"].

(** The daily-growth URL and the DELETE request for account [id]. *)
Definition dailyGrowthUrl (id : JsVal) : string :=
  metastatsUrl "london" +:+ "/users/current/accounts/" +:+ toStr id +:+ "/daily-growth".

Definition deleteRequest (token : string) (id : JsVal) : Request :=
  mkRequest (provisioningUrl "london" +:+ "/users/current/accounts/" +:+ toStr id)
            "DELETE" token None.

(** ** Error bodies *)

(** Whether [String(v)] prints every number of [v] digit for digit: an integer
    below 2^53 in absolute value is a double, and prints as its decimal
    numeral. *)
Fixpoint exactNumbers (v : JsVal) : bool :=
  match v with
  | JNum n => Z.ltb (Z.abs n) (2 ^ 53)
  | JArr items => forallb exactNumbers items
  | _ => true
  end.

(** Services that fail with 500 and an error body whose [message] is the
    empty string, or the number 0. *)
Definition emptyMessage : Upstream :=
  fun _ _ => Responded (mkResponse 500 None (Json (JObj [("message", JStr "")]))).

Definition zeroMessage : Upstream :=
  fun _ _ => Responded (mkResponse 500 None (Json (JObj [("message", JNum 0)]))).

(** ** The polling rounds of Connect *)

(** One round of the polling loop of [connectBroker] started in world [w]:
    the two-second sleep, then the single-attempt status lookup. *)
Definition pollOnce (upstream : Upstream) (token : string) (id : JsVal) (w : World)
  : Completion JsVal * World :=
  V2.metaFetch upstream
    (provisioningUrl "london" +:+ "/users/current/accounts/" +:+ toStr id)
    token singleAttempt (slept w).

(** The world in which round [j] (counted from 0) starts when the loop is
    entered in world [w] and no earlier round has stopped it. *)
Fixpoint roundStart (upstream : Upstream) (token : string) (id : JsVal) (j : nat)
    (w : World) : World :=
  match j with
  | O => w
  | S j' => roundStart upstream token id j' (snd (pollOnce upstream token id w))
  end.

(** Whether the lookup of round [j] reports the account deployed. *)
Definition roundReports (upstream : Upstream) (token : string) (id : JsVal) (j : nat)
    (w : World) : bool :=
  reportsDeployed (fst (pollOnce upstream token id (roundStart upstream token id j w))).

(** Services that answer the create-account POST with 201 and an account
    without [id], or with the body [null]. *)
Definition idlessProvisioner : Upstream :=
  fun _ _ => Responded (mkResponse 201 None (Json (JObj [("state", JStr "DEPLOYING")]))).

Definition nullProvisioner : Upstream :=
  fun _ _ => Responded (mkResponse 201 None (Json JNull)).

(** A service that creates the account on POST and answers every later
    status lookup with 202 and no hint. *)
Definition slowProvisioner : Upstream :=
  fun _ req =>
    if String.eqb (req_method req) "POST"
    then Responded (mkResponse 201 None
                      (Json (JObj [("id", JStr "acc-9"); ("state", JStr "DEPLOYING")])))
    else Responded (mkResponse 202 None (NotJson "")).

(** ** The two files side by side: what may differ *)

(** A value that [+] and a template literal convert to the same text: every
    value but a Firestore timestamp, which a template literal converts through
    [toString] and [+] through [valueOf]. *)
Definition sameText (v : JsVal) : Prop := forall t, v <> JTimestamp t.

(** The values that one file splices into a URL with [+] and the other with a
    template literal are converted alike: the account identifier stored for
    the caller, the dates of the input, and the identifier of any account the
    service returns. *)
Definition splicedAlike (upstream : Upstream) (auth : option Auth) (data : JsVal)
    (w : World) : Prop :=
  (forall a d, auth = Some a -> store w !! auth_uid a = Some d ->
               sameText (field d "metaApiAccountId")) /\
  sameText (inputField data "startDate") /\
  sameText (inputField data "endDate") /\
  (forall h q r v, upstream h q = Responded r -> res_body r = Json v ->
                   sameText (inputField v "id")).

(** Two presentations of one answer of the service: the same response
    (status, retry-after hint, parsed body), or a failure of [fetch] in both;
    only the messages worded by the [fetch] implementation may differ. *)
Definition sameAnswer (o2 o1 : FetchOutcome) : Prop :=
  match o2, o1 with
  | Responded r2, Responded r1 =>
      res_status r2 = res_status r1 /\
      res_retryAfter r2 = res_retryAfter r1 /\
      match res_body r2, res_body r1 with
      | Json v2, Json v1 => v2 = v1
      | NotJson _, NotJson _ => True
      | _, _ => False
      end
  | Rejected _, Rejected _ => True
  | _, _ => False
  end.

(** One service seen through two [fetch] implementations. *)
Definition sameService (upstream2 upstream1 : Upstream) : Prop :=
  forall h q, sameAnswer (upstream2 h q) (upstream1 h q).

(** An answer on which the [fetch] implementation itself fails: a rejection
    of [fetch], or a body that is not JSON where [res.json()] is called. *)
Definition failsInLibrary (o : FetchOutcome) : Prop :=
  match o with
  | Rejected _ => True
  | Responded r =>
      res_status r <> 202 /\ res_ok r = true /\ exists m, res_body r = NotJson m
  end.

(** The last thing the invocation did was to send a request on whose answer
    the [fetch] implementation failed. *)
Definition endsInLibrary (upstream : Upstream) (w' : World) : Prop :=
  exists h q, trace w' = h ++ [EvFetch q] /\ failsInLibrary (upstream h q).

(** Two failures that surface a failure of the [fetch] implementation: the
    error of the implementation as it is, or a typed failure built from its
    message ([internal], or [already-exists] when the message says so). *)
Definition libraryWorded (e2 e1 : Thrown) : Prop :=
  match e2, e1 with
  | FetchRejection _, FetchRejection _ => True
  | SyntaxError _, SyntaxError _ => True
  | HttpsError c2 _, HttpsError c1 _ =>
      (c2 = "internal" \/ c2 = "already-exists") /\
      (c1 = "internal" \/ c1 = "already-exists")
  | _, _ => False
  end.

(** Two runs of the same code against two presentations of the service: the
    same final world, and the same result unless both fail on a failure of the
    [fetch] implementation. *)
Definition alike {A : Type} (upstream : Upstream) (o2 o1 : Completion A * World) : Prop :=
  snd o2 = snd o1 /\
  (fst o2 = fst o1 \/
   exists e2 e1, fst o2 = Throw e2 /\ fst o1 = Throw e1 /\
                 libraryWorded e2 e1 /\ endsInLibrary upstream (snd o2)).

(** Two runs, one of each file, agree: the same final world, and both return
    results related by [R] or both fail; the failures are of the same kind
    unless the invocation ended on a failure of the [fetch] implementation,
    which each file reports in the words of its own. *)
Definition agreeModuloLibrary (R : JsVal -> JsVal -> Prop) (upstream : Upstream)
    (o2 o1 : Completion JsVal * World) : Prop :=
  snd o2 = snd o1 /\
  match fst o2, fst o1 with
  | Normal v2, Normal v1 => R v2 v1
  | Throw e2, Throw e1 =>
      sameFailure e2 e1 \/ (libraryWorded e2 e1 /\ endsInLibrary upstream (snd o2))
  | _, _ => False
  end.

(** A service that cannot be reached, as the [fetch] of the runtime reports
    it and as [node-fetch] does. *)
Definition unreachable : Upstream := fun _ _ => Rejected "fetch failed".

Definition unreachableNodeFetch : Upstream :=
  fun _ q => Rejected ("request to " +:+ req_url q
                       +:+ " failed, reason: connect ECONNREFUSED 127.0.0.1:443").

(** ** Observing a run *)

Lemma fetchCount_app (l1 l2 : list Event) :
  fetchCount (l1 ++ l2) = (fetchCount l1 + fetchCount l2)%nat.
Proof.
  induction l1 as [|e l1 IH]; simpl; [reflexivity|].
  destruct e; simpl; rewrite IH; reflexivity.
Qed.

Lemma requestsOf_app (l1 l2 : list Event) :
  requestsOf (l1 ++ l2) = requestsOf l1 ++ requestsOf l2.
Proof.
  induction l1 as [|e l1 IH]; simpl; [reflexivity|].
  destruct e; simpl; rewrite IH; reflexivity.
Qed.

Lemma fetchCount_requestsOf (l : list Event) : fetchCount l = length (requestsOf l).
Proof.
  induction l as [|e l IH]; simpl; [reflexivity|].
  destruct e; simpl; rewrite IH; reflexivity.
Qed.

Lemma timerDelay_range (d : option Z) : 1 <= timerDelay d <= 2147483647.
Proof.
  unfold timerDelay. destruct d as [d|]; [|lia].
  destruct (Z.leb 1 d && Z.leb d 2147483647)%bool eqn:E; [|lia].
  apply andb_prop in E. destruct E as [E1 E2].
  apply Z.leb_le in E1. apply Z.leb_le in E2. lia.
Qed.

Lemma retryDelay_le (r : Response) : 1 <= timerDelay (retryDelay r) <= 15000.
Proof.
  split; [apply timerDelay_range|].
  unfold retryDelay.
  destruct (parseInt _) as [wait|]; simpl; [|lia].
  destruct (Z.leb 1 (Z.min wait 15 * 1000) && Z.leb (Z.min wait 15 * 1000) 2147483647)%bool;
    lia.
Qed.

Ltac run := unfold bind, tryCatch, fetch, sleep, ret, throw, lift, resJson,
                   docGet, dateNow, log in *; simpl in *.

Section ClientFacts.

Variable upstream : Upstream.

(** One iteration of the loop, by the answer of the upstream service. *)
Lemma metaFetchLoop_202 n req w r :
  upstream (trace w) req = Responded r ->
  res_status r = 202 ->
  V2.metaFetchLoop upstream (S n) req w =
  V2.metaFetchLoop upstream n req
    (mkWorld (store w) (clock w + timerDelay (retryDelay r))
       (trace w ++ [EvFetch req; EvSleep (timerDelay (retryDelay r))])).
Proof.
  intros Hup H202. simpl. run. rewrite Hup. simpl. rewrite H202. simpl.
  rewrite <- app_assoc. reflexivity.
Qed.

Lemma metaFetchLoop_error n req w r :
  upstream (trace w) req = Responded r ->
  res_status r <> 202 ->
  res_ok r = false ->
  V2.metaFetchLoop upstream (S n) req w =
  (Throw (upstreamError r), log (EvFetch req) w).
Proof.
  intros Hup H202 Hok. simpl. run. rewrite Hup. simpl.
  destruct (Z.eqb_spec (res_status r) 202); [contradiction|].
  rewrite Hok. reflexivity.
Qed.

Lemma metaFetchLoop_ok n req w r :
  upstream (trace w) req = Responded r ->
  res_status r <> 202 ->
  res_ok r = true ->
  V2.metaFetchLoop upstream (S n) req w =
  (match res_body r with Json v => Normal v | NotJson m => Throw (SyntaxError m) end,
   log (EvFetch req) w).
Proof.
  intros Hup H202 Hok. simpl. run. rewrite Hup. simpl.
  destruct (Z.eqb_spec (res_status r) 202); [contradiction|].
  rewrite Hok. simpl. destruct (res_body r); reflexivity.
Qed.

Lemma metaFetchLoop_rejected n req w m :
  upstream (trace w) req = Rejected m ->
  V2.metaFetchLoop upstream (S n) req w =
  (Throw (FetchRejection m), log (EvFetch req) w).
Proof.
  intros Hup. simpl. run. rewrite Hup. reflexivity.
Qed.

(** What any run of the loop leaves behind: the store untouched, at most [n]
    requests, all of them [req], and sleeps of at most 15 seconds. *)
Lemma metaFetchLoop_frame n : forall req w,
  exists evs,
    trace (snd (V2.metaFetchLoop upstream n req w)) = trace w ++ evs /\
    store (snd (V2.metaFetchLoop upstream n req w)) = store w /\
    (fetchCount evs <= n)%nat /\
    (forall e, In e evs -> clientEvent req e).
Proof.
  induction n as [|n IH]; intros req w.
  - exists []. simpl. rewrite app_nil_r. repeat split; auto. intros e [].
  - destruct (upstream (trace w) req) as [r|m] eqn:Hup.
    + destruct (Z.eq_dec (res_status r) 202) as [H202|H202].
      * rewrite (metaFetchLoop_202 n req w r Hup H202).
        destruct (IH req (mkWorld (store w) (clock w + timerDelay (retryDelay r))
                            (trace w ++ [EvFetch req; EvSleep (timerDelay (retryDelay r))])))
          as (evs & Ht & Hs & Hc & He).
        exists ([EvFetch req; EvSleep (timerDelay (retryDelay r))] ++ evs).
        rewrite Ht, Hs. simpl. rewrite <- app_assoc. simpl.
        repeat split; auto; [lia|].
        intros e [<-|[<-|Hin]]; simpl; auto using retryDelay_le.
      * exists [EvFetch req].
        destruct (res_ok r) eqn:Hok.
        -- rewrite (metaFetchLoop_ok n req w r Hup H202 Hok). simpl.
           repeat split; auto; [lia|]. intros e [<-|[]]. reflexivity.
        -- rewrite (metaFetchLoop_error n req w r Hup H202 Hok). simpl.
           repeat split; auto; [lia|]. intros e [<-|[]]. reflexivity.
    + exists [EvFetch req]. rewrite (metaFetchLoop_rejected n req w m Hup). simpl.
      repeat split; auto; [lia|]. intros e [<-|[]]. reflexivity.
Qed.

End ClientFacts.

(** ** The upstream client *)

Section ClientRetry.

Variable upstream : Upstream.

(** Whenever an iteration starts, its request is sent. *)
Lemma metaFetchLoop_first n req w :
  exists rest,
    trace (snd (V2.metaFetchLoop upstream (S n) req w)) = trace w ++ EvFetch req :: rest /\
    (fetchCount rest <= n)%nat /\
    (forall e, In e rest -> clientEvent req e).
Proof.
  destruct (upstream (trace w) req) as [r|m] eqn:Hup.
  - destruct (Z.eq_dec (res_status r) 202) as [H202|H202].
    + rewrite (metaFetchLoop_202 upstream n req w r Hup H202).
      destruct (metaFetchLoop_frame upstream n req
                  (mkWorld (store w) (clock w + timerDelay (retryDelay r))
                     (trace w ++ [EvFetch req; EvSleep (timerDelay (retryDelay r))])))
        as (evs & Ht & _ & Hc & He).
      exists (EvSleep (timerDelay (retryDelay r)) :: evs).
      rewrite Ht. simpl. rewrite <- app_assoc. simpl.
      repeat split; auto.
      intros e [<-|Hin]; simpl; auto using retryDelay_le.
    + exists []. destruct (res_ok r) eqn:Hok.
      * rewrite (metaFetchLoop_ok upstream n req w r Hup H202 Hok). simpl.
        repeat split; auto; [lia|]. intros e [].
      * rewrite (metaFetchLoop_error upstream n req w r Hup H202 Hok). simpl.
        repeat split; auto; [lia|]. intros e [].
  - exists []. rewrite (metaFetchLoop_rejected upstream n req w m Hup). simpl.
    repeat split; auto; [lia|]. intros e [].
Qed.

(** When every answer is 202 the loop uses all its iterations. *)
Lemma metaFetchLoop_busy req :
  (forall h, exists r, upstream h req = Responded r /\ res_status r = 202) ->
  forall n w,
  exists evs w',
    V2.metaFetchLoop upstream n req w = (Throw stillProcessing, w') /\
    trace w' = trace w ++ evs /\
    store w' = store w /\
    fetchCount evs = n.
Proof.
  intros Hbusy n. induction n as [|n IH]; intros w.
  - exists [], w. simpl. rewrite app_nil_r. auto.
  - destruct (Hbusy (trace w)) as (r & Hup & H202).
    rewrite (metaFetchLoop_202 upstream n req w r Hup H202).
    destruct (IH (mkWorld (store w) (clock w + timerDelay (retryDelay r))
                    (trace w ++ [EvFetch req; EvSleep (timerDelay (retryDelay r))])))
      as (evs & w' & Hrun & Ht & Hs & Hc).
    exists ([EvFetch req; EvSleep (timerDelay (retryDelay r))] ++ evs), w'.
    rewrite Hrun, Ht, Hs. simpl. rewrite <- app_assoc. simpl.
    repeat split; auto.
Qed.

End ClientRetry.

(** After [k] answers of 202 the next answer decides the call. *)
Lemma metaFetchLoop_decided (upstream : Upstream) (req : Request) (k : nat) :
  forall (n : nat) (w : World) (o : FetchOutcome),
  (k < n)%nat ->
  (forall evs, (fetchCount evs < k)%nat ->
               exists r, upstream (trace w ++ evs) req = Responded r /\ res_status r = 202) ->
  (forall evs, fetchCount evs = k -> upstream (trace w ++ evs) req = o) ->
  (forall r, o = Responded r -> res_status r <> 202) ->
  exists evs w',
    V2.metaFetchLoop upstream n req w = (settle o, w') /\
    trace w' = trace w ++ evs /\
    fetchCount evs = S k /\
    store w' = store w.
Proof.
  induction k as [|k IH]; intros n w o Hlt Hbusy Hfinal Hnot.
  - destruct n as [|n]; [lia|].
    pose proof (Hfinal [] eq_refl) as Hup. rewrite app_nil_r in Hup.
    exists [EvFetch req], (log (EvFetch req) w).
    split; [|simpl; auto].
    destruct o as [r|m].
    + pose proof (Hnot r eq_refl) as H202.
      destruct (res_ok r) eqn:Hok; simpl; rewrite Hok.
      * apply (metaFetchLoop_ok upstream n req w r Hup H202 Hok).
      * apply (metaFetchLoop_error upstream n req w r Hup H202 Hok).
    + apply (metaFetchLoop_rejected upstream n req w m Hup).
  - destruct n as [|n]; [lia|].
    destruct (Hbusy [] ltac:(simpl; lia)) as (r0 & Hup & H202).
    rewrite app_nil_r in Hup.
    rewrite (metaFetchLoop_202 upstream n req w r0 Hup H202).
    destruct (IH n (mkWorld (store w) (clock w + timerDelay (retryDelay r0))
                      (trace w ++ [EvFetch req; EvSleep (timerDelay (retryDelay r0))])) o)
      as (evs & w' & Hrun & Ht & Hc & Hs); [lia| | |exact Hnot|].
    + intros evs Hev. simpl. rewrite <- app_assoc. apply Hbusy.
      rewrite fetchCount_app. simpl. lia.
    + intros evs Hev. simpl. rewrite <- app_assoc. apply Hfinal.
      rewrite fetchCount_app. simpl. lia.
    + exists ([EvFetch req; EvSleep (timerDelay (retryDelay r0))] ++ evs), w'.
      rewrite Hrun, Ht, Hs. simpl. rewrite <- app_assoc. simpl.
      repeat split; auto.
Qed.

(** C2, as amended: when every response has status 202 the client performs
    exactly [maxRetries + 1] request attempts (the first one and [maxRetries]
    retries; none at all for a negative [maxRetries]) and then fails with the
    still-processing error, which carries no status, whereas every upstream
    error carries one, and which is not a rejection of [fetch]. *)
Theorem metaFetch_still_processing (upstream : Upstream) (url token : string)
    (opts : Opts) (w : World) :
  (forall h, exists r,
      upstream h (requestOf url token opts) = Responded r /\ res_status r = 202) ->
  exists evs w',
    V2.metaFetch upstream url token opts w = (Throw stillProcessing, w') /\
    trace w' = trace w ++ evs /\
    Z.of_nat (fetchCount evs) = Z.max 0 (maxRetriesOf opts + 1) /\
    status_of stillProcessing = None /\
    (forall r, status_of (upstreamError r) = Some (res_status r)) /\
    (forall r, stillProcessing <> upstreamError r) /\
    (forall m, stillProcessing <> FetchRejection m).
Proof.
  intros Hbusy. unfold V2.metaFetch.
  destruct (metaFetchLoop_busy upstream _ Hbusy (Z.to_nat (maxRetriesOf opts + 1)) w)
    as (evs & w' & Hrun & Ht & _ & Hc).
  exists evs, w'. rewrite Hc.
  repeat split; auto; try lia; try discriminate.
Qed.

Lemma metaFetch_still_processing_witness :
  exists evs w',
    V2.metaFetch busy "u" "t" noOpts emptyWorld = (Throw stillProcessing, w') /\
    trace w' = trace emptyWorld ++ evs /\
    Z.of_nat (fetchCount evs) = Z.max 0 (maxRetriesOf noOpts + 1) /\
    status_of stillProcessing = None /\
    (forall r, status_of (upstreamError r) = Some (res_status r)) /\
    (forall r, stillProcessing <> upstreamError r) /\
    (forall m, stillProcessing <> FetchRejection m).
Proof.
  apply (metaFetch_still_processing busy "u" "t" noOpts emptyWorld).
  intros h. exists (mkResponse 202 None (NotJson "")). split; reflexivity.
Defined.

(** C2, as stated, fails: with the default budget of 5 and a service that
    always answers 202, six requests are sent, not at most five. *)
Lemma metaFetch_attempts_exceed_maxRetries :
  (forall h q, exists r, busy h q = Responded r /\ res_status r = 202) /\
  maxRetriesOf noOpts = 5 /\
  fetchCount (trace (snd (V2.metaFetch busy "u" "t" noOpts emptyWorld))) = 6%nat /\
  ~ (Z.of_nat (fetchCount (trace (snd (V2.metaFetch busy "u" "t" noOpts emptyWorld))))
     <= maxRetriesOf noOpts).
Proof.
  split; [|split; [|split]].
  - intros h q. eexists. split; reflexivity.
  - reflexivity.
  - vm_compute. reflexivity.
  - vm_compute. intros H. apply H. reflexivity.
Qed.

(** C3, as amended: when the first response has status 202 the client
    performs at most [maxRetries + 1] request attempts, retries at least once
    provided [maxRetries] is at least 1, and every sleep lasts at most 15
    seconds whatever the retry-after hint says. *)
Theorem metaFetch_retry_bounds (upstream : Upstream) (url token : string)
    (opts : Opts) (w : World) (r : Response) :
  upstream (trace w) (requestOf url token opts) = Responded r ->
  res_status r = 202 ->
  exists evs,
    trace (snd (V2.metaFetch upstream url token opts w)) = trace w ++ evs /\
    Z.of_nat (fetchCount evs) <= Z.max 0 (maxRetriesOf opts + 1) /\
    (1 <= maxRetriesOf opts -> (2 <= fetchCount evs)%nat) /\
    (forall ms, In (EvSleep ms) evs -> ms <= 15000).
Proof.
  intros Hup H202. unfold V2.metaFetch.
  destruct (metaFetchLoop_frame upstream (Z.to_nat (maxRetriesOf opts + 1))
              (requestOf url token opts) w) as (evs & Ht & _ & Hc & He).
  exists evs. split; [exact Ht|]. split; [lia|]. split.
  - intros Hmr.
    destruct (Z.to_nat (maxRetriesOf opts + 1)) as [|[|n]] eqn:En; [lia|lia|].
    rewrite (metaFetchLoop_202 upstream (S n) _ w r Hup H202) in Ht.
    destruct (metaFetchLoop_first upstream n (requestOf url token opts)
                (mkWorld (store w) (clock w + timerDelay (retryDelay r))
                   (trace w ++ [EvFetch (requestOf url token opts);
                                EvSleep (timerDelay (retryDelay r))])))
      as (rest & Ht' & _ & _).
    rewrite Ht' in Ht. simpl in Ht. rewrite <- app_assoc in Ht.
    apply app_inv_head in Ht. subst evs. simpl. lia.
  - intros ms Hin. specialize (He _ Hin). simpl in He. lia.
Qed.

Lemma metaFetch_retry_bounds_witness :
  exists evs,
    trace (snd (V2.metaFetch busyHour "u" "t" noOpts emptyWorld))
    = trace emptyWorld ++ evs /\
    Z.of_nat (fetchCount evs) <= Z.max 0 (maxRetriesOf noOpts + 1) /\
    (1 <= maxRetriesOf noOpts -> (2 <= fetchCount evs)%nat) /\
    (forall ms, In (EvSleep ms) evs -> ms <= 15000).
Proof.
  apply (metaFetch_retry_bounds busyHour "u" "t" noOpts emptyWorld
           (mkResponse 202 (Some "3600") (NotJson ""))); reflexivity.
Defined.

(** C3, as stated, fails: with [retries: 0], as [connectBroker] calls the
    client, a first response 202 is followed by no retry at all. *)
Lemma metaFetch_no_retry_when_retries_0 :
  busy (trace emptyWorld) (requestOf "u" "t" singleAttempt)
  = Responded (mkResponse 202 None (NotJson "")) /\
  fetchCount (trace (snd (V2.metaFetch busy "u" "t" singleAttempt emptyWorld))) = 1%nat /\
  ~ (2 <= fetchCount (trace (snd (V2.metaFetch busy "u" "t" singleAttempt emptyWorld))))%nat /\
  V2.metaFetch busy "u" "t" singleAttempt emptyWorld
  = (Throw stillProcessing,
     mkWorld ∅ 5000 [EvFetch (mkRequest "u" "GET" "t" None); EvSleep 5000]).
Proof.
  split; [reflexivity|]. split; [vm_compute; reflexivity|].
  split; [vm_compute; lia|vm_compute; reflexivity].
Qed.

(** C4, as amended: when the upstream service ends a call of the client with
    a response whose status is neither 202 nor in the 2xx range (the first
    response, or the one that follows [k] answers of 202 within the retry
    budget), the call fails with an error that carries that status.  Its
    message is ["HTTP <status>"] when the body is not JSON, is [null], has no
    [message] field or has a falsy one (the code reads
    [JSON.parse(text).message || msg]); otherwise it is the text of the
    [message] field, [String(message)] (stated for the messages whose numbers
    print digit for digit, see [exactNumbers]). *)
Theorem metaFetch_upstream_error (upstream : Upstream) (url token : string) (opts : Opts)
    (w : World) (k : nat) (r : Response) :
  Z.of_nat k <= maxRetriesOf opts ->
  (forall evs, (fetchCount evs < k)%nat ->
               exists r', upstream (trace w ++ evs) (requestOf url token opts) = Responded r' /\
                          res_status r' = 202) ->
  (forall evs, fetchCount evs = k ->
               upstream (trace w ++ evs) (requestOf url token opts) = Responded r) ->
  res_status r <> 202 ->
  res_ok r = false ->
  exists message w',
    V2.metaFetch upstream url token opts w
    = (Throw (Error message (Some (res_status r))), w') /\
    (forall s, res_body r = NotJson s -> message = "HTTP " +:+ decimal (res_status r)) /\
    (forall v, res_body r = Json v -> nullish v = true ->
               message = "HTTP " +:+ decimal (res_status r)) /\
    (forall fields, res_body r = Json (JObj fields) ->
                    lookupField "message" fields = None ->
                    message = "HTTP " +:+ decimal (res_status r)) /\
    (forall v m, res_body r = Json v -> getProp v "message" = Normal m ->
                 truthy m = false -> message = "HTTP " +:+ decimal (res_status r)) /\
    (forall v m, res_body r = Json v -> getProp v "message" = Normal m ->
                 truthy m = true -> exactNumbers m = true -> message = toStr m).
Proof.
  intros Hk Hbusy Hfinal H202 Hok.
  destruct (metaFetchLoop_decided upstream (requestOf url token opts) k
              (Z.to_nat (maxRetriesOf opts + 1)) w (Responded r))
    as (evs & w' & Hrun & _); [lia|exact Hbusy|exact Hfinal| |].
  { intros r0 Hr0. injection Hr0 as <-. exact H202. }
  unfold settle in Hrun. rewrite Hok in Hrun. unfold upstreamError in Hrun.
  eexists _, w'. split; [exact Hrun|].
  split; [|split; [|split; [|split]]].
  - intros s Hb. rewrite Hb. reflexivity.
  - intros v Hb Hnull. rewrite Hb. destruct v; try discriminate; reflexivity.
  - intros fields Hb Hnone. rewrite Hb. simpl. rewrite Hnone. reflexivity.
  - intros v m Hb Hm Hfalsy. rewrite Hb, Hm. unfold jsOr. rewrite Hfalsy. reflexivity.
  - intros v m Hb Hm Htruthy _. rewrite Hb, Hm. unfold jsOr. rewrite Htruthy. reflexivity.
Qed.

Lemma metaFetch_upstream_error_witness :
  exists w',
    V2.metaFetch forbidden "u" "t" noOpts emptyWorld
    = (Throw (Error "MetaStats API is not enabled" (Some 403)), w').
Proof.
  destruct (metaFetch_upstream_error forbidden "u" "t" noOpts emptyWorld 0
              (mkResponse 403 None
                 (Json (JObj [("error", JStr "ForbiddenError");
                              ("message", JStr "MetaStats API is not enabled")]))))
    as (message & w' & Hrun & _ & _ & _ & _ & Hmsg);
    [vm_compute; discriminate|intros evs Hev; simpl in Hev; lia|reflexivity
    |discriminate|reflexivity|].
  exists w'. rewrite Hrun.
  rewrite (Hmsg (JObj [("error", JStr "ForbiddenError");
                       ("message", JStr "MetaStats API is not enabled")])
             (JStr "MetaStats API is not enabled")); reflexivity.
Defined.

(** C4, as stated, fails: an error body that has a [message] field, but an
    empty one or the number 0, makes the call fail with ["HTTP 500"], not with
    a message taken from that field. *)
Lemma metaFetch_falsy_message_falls_back :
  lookupField "message" [("message", JStr "")] = Some (JStr "") /\
  fst (V2.metaFetch emptyMessage "u" "t" noOpts emptyWorld)
  = Throw (Error "HTTP 500" (Some 500)) /\
  "HTTP 500" <> toStr (JStr "") /\
  lookupField "message" [("message", JNum 0)] = Some (JNum 0) /\
  fst (V2.metaFetch zeroMessage "u" "t" noOpts emptyWorld)
  = Throw (Error "HTTP 500" (Some 500)) /\
  "HTTP 500" <> toStr (JNum 0).
Proof.
  split; [reflexivity|]. split; [vm_compute; reflexivity|]. split; [discriminate|].
  split; [reflexivity|]. split; [vm_compute; reflexivity|]. vm_compute. discriminate.
Qed.

(** ** The two files share the client

    Given one presentation of the service, the clients of the two files are
    the same function. *)

Lemma V1_metaFetchLoop_eq (upstream : Upstream) (n : nat) (req : Request) :
  V1.metaFetchLoop upstream n req = V2.metaFetchLoop upstream n req.
Proof. reflexivity. Qed.

Lemma V1_metaFetch_eq (upstream : Upstream) (configToken : option string)
    (url : string) (opts : Opts) :
  V1.metaFetch upstream configToken url opts
  = V2.metaFetch upstream url (V1.META_TOKEN configToken) opts.
Proof. reflexivity. Qed.

(** A call of the client leaves the store alone, never turns the clock back
    and only appends its own events to the trace. *)
Lemma metaFetch_frame (upstream : Upstream) (url token : string) (opts : Opts) (w : World) :
  exists evs,
    trace (snd (V2.metaFetch upstream url token opts w)) = trace w ++ evs /\
    store (snd (V2.metaFetch upstream url token opts w)) = store w /\
    (fetchCount evs <= Z.to_nat (maxRetriesOf opts + 1))%nat /\
    (forall e, In e evs -> clientEvent (requestOf url token opts) e).
Proof. apply metaFetchLoop_frame. Qed.

(** With [retries: 0] exactly one request is sent. *)
Lemma metaFetch_single (upstream : Upstream) (url token : string) (opts : Opts) (w : World) :
  maxRetriesOf opts = 0 ->
  exists rest,
    trace (snd (V2.metaFetch upstream url token opts w))
    = trace w ++ EvFetch (requestOf url token opts) :: rest /\
    store (snd (V2.metaFetch upstream url token opts w)) = store w /\
    fetchCount rest = O /\
    (forall e, In e rest -> clientEvent (requestOf url token opts) e).
Proof.
  intros H0. unfold V2.metaFetch. rewrite H0. simpl Z.to_nat.
  change (Pos.to_nat 1) with 1%nat.
  destruct (metaFetchLoop_first upstream 0 (requestOf url token opts) w)
    as (rest & Ht & Hc & He).
  destruct (metaFetchLoop_frame upstream 1 (requestOf url token opts) w)
    as (evs & _ & Hs & _).
  exists rest. repeat split; auto. lia.
Qed.

(** ** Disconnect *)

Lemma disconnect_writes (now : Z) (d : gmap string JsVal) :
  let d' := applyWrites now
              [("metaApiAccountId", WDelete); ("brokerServer", WDelete);
               ("mtLogin", WDelete); ("disconnectedAt", WServerTimestamp)] d in
  (forall k, In k unlinkedKeys -> d' !! k = None) /\
  d' !! "disconnectedAt" = Some (JTimestamp now) /\
  (forall k, ~ In k unlinkedKeys -> k <> "disconnectedAt" -> d' !! k = d !! k).
Proof.
  unfold applyWrites, applyWrite, unlinkedKeys. simpl. split; [|split].
  - intros k Hk. destruct Hk as [Hk|[Hk|[Hk|[]]]]; subst k; by simplify_map_eq.
  - by simplify_map_eq.
  - intros k Hk Hd.
    rewrite lookup_insert_ne by congruence.
    rewrite !lookup_delete_ne; [reflexivity| | |]; intros E; apply Hk; subst k; simpl; auto.
Qed.

Lemma V2_disconnect_effect (upstream : Upstream) (token : string) (a : Auth)
    (data : JsVal) (w : World) :
  disconnected a w
    (V2.disconnectBroker upstream token (V2.mkCallableRequest (Some a) data) w).
Proof.
  unfold V2.disconnectBroker, V2.requireAuth, disconnected. run.
  destruct (store w !! auth_uid a) as [d|] eqn:Hd.
  - destruct (truthy (field d "metaApiAccountId")) eqn:Hid; simpl.
    + destruct (metaFetch_frame upstream
                  (provisioningUrl V2.REGION +:+ "/users/current/accounts/"
                   +:+ toStr (field d "metaApiAccountId"))
                  token (mkOpts (Some 0) (Some "DELETE") None) w)
        as (evs & Ht & Hs & _).
      destruct (V2.metaFetch _ _ _ _ w) as [c w1]. simpl in Ht, Hs.
      assert (Hd1 : store w1 !! auth_uid a = Some d) by (rewrite Hs; exact Hd).
      unfold docUpdate.
      destruct c as [v|e]; simpl; rewrite Hd1; simpl.
      all: split; [reflexivity|]; split; [discriminate|].
      all: intros d0 Hd0 _; injection Hd0 as <-.
      all: eexists; split; [apply lookup_insert_eq|].
      all: destruct (disconnect_writes (clock w1) d) as (H1 & H2 & H3).
      all: repeat split; auto.
      all: intros u Hu; rewrite lookup_insert_ne by congruence; rewrite Hs; reflexivity.
    + split; [reflexivity|]. split; [reflexivity|].
      intros d0 Hd0 Ht. injection Hd0 as <-. congruence.
  - simpl. split; [reflexivity|]. split; [reflexivity|]. intros d0 Hd0. discriminate.
Qed.

Lemma V1_disconnect_effect (upstream : Upstream) (configToken configRegion : option string)
    (a : Auth) (data : JsVal) (w : World) :
  disconnected a w
    (V1.disconnectBroker upstream configToken configRegion data
       (V1.mkCallableContext (Some a)) w).
Proof.
  unfold V1.disconnectBroker, V1.requireAuth, disconnected. run.
  destruct (store w !! auth_uid a) as [d|] eqn:Hd.
  - destruct (truthy (field d "metaApiAccountId")) eqn:Hid; simpl.
    + rewrite V1_metaFetch_eq.
      destruct (metaFetch_frame upstream
                  (provisioningUrl (V1.REGION configRegion) +:+ "/users/current/accounts/"
                   +:+ toStr (field d "metaApiAccountId"))
                  (V1.META_TOKEN configToken) (mkOpts (Some 0) (Some "DELETE") None) w)
        as (evs & Ht & Hs & _).
      destruct (V2.metaFetch _ _ _ _ w) as [c w1]. simpl in Ht, Hs.
      assert (Hd1 : store w1 !! auth_uid a = Some d) by (rewrite Hs; exact Hd).
      unfold docUpdate.
      destruct c as [v|e]; simpl; rewrite Hd1; simpl.
      all: split; [reflexivity|]; split; [discriminate|].
      all: intros d0 Hd0 _; injection Hd0 as <-.
      all: eexists; split; [apply lookup_insert_eq|].
      all: destruct (disconnect_writes (clock w1) d) as (H1 & H2 & H3).
      all: repeat split; auto.
      all: intros u Hu; rewrite lookup_insert_ne by congruence; rewrite Hs; reflexivity.
    + split; [reflexivity|]. split; [reflexivity|].
      intros d0 Hd0 Ht. injection Hd0 as <-. congruence.
  - simpl. split; [reflexivity|]. split; [reflexivity|]. intros d0 Hd0. discriminate.
Qed.

(** C1, as amended: for every authenticated caller Disconnect returns
    [{ok: true}]; with no broker account identifier in the stored link it sends
    nothing upstream and changes nothing; with one, it removes exactly the
    account-identifier, server and login fields from the stored record, stamps
    the disconnection time and leaves every other field, the platform tag
    included, and every other user's record as they were.  Both files. *)
Theorem disconnectBroker_effect (upstream : Upstream) (token : string)
    (configToken configRegion : option string) (a : Auth) (data : JsVal) (w : World) :
  disconnected a w
    (V2.disconnectBroker upstream token (V2.mkCallableRequest (Some a) data) w) /\
  disconnected a w
    (V1.disconnectBroker upstream configToken configRegion data
       (V1.mkCallableContext (Some a)) w) /\
  (forall d, store w !! auth_uid a = Some d ->
             truthy (field d "metaApiAccountId") = true ->
             forall d',
               store (snd (V2.disconnectBroker upstream token
                             (V2.mkCallableRequest (Some a) data) w)) !! auth_uid a
               = Some d' ->
               d' !! "platform" = d !! "platform" /\
               d' !! "email" = d !! "email" /\
               d' !! "connectedAt" = d !! "connectedAt").
Proof.
  split; [apply V2_disconnect_effect|]. split; [apply V1_disconnect_effect|].
  intros d Hd Hid d' Hd'.
  destruct (V2_disconnect_effect upstream token a data w) as (_ & _ & H).
  destruct (H d Hd Hid) as (d0 & Hd0 & _ & _ & Hkeep & _).
  rewrite Hd' in Hd0. injection Hd0 as <-.
  repeat split; apply Hkeep; unfold unlinkedKeys; simpl; intuition discriminate.
Qed.

(** C1, as stated, fails: after Disconnect the platform field of a linked
    record is still there. *)
Lemma disconnectBroker_keeps_platform :
  exists w' d',
    V2.disconnectBroker noContent "t" (V2.mkCallableRequest (Some alice) JNull) linkedWorld
    = (Normal (JObj [("ok", JBool true)]), w') /\
    store linkedWorld !! "alice" = Some aliceDoc /\
    truthy (field aliceDoc "metaApiAccountId") = true /\
    store w' !! "alice" = Some d' /\
    d' !! "metaApiAccountId" = None /\
    d' !! "platform" = Some (JStr "mt5") /\
    d' !! "platform" <> None.
Proof.
  eexists _, _. split; [vm_compute; reflexivity|].
  repeat split; try (vm_compute; reflexivity). vm_compute. discriminate.
Qed.

(** ** Connect: polling for deployment *)

Section Polling.

Variable upstream : Upstream.
Variable token : string.
Variable id : JsVal.

Let lookup (w : World) : Completion JsVal * World :=
  V2.metaFetch upstream
    (provisioningUrl "london" +:+ "/users/current/accounts/" +:+ toStr id)
    token singleAttempt w.

(** One round of the loop: sleep, look the account up, stop or go on. *)
Lemma pollDeploy_step (n : nat) (w : World) :
  V2.pollDeploy upstream token id (S n) w =
  if reportsDeployed (fst (lookup (slept w)))
  then (Normal true, snd (lookup (slept w)))
  else V2.pollDeploy upstream token id n (snd (lookup (slept w))).
Proof.
  unfold lookup. simpl V2.pollDeploy. run.
  change (V2.REGION) with "london". fold singleAttempt. fold (slept w).
  destruct (V2.metaFetch upstream _ token singleAttempt (slept w)) as [[st|e] w1]; simpl;
    [|reflexivity].
  destruct (getProp st "state") as [s|e]; simpl; [|reflexivity].
  destruct (strictEqStr s "DEPLOYED"); simpl; [reflexivity|].
  destruct (getProp st "connectionStatus") as [cs|e]; simpl; [|reflexivity].
  destruct (strictEqStr cs "CONNECTED"); reflexivity.
Qed.

(** The loop always ends normally, after at most [n] rounds, and exactly [n]
    when it reports [false]. *)
Lemma pollDeploy_rounds (n : nat) : forall w,
  exists deployed rounds w',
    V2.pollDeploy upstream token id n w = (Normal deployed, w') /\
    trace w' = trace w ++ concat rounds /\
    store w' = store w /\
    (length rounds <= n)%nat /\
    (deployed = false -> length rounds = n) /\
    Forall (pollRound (statusRequest token id)) rounds.
Proof.
  induction n as [|n IH]; intros w.
  - exists false, [], w. simpl. rewrite app_nil_r. repeat split; auto.
  - rewrite pollDeploy_step.
    destruct (metaFetch_single upstream
                (provisioningUrl "london" +:+ "/users/current/accounts/" +:+ toStr id)
                token singleAttempt (slept w) eq_refl) as (rest & Ht & Hs & Hc & He).
    fold (lookup (slept w)) in Ht, Hs.
    assert (Hround : pollRound (statusRequest token id)
                       (EvSleep 2000 :: EvFetch (statusRequest token id) :: rest)).
    { exists rest. repeat split; auto. }
    assert (Ht' : trace (snd (lookup (slept w)))
                  = trace w ++ (EvSleep 2000 :: EvFetch (statusRequest token id) :: rest)).
    { rewrite Ht. simpl. rewrite <- app_assoc. reflexivity. }
    destruct (reportsDeployed (fst (lookup (slept w)))).
    + exists true, [EvSleep 2000 :: EvFetch (statusRequest token id) :: rest],
             (snd (lookup (slept w))).
      simpl. rewrite app_nil_r.
      repeat split; auto; try lia; try discriminate.
    + destruct (IH (snd (lookup (slept w)))) as (d & rounds & w' & Hrun & Htr & Hst & Hlen & Hex & Hall).
      exists d, ((EvSleep 2000 :: EvFetch (statusRequest token id) :: rest) :: rounds), w'.
      rewrite Hrun, Htr, Hst, Ht', Hs. simpl. rewrite <- app_assoc. simpl.
      repeat split; auto; try lia.
Qed.

(** The loop runs its rounds one after the other, up to the first whose
    lookup reports the account deployed, and at most [n] of them. *)
Lemma pollDeploy_run (n : nat) : forall w,
  exists deployed rounds,
    V2.pollDeploy upstream token id n w
    = (Normal deployed, roundStart upstream token id (length rounds) w) /\
    trace (roundStart upstream token id (length rounds) w) = trace w ++ concat rounds /\
    store (roundStart upstream token id (length rounds) w) = store w /\
    (length rounds <= n)%nat /\
    Forall (pollRound (statusRequest token id)) rounds /\
    (forall j, (S j < length rounds)%nat -> roundReports upstream token id j w = false) /\
    (deployed = true ->
     exists j, length rounds = S j /\ roundReports upstream token id j w = true) /\
    (deployed = false ->
     length rounds = n /\
     forall j, (j < n)%nat -> roundReports upstream token id j w = false).
Proof.
  induction n as [|n IH]; intros w.
  - exists false, []. simpl. rewrite app_nil_r.
    split; [reflexivity|]. split; [reflexivity|]. split; [reflexivity|].
    split; [lia|]. split; [constructor|]. split; [intros j Hj; lia|].
    split; [discriminate|]. intros _. split; [reflexivity|]. intros j Hj. lia.
  - rewrite pollDeploy_step.
    destruct (metaFetch_single upstream
                (provisioningUrl "london" +:+ "/users/current/accounts/" +:+ toStr id)
                token singleAttempt (slept w) eq_refl) as (rest & Ht & Hs & Hc & He).
    fold (lookup (slept w)) in Ht, Hs.
    assert (Hround : pollRound (statusRequest token id)
                       (EvSleep 2000 :: EvFetch (statusRequest token id) :: rest)).
    { exists rest. repeat split; auto. }
    assert (Ht' : trace (snd (lookup (slept w)))
                  = trace w ++ (EvSleep 2000 :: EvFetch (statusRequest token id) :: rest)).
    { rewrite Ht. simpl. rewrite <- app_assoc. reflexivity. }
    change (lookup (slept w)) with (pollOnce upstream token id w) in *.
    destruct (reportsDeployed (fst (pollOnce upstream token id w))) eqn:Hrep.
    + exists true, [EvSleep 2000 :: EvFetch (statusRequest token id) :: rest].
      cbn [length roundStart concat]. rewrite app_nil_r.
      split; [reflexivity|]. split; [exact Ht'|]. split; [exact Hs|].
      split; [lia|]. split; [constructor; [exact Hround|constructor]|].
      split; [intros j Hj; lia|].
      split; [|discriminate].
      intros _. exists O. split; [reflexivity|]. exact Hrep.
    + destruct (IH (snd (pollOnce upstream token id w)))
        as (d & rounds & Hrun & Htr & Hst & Hlen & Hall & Hearly & Htrue & Hfalse).
      exists d, ((EvSleep 2000 :: EvFetch (statusRequest token id) :: rest) :: rounds).
      cbn [length roundStart concat].
      split; [exact Hrun|].
      split; [rewrite Htr, Ht', <- app_assoc; reflexivity|].
      split; [rewrite Hst; exact Hs|].
      split; [lia|]. split; [constructor; assumption|].
      split; [|split].
      * intros [|j] Hj; [exact Hrep|]. apply (Hearly j). lia.
      * intros Hd. destruct (Htrue Hd) as (j & Hj & Hr).
        exists (S j). split; [lia|exact Hr].
      * intros Hd. destruct (Hfalse Hd) as (Hn & Hnone).
        split; [lia|]. intros [|j] Hj; [exact Hrep|]. apply (Hnone j). lia.
Qed.

End Polling.

(** The condition that ends the polling loop, in the words of the code. *)
Lemma reportsDeployed_spec (c : Completion JsVal) :
  reportsDeployed c = true <->
  exists st, c = Normal st /\
             (getProp st "state" = Normal (JStr "DEPLOYED") \/
              getProp st "connectionStatus" = Normal (JStr "CONNECTED")).
Proof.
  assert (Heq : forall v s, strictEqStr v s = true <-> v = JStr s).
  { intros v s. destruct v; simpl; try (split; [discriminate|intros H; discriminate H]).
    rewrite String.eqb_eq. split; [intros ->; reflexivity|intros H; injection H; auto]. }
  destruct c as [st|e]; simpl.
  - destruct (getProp st "state") as [s|e] eqn:Hs.
    + assert (Hcs : exists cs, getProp st "connectionStatus" = Normal cs).
      { destruct st; simpl in *; try discriminate; eauto. }
      destruct Hcs as [cs Hcs]. rewrite Hcs.
      destruct (strictEqStr s "DEPLOYED") eqn:Hd.
      * apply Heq in Hd. subst s. split; [|reflexivity].
        intros _. exists st. auto.
      * split.
        -- intros Hc. apply Heq in Hc. subst cs. exists st. auto.
        -- intros (st' & Hst & [Hdep|Hcon]); injection Hst as <-.
           ++ rewrite Hs in Hdep. injection Hdep as ->. simpl in Hd. discriminate.
           ++ rewrite Hcs in Hcon. injection Hcon as ->. reflexivity.
    + split; [discriminate|].
      intros (st' & Hst & [Hdep|Hcon]); injection Hst as <-; [congruence|].
      destruct st; simpl in *; discriminate.
  - split; [discriminate|]. intros (st & Hst & _). discriminate.
Qed.

(** ** Connect *)

Lemma hasCredentials_destructure (data : JsVal) (what : string) :
  hasCredentials data = true ->
  destructure data what "brokerServer" = Normal (inputField data "brokerServer") /\
  getProp data "mtLogin" = Normal (inputField data "mtLogin") /\
  getProp data "mtPassword" = Normal (inputField data "mtPassword") /\
  getProp data "platform" = Normal (inputField data "platform") /\
  truthy (inputField data "brokerServer") = true /\
  truthy (inputField data "mtLogin") = true /\
  truthy (inputField data "mtPassword") = true.
Proof.
  unfold hasCredentials, inputField. intros H.
  apply andb_prop in H. destruct H as [H H3]. apply andb_prop in H. destruct H as [H1 H2].
  destruct data; simpl in *; try discriminate; repeat split; auto.
Qed.

Lemma metaFetch_single_ok (upstream : Upstream) (url token : string) (w : World)
    (r : Response) (v : JsVal) :
  upstream (trace w) (requestOf url token singleAttempt) = Responded r ->
  res_status r <> 202 ->
  res_ok r = true ->
  res_body r = Json v ->
  V2.metaFetch upstream url token singleAttempt w
  = (Normal v, log (EvFetch (requestOf url token singleAttempt)) w).
Proof.
  intros Hup H202 Hok Hb. unfold V2.metaFetch.
  change (Z.to_nat (maxRetriesOf singleAttempt + 1)) with 1%nat.
  rewrite (metaFetchLoop_ok upstream 0 _ w r Hup H202 Hok). rewrite Hb. reflexivity.
Qed.

(** C5: when the stored link holds a broker account identifier and the
    remote-account lookup succeeds (a response in the 2xx range other than 202
    whose body is the account, a JSON value other than [null]), Connect
    returns the already-linked success payload; the only request sent is that
    lookup, a GET, so no create-account request is issued, and the store is
    left as it was. *)
Theorem connectBroker_idempotent (upstream : Upstream) (token : string) (a : Auth)
    (data : JsVal) (w : World) (d : gmap string JsVal) (r : Response) (acct : JsVal) :
  hasCredentials data = true ->
  store w !! auth_uid a = Some d ->
  truthy (field d "metaApiAccountId") = true ->
  upstream (trace w) (statusRequest token (field d "metaApiAccountId")) = Responded r ->
  res_status r <> 202 ->
  res_ok r = true ->
  res_body r = Json acct ->
  nullish acct = false ->
  exists state w',
    V2.connectBroker upstream token (V2.mkCallableRequest (Some a) data) w
    = (Normal (JObj [("success", JBool true);
                     ("message", JStr "Cuenta ya vinculada");
                     ("state", state)]), w') /\
    getProp acct "state" = Normal state /\
    store w' = store w /\
    trace w' = trace w ++ [EvFetch (statusRequest token (field d "metaApiAccountId"))] /\
    req_method (statusRequest token (field d "metaApiAccountId")) = "GET" /\
    (forall region,
        statusRequest token (field d "metaApiAccountId") <> createRequest region token data).
Proof.
  intros Hcred Hd Hid Hup H202 Hok Hb Hnull.
  destruct (hasCredentials_destructure data "request.data" Hcred)
    as (E1 & E2 & E3 & E4 & T1 & T2 & T3).
  assert (Hst : exists state, getProp acct "state" = Normal state).
  { destruct acct; simpl in *; try discriminate; eauto. }
  destruct Hst as [state Hst].
  exists state, (log (EvFetch (statusRequest token (field d "metaApiAccountId"))) w).
  split.
  - unfold V2.connectBroker, V2.requireAuth. simpl. run.
    rewrite E1, E2, E3, E4, T1, T2, T3. simpl. rewrite Hd. simpl.
    unfold V2.checkExisting. rewrite Hid. run.
    change V2.REGION with "london". fold singleAttempt.
    rewrite (metaFetch_single_ok upstream _ token w r acct Hup H202 Hok Hb).
    rewrite Hst. reflexivity.
  - split; [exact Hst|]. split; [reflexivity|]. split; [reflexivity|].
    split; [reflexivity|].
    intros region Heq. discriminate Heq.
Qed.

Lemma connectBroker_idempotent_witness :
  exists state w',
    V2.connectBroker deployedService "t" (V2.mkCallableRequest (Some alice) credentials)
      linkedWorld
    = (Normal (JObj [("success", JBool true);
                     ("message", JStr "Cuenta ya vinculada");
                     ("state", state)]), w') /\
    state = JStr "DEPLOYED" /\
    store w' = store linkedWorld /\
    requestsOf (trace w') = [statusRequest "t" (JStr "acc-1")].
Proof.
  destruct (connectBroker_idempotent deployedService "t" alice credentials linkedWorld
              aliceDoc
              (mkResponse 200 None
                 (Json (JObj [("_id", JStr "acc-1"); ("state", JStr "DEPLOYED")])))
              (JObj [("_id", JStr "acc-1"); ("state", JStr "DEPLOYED")]))
    as (state & w' & Hrun & Hst & Hstore & Htrace & _);
    try reflexivity; try discriminate.
  exists state, w'. split; [exact Hrun|].
  split; [injection Hst as <-; reflexivity|].
  split; [exact Hstore|]. rewrite Htrace. reflexivity.
Defined.

Section ConnectFacts.

Variable upstream : Upstream.
Variable token : string.
Variable a : Auth.
Variable data : JsVal.
Hypothesis Hcred : hasCredentials data = true.

Let create (w : World) : Completion JsVal * World :=
  V2.createAccount upstream token (inputField data "brokerServer")
    (inputField data "mtLogin") (inputField data "mtPassword")
    (inputField data "platform") w.

(** [connectBroker] from the creation on, once the existing-link check has
    fallen through. *)
Lemma connectBroker_creation (w w1 : World) :
  V2.checkExisting upstream token (store w !! auth_uid a) w = (Normal None, w1) ->
  V2.connectBroker upstream token (V2.mkCallableRequest (Some a) data) w =
  match create w1 with
  | (Normal account, w2) =>
      match getProp account "id" with
      | Normal accountId =>
          match docSetMerge (auth_uid a) (linkWrites a data accountId) w2 with
          | (Normal _, w3) =>
              match V2.pollDeploy upstream token accountId 30 w3 with
              | (Normal deployed, w4) => (Normal (connectPayload deployed), w4)
              | (Throw e, w4) => (Throw e, w4)
              end
          | (Throw e, w3) => (Throw e, w3)
          end
      | Throw e => (Throw e, w2)
      end
  | (Throw e, w2) => (Throw e, w2)
  end.
Proof.
  intros Hcheck.
  destruct (hasCredentials_destructure data "request.data" Hcred)
    as (E1 & E2 & E3 & E4 & T1 & T2 & T3).
  unfold V2.connectBroker, V2.requireAuth, create. cbn [V2.rq_auth V2.rq_data].
  unfold bind at 1. unfold ret at 1. unfold bind at 1. unfold lift at 1. rewrite E1.
  unfold bind at 1. unfold lift at 1. rewrite E2.
  unfold bind at 1. unfold lift at 1. rewrite E3.
  unfold bind at 1. unfold lift at 1. rewrite E4.
  rewrite T1, T2, T3. cbn [negb orb].
  unfold bind at 1. unfold docGet at 1.
  unfold bind at 1. rewrite Hcheck.
  unfold bind at 1.
  destruct (V2.createAccount _ _ _ _ _ _ w1) as [[account|e] w2]; [|reflexivity].
  unfold bind at 1. unfold lift at 1.
  destruct (getProp account "id") as [accountId|e]; [|reflexivity].
  unfold bind at 1. fold (linkWrites a data accountId).
  destruct (docSetMerge _ _ w2) as [[u|e] w3]; [|reflexivity].
  unfold bind at 1.
  destruct (V2.pollDeploy _ _ _ _ w3) as [[deployed|e] w4]; reflexivity.
Qed.

(** The creation sends exactly one request, the POST. *)
Lemma createAccount_trace (w : World) :
  exists rest,
    trace (snd (create w)) = trace w ++ EvFetch (createRequest "london" token data) :: rest /\
    store (snd (create w)) = store w /\
    fetchCount rest = O.
Proof.
  unfold create, V2.createAccount.
  match goal with
  | |- context [V2.metaFetch upstream ?u token ?o] =>
      destruct (metaFetch_single upstream u token o w eq_refl) as (rest & Ht & Hs & Hc & _);
      exists rest; unfold tryCatch;
      destruct (V2.metaFetch upstream u token o w) as [[v|e] w2]
  end.
  - simpl in *. auto.
  - simpl in *.
    destruct (negb (String.eqb (message_of e) "") && includes (message_of e) "already exists")%bool;
      simpl; auto.
Qed.

End ConnectFacts.

Lemma docSetMerge_frame (uid : string) (ws : list (string * FieldWrite)) (w : World) :
  trace (snd (docSetMerge uid ws w)) = trace w /\
  clock (snd (docSetMerge uid ws w)) = clock w.
Proof. unfold docSetMerge. destruct (hasUndefined ws); simpl; auto. Qed.

(** Once the existing-link check has fallen through, the next request is the
    create-account POST. *)
Lemma connectBroker_creates (upstream : Upstream) (token : string) (a : Auth)
    (data : JsVal) (w w1 : World) :
  hasCredentials data = true ->
  V2.checkExisting upstream token (store w !! auth_uid a) w = (Normal None, w1) ->
  exists rest,
    trace (snd (V2.connectBroker upstream token (V2.mkCallableRequest (Some a) data) w))
    = trace w1 ++ EvFetch (createRequest "london" token data) :: rest.
Proof.
  intros Hcred Hcheck.
  rewrite (connectBroker_creation upstream token a data Hcred w w1 Hcheck).
  destruct (createAccount_trace upstream token data w1) as (rest & Ht & _ & _).
  destruct (V2.createAccount _ _ _ _ _ _ w1) as [[account|e] w2]; simpl in Ht;
    [|exists rest; exact Ht].
  destruct (getProp account "id") as [accountId|e]; [|exists rest; exact Ht].
  destruct (docSetMerge_frame (auth_uid a) (linkWrites a data accountId) w2) as [Hm _].
  destruct (docSetMerge _ _ w2) as [[u|e] w3]; simpl in Hm;
    [|exists rest; simpl; congruence].
  destruct (pollDeploy_rounds upstream token accountId 30 w3)
    as (dep & rounds & w4 & Hrun & Htr & _).
  rewrite Hrun. simpl. exists (rest ++ concat rounds).
  rewrite Htr, Hm, Ht. rewrite <- app_assoc. reflexivity.
Qed.

(** C9: in the existing-link verification of Connect every failure of the
    single-attempt lookup falls through to a create-account request; this
    includes a lookup answered with 202, where the client sleeps, finds its
    budget of one attempt used up and throws the still-processing error, which
    is swallowed. *)
Theorem connectBroker_recreates_on_lookup_failure (upstream : Upstream) (token : string)
    (a : Auth) (data : JsVal) (w : World) (d : gmap string JsVal) :
  hasCredentials data = true ->
  store w !! auth_uid a = Some d ->
  truthy (field d "metaApiAccountId") = true ->
  (forall e w1,
      V2.metaFetch upstream
        (provisioningUrl "london" +:+ "/users/current/accounts/"
         +:+ toStr (field d "metaApiAccountId")) token singleAttempt w = (Throw e, w1) ->
      exists rest,
        trace (snd (V2.connectBroker upstream token
                      (V2.mkCallableRequest (Some a) data) w))
        = trace w1 ++ EvFetch (createRequest "london" token data) :: rest) /\
  (forall r,
      upstream (trace w) (statusRequest token (field d "metaApiAccountId")) = Responded r ->
      res_status r = 202 ->
      V2.metaFetch upstream
        (provisioningUrl "london" +:+ "/users/current/accounts/"
         +:+ toStr (field d "metaApiAccountId")) token singleAttempt w
      = (Throw stillProcessing,
         mkWorld (store w) (clock w + timerDelay (retryDelay r))
           (trace w ++ [EvFetch (statusRequest token (field d "metaApiAccountId"));
                        EvSleep (timerDelay (retryDelay r))])) /\
      exists rest,
        trace (snd (V2.connectBroker upstream token
                      (V2.mkCallableRequest (Some a) data) w))
        = trace w
          ++ EvFetch (statusRequest token (field d "metaApiAccountId"))
          :: EvSleep (timerDelay (retryDelay r))
          :: EvFetch (createRequest "london" token data) :: rest).
Proof.
  intros Hcred Hd Hid.
  assert (Hfall : forall e w1,
             V2.metaFetch upstream
               (provisioningUrl "london" +:+ "/users/current/accounts/"
                +:+ toStr (field d "metaApiAccountId")) token singleAttempt w
             = (Throw e, w1) ->
             V2.checkExisting upstream token (store w !! auth_uid a) w = (Normal None, w1)).
  { intros e w1 Hrun. rewrite Hd. unfold V2.checkExisting. rewrite Hid.
    unfold tryCatch, bind. change V2.REGION with "london". fold singleAttempt.
    rewrite Hrun. reflexivity. }
  split.
  - intros e w1 Hrun. apply connectBroker_creates; auto. apply (Hfall e). exact Hrun.
  - intros r Hup H202.
    assert (Hrun : V2.metaFetch upstream
               (provisioningUrl "london" +:+ "/users/current/accounts/"
                +:+ toStr (field d "metaApiAccountId")) token singleAttempt w
             = (Throw stillProcessing,
                mkWorld (store w) (clock w + timerDelay (retryDelay r))
                  (trace w ++ [EvFetch (statusRequest token (field d "metaApiAccountId"));
                               EvSleep (timerDelay (retryDelay r))]))).
    { unfold V2.metaFetch.
      change (Z.to_nat (maxRetriesOf singleAttempt + 1)) with 1%nat.
      rewrite (metaFetchLoop_202 upstream 0
                 (requestOf (provisioningUrl "london" +:+ "/users/current/accounts/"
                             +:+ toStr (field d "metaApiAccountId")) token singleAttempt)
                 w r Hup H202).
      reflexivity. }
    split; [exact Hrun|].
    destruct (connectBroker_creates upstream token a data w _ Hcred (Hfall _ _ Hrun))
      as (rest & Ht).
    exists rest. rewrite Ht. simpl. rewrite <- app_assoc. reflexivity.
Qed.

Lemma connectBroker_recreates_on_lookup_failure_witness :
  exists rest,
    trace (snd (V2.connectBroker busy "t" (V2.mkCallableRequest (Some alice) credentials)
                  linkedWorld))
    = trace linkedWorld
      ++ EvFetch (statusRequest "t" (JStr "acc-1"))
      :: EvSleep 5000
      :: EvFetch (createRequest "london" "t" credentials) :: rest.
Proof.
  destruct (connectBroker_recreates_on_lookup_failure busy "t" alice credentials
              linkedWorld aliceDoc) as [_ H202];
    [reflexivity|vm_compute; reflexivity|reflexivity|].
  destruct (H202 (mkResponse 202 None (NotJson ""))) as (_ & rest & Ht);
    [reflexivity|reflexivity|].
  exists rest. exact Ht.
Defined.

(** C8, as amended: once the create-account request has succeeded with an
    account that carries an [id], Connect does not fail.  It writes the link
    and polls the account status in at most 30 rounds; a round is a
    two-second sleep and one status request, and lasts longer only by the
    sleep of at most 15 seconds that the client adds when the request is
    answered 202.  The loop stops at the first round whose lookup returns an
    account with the state [DEPLOYED] or the connection status [CONNECTED]; a
    lookup that fails reports nothing and the loop goes on.  Connect returns
    the success payload, whose [deployed] flag is [true] exactly when the last
    round made reported so, and [false] after 30 rounds none of which did. *)
Theorem connectBroker_after_creation (upstream : Upstream) (token : string) (a : Auth)
    (data : JsVal) (w w1 w2 : World) (account accountId : JsVal) :
  hasCredentials data = true ->
  V2.checkExisting upstream token (store w !! auth_uid a) w = (Normal None, w1) ->
  V2.createAccount upstream token (inputField data "brokerServer")
    (inputField data "mtLogin") (inputField data "mtPassword")
    (inputField data "platform") w1 = (Normal account, w2) ->
  getProp account "id" = Normal accountId ->
  accountId <> JUndefined ->
  let w3 := snd (docSetMerge (auth_uid a) (linkWrites a data accountId) w2) in
  let reports := fun j => roundReports upstream token accountId j w3 in
  exists deployed rounds w',
    V2.connectBroker upstream token (V2.mkCallableRequest (Some a) data) w
    = (Normal (JObj [("success", JBool true);
                     ("deployed", JBool deployed);
                     ("message",
                      JStr (if deployed then "Cuenta conectada"
                            else "Cuenta creada. Desplegando, intenta en 1-2 min."))]),
       w') /\
    w' = roundStart upstream token accountId (length rounds) w3 /\
    trace w' = trace w2 ++ concat rounds /\
    (length rounds <= 30)%nat /\
    Forall (pollRound (statusRequest token accountId)) rounds /\
    (forall j, (S j < length rounds)%nat -> reports j = false) /\
    (deployed = true -> exists j, length rounds = S j /\ reports j = true) /\
    (deployed = false ->
     length rounds = 30%nat /\ forall j, (j < 30)%nat -> reports j = false) /\
    (forall c, reportsDeployed c = true <->
               exists st, c = Normal st /\
                          (getProp st "state" = Normal (JStr "DEPLOYED") \/
                           getProp st "connectionStatus" = Normal (JStr "CONNECTED"))) /\
    (exists d', store w' !! auth_uid a = Some d' /\
                d' !! "metaApiAccountId" = Some accountId).
Proof.
  intros Hcred Hcheck Hcreate Hid Hdef w3 reports.
  assert (Hu : hasUndefined (linkWrites a data accountId) = false).
  { unfold linkWrites, hasUndefined, jsOr. simpl.
    destruct accountId; try reflexivity; try contradiction.
    all: destruct (hasCredentials_destructure data "d" Hcred)
      as (_ & _ & _ & _ & T1 & _ & _).
    all: destruct (truthy (auth_email a)) eqn:Te;
      destruct (truthy (inputField data "platform")) eqn:Tp;
      destruct (auth_email a); try discriminate;
      destruct (inputField data "platform"); try discriminate;
      destruct (inputField data "brokerServer"); try discriminate; reflexivity. }
  assert (Hw3 : docSetMerge (auth_uid a) (linkWrites a data accountId) w2 = (Normal tt, w3)).
  { subst w3. unfold docSetMerge. rewrite Hu. reflexivity. }
  destruct (pollDeploy_run upstream token accountId 30 w3)
    as (dep & rounds & Hrun & Htr & Hst & Hlen & Hall & Hearly & Htrue & Hfalse).
  exists dep, rounds, (roundStart upstream token accountId (length rounds) w3).
  split.
  { rewrite (connectBroker_creation upstream token a data Hcred w w1 Hcheck).
    rewrite Hcreate, Hid, Hw3, Hrun. reflexivity. }
  split; [reflexivity|].
  assert (Htr3 : trace w3 = trace w2 /\
                 exists d', store w3 !! auth_uid a = Some d' /\
                            d' !! "metaApiAccountId" = Some accountId).
  { subst w3. unfold docSetMerge. rewrite Hu. simpl. split; [reflexivity|].
    eexists. split; [apply lookup_insert_eq|].
    unfold applyWrites, applyWrite, linkWrites. simpl. by simplify_map_eq. }
  destruct Htr3 as [Htr3 Hst3].
  split; [rewrite Htr, Htr3; reflexivity|].
  split; [exact Hlen|]. split; [exact Hall|]. split; [exact Hearly|].
  split; [exact Htrue|]. split; [exact Hfalse|].
  split; [exact reportsDeployed_spec|].
  rewrite Hst. exact Hst3.
Qed.

Lemma connectBroker_after_creation_witness :
  exists rounds,
    fst (V2.connectBroker provisioner "t" (V2.mkCallableRequest (Some alice) credentials)
           emptyWorld)
    = Normal (connectPayload true) /\
    (length rounds <= 30)%nat /\
    Forall (pollRound (statusRequest "t" (JStr "acc-9"))) rounds.
Proof.
  destruct (connectBroker_after_creation provisioner "t" alice credentials
              emptyWorld emptyWorld
              (log (EvFetch (createRequest "london" "t" credentials)) emptyWorld)
              (JObj [("id", JStr "acc-9"); ("state", JStr "DEPLOYING")])
              (JStr "acc-9"))
    as (deployed & rounds & w' & Hrun & _ & _ & Hlen & Hall & _);
    [reflexivity|vm_compute; reflexivity|vm_compute; reflexivity|reflexivity|discriminate|].
  exists rounds. split; [vm_compute; reflexivity|]. split; assumption.
Defined.

(** C8, as stated, fails.  A create-account request that succeeds with an
    account without [id], or with the body [null], is followed by a failure of
    Connect: the store refuses the [undefined] identifier, the read of [id]
    throws.  And the polls are not 2 seconds apart: when every status lookup is
    answered 202, each of the 30 rounds lasts 7 seconds, 210 in all. *)
Lemma connectBroker_fails_after_creation :
  V2.createAccount idlessProvisioner "t" (JStr "Xyz-Live") (JStr "12345") (JStr "p")
    (JStr "mt5") emptyWorld
  = (Normal (JObj [("state", JStr "DEPLOYING")]),
     log (EvFetch (createRequest "london" "t" credentials)) emptyWorld) /\
  V2.connectBroker idlessProvisioner "t" (V2.mkCallableRequest (Some alice) credentials)
    emptyWorld
  = (Throw (StoreRejection "Cannot use undefined as a Firestore value"),
     log (EvFetch (createRequest "london" "t" credentials)) emptyWorld) /\
  V2.createAccount nullProvisioner "t" (JStr "Xyz-Live") (JStr "12345") (JStr "p")
    (JStr "mt5") emptyWorld
  = (Normal JNull, log (EvFetch (createRequest "london" "t" credentials)) emptyWorld) /\
  V2.connectBroker nullProvisioner "t" (V2.mkCallableRequest (Some alice) credentials)
    emptyWorld
  = (Throw (TypeError "Cannot read properties of null (reading 'id')"),
     log (EvFetch (createRequest "london" "t" credentials)) emptyWorld) /\
  fst (V2.connectBroker slowProvisioner "t" (V2.mkCallableRequest (Some alice) credentials)
         emptyWorld)
  = Normal (connectPayload false) /\
  fetchCount (trace (snd (V2.connectBroker slowProvisioner "t"
                            (V2.mkCallableRequest (Some alice) credentials) emptyWorld)))
  = 31%nat /\
  clock (snd (V2.connectBroker slowProvisioner "t"
                (V2.mkCallableRequest (Some alice) credentials) emptyWorld))
  = 30 * 7000.
Proof.
  repeat split; vm_compute; reflexivity.
Qed.

Arguments V2.metaFetch : simpl never.
Arguments V2.pollDeploy : simpl never.

(** ** Metrics *)

(** C6: when the metrics request fails with status 403, Metrics sends exactly
    one enable-statistics request, whatever becomes of it, and returns
    [{ok: false, metrics: null, source: "none", reason: "metastats_enabling"}];
    when it fails otherwise, Metrics fails with an [internal] error that
    carries the message of that failure. *)
Theorem getMetrics_forbidden (upstream : Upstream) (token : string) (a : Auth)
    (data : JsVal) (w w1 : World) (d : gmap string JsVal) (e : Thrown) :
  store w !! auth_uid a = Some d ->
  truthy (field d "metaApiAccountId") = true ->
  V2.metaFetch upstream (metricsUrl (field d "metaApiAccountId")) token noOpts w
  = (Throw e, w1) ->
  (status_of e = Some 403 ->
   exists rest w',
     V2.getMetrics upstream token (V2.mkCallableRequest (Some a) data) w
     = (Normal (JObj [("ok", JBool false);
                      ("metrics", JNull);
                      ("source", JStr "none");
                      ("reason", JStr "metastats_enabling")]), w') /\
     trace w' = trace w1
                ++ EvFetch (enableRequest token (field d "metaApiAccountId")) :: rest /\
     fetchCount rest = O /\
     store w' = store w) /\
  (status_of e <> Some 403 ->
   V2.getMetrics upstream token (V2.mkCallableRequest (Some a) data) w
   = (Throw (HttpsError "internal" (message_of e)), w1)).
Proof.
  intros Hd Hid Hrun.
  assert (Hs1 : store w1 = store w).
  { destruct (metaFetch_frame upstream (metricsUrl (field d "metaApiAccountId"))
                token noOpts w) as (evs & _ & Hs & _).
    rewrite Hrun in Hs. exact Hs. }
  unfold metricsUrl in Hrun.
  split.
  - intros H403.
    destruct (metaFetch_single upstream
                (provisioningUrl "london" +:+ "/users/current/accounts/"
                 +:+ toStr (field d "metaApiAccountId") +:+ "/enable-metastats-api")
                token (mkOpts (Some 0) (Some "PUT") (Some (JObj []))) w1 eq_refl)
      as (rest & Ht & Hs & Hc & _).
    exists rest.
    unfold V2.getMetrics, V2.requireAuth, V2.getAccountId. run.
    rewrite Hd, Hid. simpl. change V2.REGION with "london". rewrite Hrun, H403. simpl.
    destruct (V2.metaFetch upstream _ token _ w1) as [[v|e'] w2]; simpl in *;
      eexists; repeat split; eauto; congruence.
  - intros Hne.
    unfold V2.getMetrics, V2.requireAuth, V2.getAccountId. run.
    rewrite Hd, Hid. simpl. change V2.REGION with "london". rewrite Hrun.
    destruct (status_of e) as [s|]; [|reflexivity].
    destruct (Z.eqb_spec s 403); [subst; contradiction|reflexivity].
Qed.

Lemma getMetrics_forbidden_witness :
  exists rest w',
    V2.getMetrics forbidden "t" (V2.mkCallableRequest (Some alice) JNull) linkedWorld
    = (Normal (JObj [("ok", JBool false);
                     ("metrics", JNull);
                     ("source", JStr "none");
                     ("reason", JStr "metastats_enabling")]), w') /\
    trace w' = [EvFetch (mkRequest (metricsUrl (JStr "acc-1")) "GET" "t" None)]
               ++ EvFetch (enableRequest "t" (JStr "acc-1")) :: rest /\
    fetchCount rest = O /\
    store w' = store linkedWorld.
Proof.
  destruct (getMetrics_forbidden forbidden "t" alice JNull linkedWorld
              (log (EvFetch (mkRequest (metricsUrl (JStr "acc-1")) "GET" "t" None))
                 linkedWorld)
              aliceDoc (Error "MetaStats API is not enabled" (Some 403)))
    as [H403 _];
    [vm_compute; reflexivity|reflexivity|vm_compute; reflexivity|].
  apply H403. reflexivity.
Defined.

(** ** Trade history *)

Lemma newEvents_app (w w' : World) (evs : list Event) :
  trace w' = trace w ++ evs -> newEvents w w' = evs.
Proof. intros H. unfold newEvents. rewrite H. apply drop_app_length. Qed.

Lemma clientEvents_requests (req : Request) (evs : list Event) :
  (forall e, In e evs -> clientEvent req e) ->
  forall q, In q (requestsOf evs) -> q = req.
Proof.
  induction evs as [|e evs IH]; intros H q Hq; [destruct Hq|].
  destruct e as [q'|ms]; simpl in Hq.
  - destruct Hq as [<-|Hq]; [apply (H (EvFetch q')); left; reflexivity|].
    apply IH; auto. intros e He. apply H. right. exact He.
  - apply IH; auto. intros e He. apply H. right. exact He.
Qed.

(** With the default budget the first request is always sent. *)
Lemma metaFetch_default_first (upstream : Upstream) (url token : string) (w : World) :
  exists rest,
    trace (snd (V2.metaFetch upstream url token noOpts w))
    = trace w ++ EvFetch (requestOf url token noOpts) :: rest.
Proof.
  unfold V2.metaFetch. change (Z.to_nat (maxRetriesOf noOpts + 1)) with 6%nat.
  destruct (metaFetchLoop_first upstream 5 (requestOf url token noOpts) w)
    as (rest & Ht & _). exists rest. exact Ht.
Qed.

Section TradesFacts.

Variable upstream : Upstream.
Variable token : string.
Variables id start end_ : JsVal.

Lemma tradesPrimary_world (w : World) :
  snd (V2.tradesPrimary upstream token id start end_ w)
  = snd (V2.metaFetch upstream (req_url (primaryRequest token id start end_))
           token noOpts w).
Proof.
  unfold V2.tradesPrimary. run. change V2.REGION with "london".
  destruct (V2.metaFetch upstream _ token noOpts w) as [[v|e] w1]; simpl; [|reflexivity].
  destruct (getProp v "trades"); reflexivity.
Qed.

Lemma tradesSecondary_world (w : World) :
  snd (V2.tradesSecondary upstream token id start end_ w)
  = snd (V2.metaFetch upstream (req_url (secondaryRequest token id start end_))
           token noOpts w).
Proof.
  unfold V2.tradesSecondary. run. change V2.REGION with "london".
  destruct (V2.metaFetch upstream _ token noOpts w) as [[v|e] w1]; simpl; [|reflexivity].
  destruct (isArray v); simpl; [reflexivity|].
  destruct (getProp v "deals"); reflexivity.
Qed.

Lemma primary_secondary_differ :
  primaryRequest token id start end_ <> secondaryRequest token id start end_.
Proof. intros H. apply (f_equal req_url) in H. simpl in H. discriminate H. Qed.

End TradesFacts.

Arguments V2.tradesPrimary : simpl never.
Arguments V2.tradesSecondary : simpl never.

(** [getTrades] of a linked caller is its two [try] blocks in sequence. *)
Lemma getTrades_blocks (upstream : Upstream) (toISOString : Z -> string) (token : string)
    (a : Auth) (data : JsVal) (w : World) (d : gmap string JsVal) :
  store w !! auth_uid a = Some d ->
  truthy (field d "metaApiAccountId") = true ->
  let id := field d "metaApiAccountId" in
  let start := jsOr (rangeField data "startDate")
                    (JStr (toISOString (clock w - 365 * 86400000))) in
  let end_ := jsOr (rangeField data "endDate") (JStr (toISOString (clock w))) in
  V2.getTrades upstream toISOString token (V2.mkCallableRequest (Some a) data) w =
  match V2.tradesPrimary upstream token id start end_ w with
  | (Normal payload, w1) => (Normal payload, w1)
  | (Throw _, w1) =>
      match V2.tradesSecondary upstream token id start end_ w1 with
      | (Normal payload, w2) => (Normal payload, w2)
      | (Throw err, w2) => (Throw (HttpsError "internal" (message_of err)), w2)
      end
  end.
Proof.
  intros Hd Hid id start end_. subst id start end_.
  unfold V2.getTrades, V2.requireAuth, V2.getAccountId, rangeField, inputField. run.
  rewrite Hd, Hid. simpl.
  destruct data as [| |b|n|s|l|l|t]; simpl; try reflexivity.
  - destruct b; reflexivity.
  - destruct (Z.eqb n 0); reflexivity.
  - destruct (String.eqb s ""); reflexivity.
Qed.



(** ** The two files side by side *)

Lemma sameFailure_refl (e : Thrown) : sameFailure e e.
Proof. destruct e; simpl; auto. Qed.

Lemma agree_refl (R : JsVal -> JsVal -> Prop) (o : Completion JsVal * World) :
  (forall v, R v v) -> agree R o o.
Proof.
  intros HR. split; [reflexivity|].
  destruct (fst o); [apply HR|apply sameFailure_refl].
Qed.

Arguments V1.REGION : simpl never.
Arguments V1.META_TOKEN : simpl never.
Arguments V2.metaFetchLoop : simpl never.
Arguments V1.metaFetchLoop : simpl never.

Section SideBySide.

Variable upstream : Upstream.
Variable toISOString : Z -> string.
Variables configToken configRegion : option string.
Hypothesis Hregion : V1.REGION configRegion = "london".

Let token : string := V1.META_TOKEN configToken.

Ltac align :=
  unfold V1.getAccountId, V2.getAccountId, V1.requireAuth, V2.requireAuth,
         V1.metaFetch, V2.metaFetch;
  change V1.metaFetchLoop with V2.metaFetchLoop;
  change V2.REGION with "london";
  rewrite ?Hregion; simpl; run.

Lemma getUserStatus_agree (auth : option Auth) (data : JsVal) (w : World) :
  agree eq (V2.getUserStatus (V2.mkCallableRequest auth data) w)
           (V1.getUserStatus data (V1.mkCallableContext auth) w).
Proof.
  unfold V2.getUserStatus, V1.getUserStatus. align.
  destruct auth as [a|]; simpl.
  - apply agree_refl. reflexivity.
  - split; simpl; auto.
Qed.

Lemma getAccountInfo_agree (auth : option Auth) (data : JsVal) (w : World) :
  agree eq (V2.getAccountInfo upstream token (V2.mkCallableRequest auth data) w)
           (V1.getAccountInfo upstream configToken configRegion data
              (V1.mkCallableContext auth) w).
Proof.
  unfold V2.getAccountInfo, V1.getAccountInfo. align.
  destruct auth as [a|]; simpl; [|split; simpl; auto].
  destruct (store w !! auth_uid a) as [d|]; simpl;
    [destruct (truthy (field d "metaApiAccountId")); simpl|];
    try (apply agree_refl; reflexivity).
  destruct (V2.metaFetchLoop _ _ _ w) as [[v|e] w1]; apply agree_refl; reflexivity.
Qed.

Lemma getMetrics_agree (auth : option Auth) (data : JsVal) (w : World) :
  agree eq (V2.getMetrics upstream token (V2.mkCallableRequest auth data) w)
           (V1.getMetrics upstream configToken configRegion data
              (V1.mkCallableContext auth) w).
Proof.
  unfold V2.getMetrics, V1.getMetrics. align.
  destruct auth as [a|]; simpl; [|split; simpl; auto].
  apply agree_refl. reflexivity.
Qed.

Lemma getDailyGrowth_agree (auth : option Auth) (data : JsVal) (w : World) :
  agree eq (V2.getDailyGrowth upstream token (V2.mkCallableRequest auth data) w)
           (V1.getDailyGrowth upstream configToken configRegion data
              (V1.mkCallableContext auth) w).
Proof.
  unfold V2.getDailyGrowth, V1.getDailyGrowth. align.
  destruct auth as [a|]; simpl; [|split; simpl; auto].
  apply agree_refl. reflexivity.
Qed.

Lemma disconnectBroker_agree (auth : option Auth) (data : JsVal) (w : World) :
  agree eq (V2.disconnectBroker upstream token (V2.mkCallableRequest auth data) w)
           (V1.disconnectBroker upstream configToken configRegion data
              (V1.mkCallableContext auth) w).
Proof.
  unfold V2.disconnectBroker, V1.disconnectBroker. align.
  destruct auth as [a|]; simpl; [|split; simpl; auto].
  apply agree_refl. reflexivity.
Qed.

Lemma getTrades_agree (auth : option Auth) (data : JsVal) (w : World) :
  agree eq (V2.getTrades upstream toISOString token (V2.mkCallableRequest auth data) w)
           (V1.getTrades upstream toISOString configToken configRegion data
              (V1.mkCallableContext auth) w).
Proof.
  unfold V2.getTrades, V1.getTrades, V2.tradesPrimary, V1.tradesPrimary,
         V2.tradesSecondary, V1.tradesSecondary, V1.optChain. align.
  destruct auth as [a|]; simpl; [|split; simpl; auto].
  destruct (store w !! auth_uid a) as [d|]; simpl;
    [destruct (truthy (field d "metaApiAccountId")); simpl|];
    try (apply agree_refl; reflexivity).
  destruct data as [| |b|n|s|l|l|t]; simpl; try (apply agree_refl; reflexivity).
  - destruct b; apply agree_refl; reflexivity.
  - destruct n; apply agree_refl; reflexivity.
  - destruct s; apply agree_refl; reflexivity.
Qed.

(** The polling loops are the same function. *)
Lemma V1_pollDeploy_step (id : JsVal) (n : nat) (w : World) :
  V1.pollDeploy upstream configToken configRegion id (S n) w =
  if reportsDeployed
       (fst (V2.metaFetch upstream
               (provisioningUrl "london" +:+ "/users/current/accounts/" +:+ toStr id)
               token singleAttempt (slept w)))
  then (Normal true,
        snd (V2.metaFetch upstream
               (provisioningUrl "london" +:+ "/users/current/accounts/" +:+ toStr id)
               token singleAttempt (slept w)))
  else V1.pollDeploy upstream configToken configRegion id n
         (snd (V2.metaFetch upstream
                 (provisioningUrl "london" +:+ "/users/current/accounts/" +:+ toStr id)
                 token singleAttempt (slept w))).
Proof.
  simpl V1.pollDeploy. run. rewrite Hregion, V1_metaFetch_eq.
  fold singleAttempt. fold (slept w). fold token.
  destruct (V2.metaFetch upstream _ token singleAttempt (slept w)) as [[st|e] w1]; simpl;
    [|reflexivity].
  destruct (getProp st "state") as [s|e]; simpl; [|reflexivity].
  destruct (strictEqStr s "DEPLOYED"); simpl; [reflexivity|].
  destruct (getProp st "connectionStatus") as [cs|e]; simpl; [|reflexivity].
  destruct (strictEqStr cs "CONNECTED"); reflexivity.
Qed.

Lemma V1_pollDeploy_eq (id : JsVal) (n : nat) : forall w,
  V1.pollDeploy upstream configToken configRegion id n w
  = V2.pollDeploy upstream token id n w.
Proof.
  induction n as [|n IH]; intros w; [reflexivity|].
  rewrite V1_pollDeploy_step, pollDeploy_step.
  destruct (reportsDeployed _); [reflexivity|apply IH].
Qed.

(** The existing-link checks send the same lookup; their early payloads
    differ by the [accountId] field of the second file. *)
Lemma checkExisting_agree (doc : option (gmap string JsVal)) (w : World) :
  snd (V2.checkExisting upstream token doc w)
  = snd (V1.checkExisting upstream configToken configRegion doc w) /\
  match fst (V2.checkExisting upstream token doc w),
        fst (V1.checkExisting upstream configToken configRegion doc w) with
  | Normal (Some p2), Normal (Some p1) => sameModuloWording p2 p1
  | Normal None, Normal None => True
  | _, _ => False
  end.
Proof.
  unfold V2.checkExisting, V1.checkExisting. align.
  destruct doc as [d|]; simpl; [|auto].
  destruct (truthy (field d "metaApiAccountId")); simpl; [|auto].
  destruct (V2.metaFetchLoop _ _ _ w) as [[acct|e] w1]; simpl; [|auto].
  destruct (getProp acct "state"); simpl; auto.
  split; reflexivity.
Qed.

Lemma includes_empty : includes "" "already exists" = false.
Proof. reflexivity. Qed.

(** The creations send the same POST; their failures have the same code. *)
Lemma createAccount_agree (bs ml mp pf : JsVal) (w : World) :
  snd (V2.createAccount upstream token bs ml mp pf w)
  = snd (V1.createAccount upstream configToken configRegion bs ml mp pf w) /\
  match fst (V2.createAccount upstream token bs ml mp pf w),
        fst (V1.createAccount upstream configToken configRegion bs ml mp pf w) with
  | Normal v2, Normal v1 => v2 = v1
  | Throw e2, Throw e1 => sameFailure e2 e1
  | _, _ => False
  end.
Proof.
  unfold V2.createAccount, V1.createAccount. align.
  destruct (V2.metaFetchLoop _ _ _ w) as [[account|e] w1]; simpl; [auto|].
  destruct (String.eqb_spec (message_of e) "") as [Hm|Hm]; simpl.
  - rewrite Hm. simpl. auto.
  - destruct (includes (message_of e) "already exists"); simpl; auto.
Qed.

Lemma destructure_what (data : JsVal) (what1 what2 k : string) :
  match destructure data what1 k, destructure data what2 k with
  | Normal v1, Normal v2 => v1 = v2
  | Throw (TypeError _), Throw (TypeError _) => True
  | _, _ => False
  end.
Proof. destruct data; simpl; auto. Qed.

Arguments V1.pollDeploy : simpl never.
Arguments V1.checkExisting : simpl never.
Arguments V2.checkExisting : simpl never.
Arguments V1.createAccount : simpl never.
Arguments V2.createAccount : simpl never.

Lemma connectBroker_agree (auth : option Auth) (data : JsVal) (w : World) :
  agree sameModuloWording
    (V2.connectBroker upstream token (V2.mkCallableRequest auth data) w)
    (V1.connectBroker upstream configToken configRegion data (V1.mkCallableContext auth) w).
Proof.
  unfold V2.connectBroker, V1.connectBroker. align.
  destruct auth as [a|]; simpl; [|split; simpl; auto].
  pose proof (destructure_what data "request.data" "data" "brokerServer") as Hdes.
  destruct (destructure data "request.data" "brokerServer") as [bs|e2];
    destruct (destructure data "data" "brokerServer") as [bs'|e1];
    simpl in Hdes; simpl.
  2: contradiction.
  2: destruct e2; contradiction.
  2:{ destruct e2; try contradiction. destruct e1; try contradiction.
      split; simpl; auto. }
  subst bs'.
  destruct (getProp data "mtLogin") as [ml|e]; simpl; [|apply agree_refl; reflexivity].
  destruct (getProp data "mtPassword") as [mp|e]; simpl; [|apply agree_refl; reflexivity].
  destruct (getProp data "platform") as [pf|e]; simpl; [|apply agree_refl; reflexivity].
  destruct (negb (truthy bs) || negb (truthy ml) || negb (truthy mp))%bool; simpl;
    [apply agree_refl; reflexivity|].
  destruct (checkExisting_agree (store w !! auth_uid a) w) as [Hw Hc].
  destruct (V2.checkExisting _ _ _ w) as [c2 w2].
  destruct (V1.checkExisting _ _ _ _ w) as [c1 w1].
  simpl in Hw, Hc. subst w1.
  destruct c2 as [[p2|]|e2]; destruct c1 as [[p1|]|e1]; try contradiction.
  { split; simpl; auto. }
  destruct (createAccount_agree bs ml mp pf w2) as [Hw' Hc'].
  destruct (V2.createAccount _ _ _ _ _ _ w2) as [c2 w3].
  destruct (V1.createAccount _ _ _ _ _ _ _ w2) as [c1 w3'].
  simpl in Hw', Hc'. subst w3'.
  destruct c2 as [account|e2]; destruct c1 as [account'|e1]; try contradiction.
  2:{ split; simpl; auto. }
  subst account'.
  destruct (getProp account "id") as [accountId|e]; simpl; [|apply agree_refl; reflexivity].
  destruct (docSetMerge _ _ w3) as [[u|e] w4]; simpl; [|apply agree_refl; reflexivity].
  rewrite V1_pollDeploy_eq.
  destruct (V2.pollDeploy upstream token accountId 30 w4) as [[deployed|e] w5]; simpl.
  - split; simpl; [reflexivity|]. destruct deployed; reflexivity.
  - apply agree_refl. reflexivity.
Qed.

End SideBySide.

(** ** One service, two [fetch] implementations *)

Section LibraryWording.

Variables upstream2 upstream1 : Upstream.
Hypothesis Hsame : sameService upstream2 upstream1.
Variable token : string.

Lemma alike_refl {A : Type} (o : Completion A * World) : alike upstream2 o o.
Proof. split; [reflexivity|left; reflexivity]. Qed.

Lemma metaFetchLoop_alike (n : nat) : forall req w,
  alike upstream2 (V2.metaFetchLoop upstream2 n req w) (V2.metaFetchLoop upstream1 n req w).
Proof.
  induction n as [|n IH]; intros req w; [apply alike_refl|].
  pose proof (Hsame (trace w) req) as Ha. unfold sameAnswer in Ha.
  destruct (upstream2 (trace w) req) as [r2|m2] eqn:H2;
    destruct (upstream1 (trace w) req) as [r1|m1] eqn:H1; try contradiction.
  - destruct Ha as (Hst & Hra & Hb).
    assert (Hdelay : retryDelay r2 = retryDelay r1) by (unfold retryDelay; rewrite Hra; reflexivity).
    assert (Hok : res_ok r2 = res_ok r1) by (unfold res_ok; rewrite Hst; reflexivity).
    destruct (Z.eq_dec (res_status r2) 202) as [H202|H202].
    + rewrite (metaFetchLoop_202 upstream2 n req w r2 H2 H202).
      rewrite (metaFetchLoop_202 upstream1 n req w r1 H1 ltac:(congruence)).
      rewrite Hdelay. apply IH.
    + destruct (res_ok r2) eqn:Hok2.
      * rewrite (metaFetchLoop_ok upstream2 n req w r2 H2 H202 Hok2).
        rewrite (metaFetchLoop_ok upstream1 n req w r1 H1 ltac:(congruence) ltac:(congruence)).
        destruct (res_body r2) as [s2|v2] eqn:Hb2; destruct (res_body r1) as [s1|v1];
          try contradiction.
        -- split; [reflexivity|]. right.
           exists (SyntaxError s2), (SyntaxError s1). repeat split.
           exists (trace w), req. split; [reflexivity|].
           rewrite H2. simpl. eauto.
        -- subst v1. apply alike_refl.
      * rewrite (metaFetchLoop_error upstream2 n req w r2 H2 H202 Hok2).
        rewrite (metaFetchLoop_error upstream1 n req w r1 H1 ltac:(congruence) ltac:(congruence)).
        assert (He : upstreamError r2 = upstreamError r1).
        { unfold upstreamError. rewrite Hst.
          destruct (res_body r2); destruct (res_body r1); try contradiction;
            [reflexivity|subst; reflexivity]. }
        rewrite He. apply alike_refl.
  - rewrite (metaFetchLoop_rejected upstream2 n req w m2 H2).
    rewrite (metaFetchLoop_rejected upstream1 n req w m1 H1).
    split; [reflexivity|]. right.
    exists (FetchRejection m2), (FetchRejection m1). repeat split.
    exists (trace w), req. split; [reflexivity|]. rewrite H2. exact I.
Qed.

Lemma metaFetch_alike (url : string) (opts : Opts) (w : World) :
  alike upstream2 (V2.metaFetch upstream2 url token opts w)
                  (V2.metaFetch upstream1 url token opts w).
Proof. apply metaFetchLoop_alike. Qed.

(** A failure worded by the library carries no status. *)
Lemma libraryWorded_status (e2 e1 : Thrown) :
  libraryWorded e2 e1 -> status_of e2 = None /\ status_of e1 = None.
Proof. destruct e2, e1; simpl; try contradiction; auto. Qed.

(** Splits the goal on how the next call of the client compares in the two
    runs: the same outcome, or two failures worded by the library. *)
Ltac fetches :=
  match goal with
  | |- context [V2.metaFetch upstream2 ?u ?t ?o ?w] =>
      let Hw := fresh "Hw" in
      let Hr := fresh "Hr" in
      let c2 := fresh "c" in
      let c1 := fresh "c" in
      let w2 := fresh "w" in
      let w1 := fresh "w" in
      let e2 := fresh "e" in
      let e1 := fresh "e" in
      let Hlw := fresh "Hlw" in
      let Hend := fresh "Hend" in
      destruct (metaFetch_alike u o w) as [Hw Hr];
      destruct (V2.metaFetch upstream2 u t o w) as [c2 w2];
      destruct (V2.metaFetch upstream1 u t o w) as [c1 w1];
      simpl in Hw, Hr; subst w1;
      destruct Hr as [Hr|(e2 & e1 & Hr & Hr1 & Hlw & Hend)];
      [subst c1|subst c2; subst c1]
  end.

(** Both runs fail on the failure that the library worded. *)
Ltac surfaced :=
  split; [reflexivity|]; right; eexists _, _;
  split; [reflexivity|]; split; [reflexivity|]; split; [simpl; auto|eassumption].

Ltac guards auth w :=
  unfold V2.requireAuth, V2.getAccountId; run;
  destruct auth as [?a|]; simpl; [|apply alike_refl];
  try (destruct (store w !! auth_uid _) as [?d|]; simpl;
       [destruct (truthy (field _ "metaApiAccountId")); simpl|];
       try apply alike_refl).

Lemma getAccountInfo_alike (auth : option Auth) (data : JsVal) (w : World) :
  alike upstream2
    (V2.getAccountInfo upstream2 token (V2.mkCallableRequest auth data) w)
    (V2.getAccountInfo upstream1 token (V2.mkCallableRequest auth data) w).
Proof.
  unfold V2.getAccountInfo. guards auth w. apply metaFetch_alike.
Qed.

Lemma getMetrics_alike (auth : option Auth) (data : JsVal) (w : World) :
  alike upstream2
    (V2.getMetrics upstream2 token (V2.mkCallableRequest auth data) w)
    (V2.getMetrics upstream1 token (V2.mkCallableRequest auth data) w).
Proof.
  unfold V2.getMetrics. guards auth w. fetches.
  - destruct c as [res|e]; simpl;
      [destruct (getProp res "metrics") as [m|e]; simpl; [apply alike_refl|]|];
      (destruct (match status_of e with Some s => Z.eqb s 403 | None => false end);
       [|apply alike_refl]);
      (fetches; [destruct c as [?|?]|]; apply alike_refl).
  - destruct (libraryWorded_status _ _ Hlw) as [-> ->]. simpl. surfaced.
Qed.

Lemma getTrades_alike (toISOString : Z -> string) (auth : option Auth) (data : JsVal)
    (w : World) :
  alike upstream2
    (V2.getTrades upstream2 toISOString token (V2.mkCallableRequest auth data) w)
    (V2.getTrades upstream1 toISOString token (V2.mkCallableRequest auth data) w).
Proof.
  unfold V2.getTrades, V2.tradesPrimary, V2.tradesSecondary. guards auth w.
  destruct (truthy data); simpl.
  1: destruct (getProp data "startDate") as [sd|e]; simpl; [|apply alike_refl].
  1: destruct (getProp data "endDate") as [ed|e]; simpl; [|apply alike_refl].
  all: fetches;
    [destruct c as [res|e]; simpl;
     [destruct (getProp res "trades"); simpl; [apply alike_refl|]|]|];
    (fetches;
     [destruct c as [r|?]; simpl;
      [destruct (isArray r); simpl; [|destruct (getProp r "deals"); simpl]|];
      apply alike_refl
     |surfaced]).
Qed.

Lemma getDailyGrowth_alike (auth : option Auth) (data : JsVal) (w : World) :
  alike upstream2
    (V2.getDailyGrowth upstream2 token (V2.mkCallableRequest auth data) w)
    (V2.getDailyGrowth upstream1 token (V2.mkCallableRequest auth data) w).
Proof.
  unfold V2.getDailyGrowth. guards auth w. fetches; apply alike_refl.
Qed.

Lemma disconnectBroker_alike (auth : option Auth) (data : JsVal) (w : World) :
  alike upstream2
    (V2.disconnectBroker upstream2 token (V2.mkCallableRequest auth data) w)
    (V2.disconnectBroker upstream1 token (V2.mkCallableRequest auth data) w).
Proof.
  unfold V2.disconnectBroker. unfold V2.requireAuth; run.
  destruct auth as [a|]; simpl; [|apply alike_refl].
  destruct (store w !! auth_uid a) as [d|]; simpl; [|apply alike_refl].
  destruct (truthy (field d "metaApiAccountId")); simpl; [|apply alike_refl].
  fetches; [destruct c as [?|?]|]; apply alike_refl.
Qed.

(** The lookups of Connect swallow their failures: they come out the same. *)
Lemma checkExisting_same (doc : option (gmap string JsVal)) (w : World) :
  V2.checkExisting upstream2 token doc w = V2.checkExisting upstream1 token doc w.
Proof.
  unfold V2.checkExisting. destruct doc as [d|]; [|reflexivity].
  destruct (truthy (field d "metaApiAccountId")); [|reflexivity].
  run. fetches; reflexivity.
Qed.

Lemma pollDeploy_same (id : JsVal) (n : nat) : forall w,
  V2.pollDeploy upstream2 token id n w = V2.pollDeploy upstream1 token id n w.
Proof.
  induction n as [|n IH]; intros w; [reflexivity|].
  rewrite !pollDeploy_step.
  fetches; simpl.
  - destruct (reportsDeployed c); [reflexivity|apply IH].
  - apply IH.
Qed.

Lemma createAccount_alike (bs ml mp pf : JsVal) (w : World) :
  alike upstream2 (V2.createAccount upstream2 token bs ml mp pf w)
                  (V2.createAccount upstream1 token bs ml mp pf w).
Proof.
  unfold V2.createAccount. run. fetches; [apply alike_refl|].
  destruct (negb (String.eqb (message_of e) "") && includes (message_of e) "already exists")%bool;
    destruct (negb (String.eqb (message_of e0) "")
              && includes (message_of e0) "already exists")%bool;
    surfaced.
Qed.

Lemma connectBroker_alike (auth : option Auth) (data : JsVal) (w : World) :
  alike upstream2
    (V2.connectBroker upstream2 token (V2.mkCallableRequest auth data) w)
    (V2.connectBroker upstream1 token (V2.mkCallableRequest auth data) w).
Proof.
  unfold V2.connectBroker. unfold V2.requireAuth; run.
  destruct auth as [a|]; simpl; [|apply alike_refl].
  destruct (destructure data "request.data" "brokerServer") as [bs|e]; simpl;
    [|apply alike_refl].
  destruct (getProp data "mtLogin") as [ml|e]; simpl; [|apply alike_refl].
  destruct (getProp data "mtPassword") as [mp|e]; simpl; [|apply alike_refl].
  destruct (getProp data "platform") as [pf|e]; simpl; [|apply alike_refl].
  destruct (negb (truthy bs) || negb (truthy ml) || negb (truthy mp))%bool; simpl;
    [apply alike_refl|].
  rewrite checkExisting_same.
  destruct (V2.checkExisting upstream1 token (store w !! auth_uid a) w) as [[[p|]|e] w1];
    try apply alike_refl.
  destruct (createAccount_alike bs ml mp pf w1) as [Hw Hr].
  destruct (V2.createAccount upstream2 token bs ml mp pf w1) as [c2 w2].
  destruct (V2.createAccount upstream1 token bs ml mp pf w1) as [c1 w2'].
  simpl in Hw, Hr. subst w2'.
  destruct Hr as [->|(e2 & e1 & -> & -> & Hlw & Hend)].
  - destruct c1 as [account|e]; [|apply alike_refl].
    destruct (getProp account "id") as [accountId|e]; simpl; [|apply alike_refl].
    destruct (docSetMerge _ _ w2) as [[u|e] w3]; simpl; [|apply alike_refl].
    rewrite pollDeploy_same. apply alike_refl.
  - split; [reflexivity|]. right. eexists _, _. repeat split; eauto.
Qed.

(** From the first file on the other presentation to the second file. *)
Lemma alike_agree (R : JsVal -> JsVal -> Prop) (o2 o2' o1 : Completion JsVal * World) :
  alike upstream2 o2 o2' -> agree R o2' o1 -> agreeModuloLibrary R upstream2 o2 o1.
Proof.
  intros [Hw Hr] [Hw' Hres]. split; [congruence|].
  destruct Hr as [Hr|(e2 & e2' & Hr & Hr' & Hlw & Hend)].
  - rewrite Hr. destruct (fst o2'), (fst o1); auto.
  - rewrite Hr. rewrite Hr' in Hres.
    destruct (fst o1) as [v|e1]; [contradiction|]. right. split; [|exact Hend].
    destruct e2, e2'; simpl in Hlw; try contradiction;
      destruct e1; simpl in Hres; try discriminate; try contradiction; simpl; auto.
    destruct Hres as [<- _]. exact Hlw.
Qed.

End LibraryWording.




(** ** Budgets: what a whole invocation spends and leaves alone *)

Lemma prefix_append (p s : string) : String.prefix p (p +:+ s) = true.
Proof.
  induction p as [|c p IH]; simpl; [destruct s; reflexivity|].
  destruct (ascii_dec c c); [exact IH|contradiction].
Qed.

Lemma relayUrl_provisioning (s : string) : relayUrl (provisioningUrl "london" +:+ s).
Proof. left. exact (prefix_append (provisioningUrl "london") s). Qed.

Lemma relayUrl_client (s : string) : relayUrl (clientUrl "london" +:+ s).
Proof. right. left. exact (prefix_append (clientUrl "london") s). Qed.

Lemma relayUrl_metastats (s : string) : relayUrl (metastatsUrl "london" +:+ s).
Proof. right. right. exact (prefix_append (metastatsUrl "london") s). Qed.

Section Budget.

Variable R : Z -> World -> World -> Prop.
Hypothesis R_refl : forall n w, 0 <= n -> R n w w.
Hypothesis R_trans : forall n k w1 w2 w3, R n w1 w2 -> R k w2 w3 -> R (n + k) w1 w3.
Hypothesis R_mono : forall n k w w', n <= k -> R n w w' -> R k w w'.

Lemma spends_ret {A : Type} (n : Z) (x : A) : 0 <= n -> spends R n (ret x).
Proof. intros Hn w. apply R_refl. exact Hn. Qed.

Lemma spends_throw {A : Type} (n : Z) (e : Thrown) : 0 <= n -> spends R n (@throw A e).
Proof. intros Hn w. apply R_refl. exact Hn. Qed.

Lemma spends_lift {A : Type} (n : Z) (c : Completion A) : 0 <= n -> spends R n (lift c).
Proof. intros Hn w. apply R_refl. exact Hn. Qed.

Lemma spends_docGet (n : Z) (uid : string) : 0 <= n -> spends R n (docGet uid).
Proof. intros Hn w. apply R_refl. exact Hn. Qed.

Lemma spends_dateNow (n : Z) : 0 <= n -> spends R n dateNow.
Proof. intros Hn w. apply R_refl. exact Hn. Qed.

Lemma spends_more {A : Type} (c n : Z) (m : M A) : c <= n -> spends R c m -> spends R n m.
Proof. intros Hle Hm w. apply (R_mono c); [exact Hle|apply Hm]. Qed.

(** [m] spends [c] of the budget [n], its continuation the rest. *)
Lemma spends_bind {A B : Type} (c n : Z) (m : M A) (f : A -> M B) :
  c <= n ->
  spends R c m ->
  (forall x, spends R (n - c) (f x)) ->
  spends R n (bind m f).
Proof.
  intros Hle Hm Hf w. unfold bind. specialize (Hm w).
  destruct (m w) as [[x|e] w1]; simpl in *.
  - specialize (Hf x w1). replace n with (c + (n - c)) by lia.
    apply (R_trans _ _ w w1); assumption.
  - apply (R_mono c); assumption.
Qed.

Lemma spends_tryCatch {A : Type} (c n : Z) (m : M A) (h : Thrown -> M A) :
  c <= n ->
  spends R c m ->
  (forall e, spends R (n - c) (h e)) ->
  spends R n (tryCatch m h).
Proof.
  intros Hle Hm Hh w. unfold tryCatch. specialize (Hm w).
  destruct (m w) as [[x|e] w1]; simpl in *.
  - apply (R_mono c); assumption.
  - specialize (Hh e w1). replace n with (c + (n - c)) by lia.
    apply (R_trans _ _ w w1); assumption.
Qed.

(** *** The handlers of [src/functions/index.js] against any such accounting

    One attempt of the client costs [a], one millisecond of sleep costs [s],
    and a write to the caller's record is free. *)

Variable upstream : Upstream.
Variable token : string.
Variable au : Auth.
Variables a s : Z.
Hypothesis a_nonneg : 0 <= a.
Hypothesis s_nonneg : 0 <= s.
Hypothesis fetch_cost : forall url opts,
  relayUrl url -> spends R (a * attempts opts) (V2.metaFetch upstream url token opts).
Hypothesis sleep_cost : forall d, spends R (s * timerDelay d) (sleep d).
Hypothesis set_cost : forall ws, spends R 0 (docSetMerge (auth_uid au) ws).
Hypothesis update_cost : forall ws, spends R 0 (docUpdate (auth_uid au) ws).

Ltac free :=
  first [ apply spends_ret | apply spends_throw | apply spends_lift
        | apply spends_docGet | apply spends_dateNow ]; lia.

Ltac cases :=
  repeat match goal with
         | |- spends _ _ (match ?d with _ => _ end) => destruct d
         end.

Ltac step c := apply (spends_bind c); [lia| |intros].
Ltac attempt c := apply (spends_tryCatch c); [lia| |intros].

Lemma fetch_default (n : Z) (url : string) :
  a * 6 <= n -> relayUrl url -> spends R n (V2.metaFetch upstream url token noOpts).
Proof.
  intros Hn Hurl. apply (spends_more (a * attempts noOpts)); [exact Hn|].
  apply fetch_cost. exact Hurl.
Qed.

Lemma fetch_once (n : Z) (url : string) (opts : Opts) :
  maxRetriesOf opts = 0 -> a <= n -> relayUrl url ->
  spends R n (V2.metaFetch upstream url token opts).
Proof.
  intros H0 Hn Hurl. apply (spends_more (a * attempts opts)).
  - unfold attempts. rewrite H0. simpl. lia.
  - apply fetch_cost. exact Hurl.
Qed.

Lemma getAccountId_spends (n : Z) (uid : string) :
  0 <= n -> spends R n (V2.getAccountId uid).
Proof.
  intros Hn. unfold V2.getAccountId. step 0; [free|].
  destruct (negb _); free.
Qed.

Lemma spends_bind_ret {A B : Type} (n : Z) (x : A) (f : A -> M B) :
  spends R n (f x) -> spends R n (bind (ret x) f).
Proof. intros H w. exact (H w). Qed.

Ltac authenticated := unfold V2.requireAuth; simpl; apply spends_bind_ret.

Lemma getUserStatus_spends (data : JsVal) :
  spends R 0 (V2.getUserStatus (V2.mkCallableRequest (Some au) data)).
Proof.
  unfold V2.getUserStatus. authenticated.
  step 0; [free|]. cases; free.
Qed.

Lemma getAccountInfo_spends (data : JsVal) :
  spends R (a * 6) (V2.getAccountInfo upstream token (V2.mkCallableRequest (Some au) data)).
Proof.
  unfold V2.getAccountInfo. authenticated.
  step 0; [apply getAccountId_spends; lia|].
  change V2.REGION with "london". apply fetch_default; [lia|apply relayUrl_client].
Qed.

Lemma getMetrics_spends (data : JsVal) :
  spends R (a * 7) (V2.getMetrics upstream token (V2.mkCallableRequest (Some au) data)).
Proof.
  unfold V2.getMetrics. authenticated.
  step 0; [apply getAccountId_spends; lia|].
  change V2.REGION with "london". attempt (a * 6).
  - step (a * 6); [apply fetch_default; [lia|apply relayUrl_metastats]|].
    step 0; free.
  - destruct (match status_of e with Some _ => _ | None => _ end); [|free].
    step a; [|free].
    attempt a; [|free]. step a; [|free].
    apply fetch_once; [reflexivity|lia|apply relayUrl_provisioning].
Qed.

Lemma tradesPrimary_spends (n : Z) (id start end_ : JsVal) :
  a * 6 <= n -> spends R n (V2.tradesPrimary upstream token id start end_).
Proof.
  intros Hn. unfold V2.tradesPrimary. change V2.REGION with "london".
  step (a * 6); [apply fetch_default; [lia|apply relayUrl_metastats]|].
  step 0; free.
Qed.

Lemma tradesSecondary_spends (n : Z) (id start end_ : JsVal) :
  a * 6 <= n -> spends R n (V2.tradesSecondary upstream token id start end_).
Proof.
  intros Hn. unfold V2.tradesSecondary. change V2.REGION with "london".
  step (a * 6); [apply fetch_default; [lia|apply relayUrl_client]|].
  step 0; [|free]. cases; [free|]. step 0; free.
Qed.

Lemma getTrades_spends (toISOString : Z -> string) (data : JsVal) :
  spends R (a * 12)
    (V2.getTrades upstream toISOString token (V2.mkCallableRequest (Some au) data)).
Proof.
  unfold V2.getTrades. authenticated.
  step 0; [apply getAccountId_spends; lia|].
  step 0; [free|]. step 0; [free|].
  step 0; [destruct (truthy _); free|].
  step 0; [destruct (truthy _); free|].
  attempt (a * 6); [apply tradesPrimary_spends; lia|].
  attempt (a * 6); [apply tradesSecondary_spends; lia|free].
Qed.

Lemma getDailyGrowth_spends (data : JsVal) :
  spends R (a * 6) (V2.getDailyGrowth upstream token (V2.mkCallableRequest (Some au) data)).
Proof.
  unfold V2.getDailyGrowth. authenticated.
  step 0; [apply getAccountId_spends; lia|].
  change V2.REGION with "london". attempt (a * 6); [|free].
  step (a * 6); [apply fetch_default; [lia|apply relayUrl_metastats]|].
  step 0; free.
Qed.

Lemma disconnectBroker_spends (data : JsVal) :
  spends R a (V2.disconnectBroker upstream token (V2.mkCallableRequest (Some au) data)).
Proof.
  unfold V2.disconnectBroker. authenticated.
  step 0; [free|]. simpl.
  cases; try free.
  change V2.REGION with "london".
  step a.
  - attempt a; [|free]. step a; [|free].
    apply fetch_once; [reflexivity|lia|apply relayUrl_provisioning].
  - step 0; [apply (spends_more 0); [lia|apply update_cost]|free].
Qed.

Lemma pollDeploy_spends (id : JsVal) (n : nat) :
  spends R ((a + s * 2000) * Z.of_nat n) (V2.pollDeploy upstream token id n).
Proof.
  induction n as [|n IH].
  - apply spends_ret. simpl. lia.
  - assert (HX : 0 <= (a + s * 2000) * Z.of_nat n) by nia.
    replace ((a + s * 2000) * Z.of_nat (S n))
      with (s * 2000 + (a + (a + s * 2000) * Z.of_nat n)) by lia.
    unfold V2.pollDeploy. simpl. fold (V2.pollDeploy upstream token id n).
    change V2.REGION with "london".
    step (s * 2000); [apply (sleep_cost (Some 2000))|].
    step a.
    + attempt a; [|free].
      step a; [apply fetch_once; [reflexivity|lia|apply relayUrl_provisioning]|].
      step 0; [free|]. cases; [free|]. step 0; free.
    + cases; [free|].
      apply (spends_more ((a + s * 2000) * Z.of_nat n)); [lia|exact IH].
Qed.

Lemma checkExisting_spends (doc : option (gmap string JsVal)) :
  spends R a (V2.checkExisting upstream token doc).
Proof.
  unfold V2.checkExisting. destruct doc as [d|]; [|free].
  destruct (truthy _); [|free]. change V2.REGION with "london".
  attempt a; [|free].
  step a; [apply fetch_once; [reflexivity|lia|apply relayUrl_provisioning]|].
  step 0; free.
Qed.

Lemma createAccount_spends (bs ml mp pf : JsVal) :
  spends R a (V2.createAccount upstream token bs ml mp pf).
Proof.
  unfold V2.createAccount. change V2.REGION with "london".
  attempt a.
  - apply fetch_once; [reflexivity|lia|apply relayUrl_provisioning].
  - destruct (_ && _)%bool; free.
Qed.

Lemma connectBroker_spends (data : JsVal) :
  spends R (a * 32 + s * 60000)
    (V2.connectBroker upstream token (V2.mkCallableRequest (Some au) data)).
Proof.
  unfold V2.connectBroker. authenticated.
  step 0; [free|]. step 0; [free|]. step 0; [free|]. step 0; [free|].
  destruct (_ || _)%bool; [free|].
  step 0; [free|].
  step a; [apply checkExisting_spends|].
  cases; [free|].
  step a; [apply createAccount_spends|].
  step 0; [free|].
  step 0; [apply (spends_more 0); [lia|apply set_cost]|].
  step ((a + s * 2000) * 30); [apply (pollDeploy_spends _ 30)|free].
Qed.

End Budget.

(** *** The three accountings *)

Lemma relayed_refl (token uid : string) (n : Z) (w : World) :
  0 <= n -> relayed token uid n w w.
Proof.
  intros Hn. exists []. rewrite app_nil_r. simpl.
  split; [reflexivity|]. split; [exact Hn|]. split; [intros q []|reflexivity].
Qed.

Lemma relayed_trans (token uid : string) (n k : Z) (w1 w2 w3 : World) :
  relayed token uid n w1 w2 -> relayed token uid k w2 w3 ->
  relayed token uid (n + k) w1 w3.
Proof.
  intros (e1 & Ht1 & Hc1 & Hq1 & Hs1) (e2 & Ht2 & Hc2 & Hq2 & Hs2).
  exists (e1 ++ e2). rewrite Ht2, Ht1, <- app_assoc, fetchCount_app, requestsOf_app.
  split; [reflexivity|]. split; [lia|]. split.
  - intros q Hin. apply in_app_or in Hin. destruct Hin; auto.
  - intros u Hu. rewrite Hs2, Hs1; auto.
Qed.

Lemma relayed_mono (token uid : string) (n k : Z) (w w' : World) :
  n <= k -> relayed token uid n w w' -> relayed token uid k w w'.
Proof.
  intros Hle (evs & Ht & Hc & Hq & Hs). exists evs.
  split; [exact Ht|]. split; [lia|]. split; assumption.
Qed.

Lemma relayed_fetch (upstream : Upstream) (token uid url : string) (opts : Opts) :
  relayUrl url ->
  spends (relayed token uid) (1 * attempts opts) (V2.metaFetch upstream url token opts).
Proof.
  intros Hurl w.
  destruct (metaFetch_frame upstream url token opts w) as (evs & Ht & Hs & Hc & He).
  exists evs. unfold attempts. split; [exact Ht|]. split; [lia|]. split.
  - intros q Hq. rewrite (clientEvents_requests _ _ He q Hq).
    split; [reflexivity|exact Hurl].
  - intros u _. rewrite Hs. reflexivity.
Qed.

Lemma relayed_sleep (token uid : string) (d : option Z) :
  spends (relayed token uid) (0 * timerDelay d) (sleep d).
Proof.
  intros w. exists [EvSleep (timerDelay d)]. simpl.
  split; [reflexivity|]. split; [lia|]. split; [intros q []|reflexivity].
Qed.

Lemma relayed_set (token uid : string) (ws : list (string * FieldWrite)) :
  spends (relayed token uid) 0 (docSetMerge uid ws).
Proof.
  intros w. exists []. rewrite app_nil_r. unfold docSetMerge.
  destruct (hasUndefined ws); simpl.
  all: split; [reflexivity|]; split; [lia|]; split; [intros q []|].
  - reflexivity.
  - intros u Hu. apply lookup_insert_ne. congruence.
Qed.

Lemma relayed_update (token uid : string) (ws : list (string * FieldWrite)) :
  spends (relayed token uid) 0 (docUpdate uid ws).
Proof.
  intros w. exists []. rewrite app_nil_r. unfold docUpdate.
  destruct (hasUndefined ws); [|destruct (store w !! uid)]; simpl.
  all: split; [reflexivity|]; split; [lia|]; split; [intros q []|].
  - reflexivity.
  - intros u Hu. apply lookup_insert_ne. congruence.
  - reflexivity.
Qed.

Lemma metaFetchLoop_clock (upstream : Upstream) (n : nat) : forall req w,
  elapsed (15000 * Z.of_nat n) w (snd (V2.metaFetchLoop upstream n req w)).
Proof.
  unfold elapsed. induction n as [|n IH]; intros req w.
  - change (V2.metaFetchLoop upstream 0 req w) with (@throw JsVal stillProcessing w).
    simpl. lia.
  - destruct (upstream (trace w) req) as [r|m] eqn:Hup.
    + destruct (Z.eq_dec (res_status r) 202) as [H202|H202].
      * rewrite (metaFetchLoop_202 upstream n req w r Hup H202).
        specialize (IH req (mkWorld (store w) (clock w + timerDelay (retryDelay r))
                              (trace w ++ [EvFetch req; EvSleep (timerDelay (retryDelay r))]))).
        simpl in IH. pose proof (retryDelay_le r). lia.
      * destruct (res_ok r) eqn:Hok.
        -- rewrite (metaFetchLoop_ok upstream n req w r Hup H202 Hok). simpl. lia.
        -- rewrite (metaFetchLoop_error upstream n req w r Hup H202 Hok). simpl. lia.
    + rewrite (metaFetchLoop_rejected upstream n req w m Hup). simpl. lia.
Qed.

Lemma elapsed_fetch (upstream : Upstream) (token url : string) (opts : Opts) :
  spends elapsed (15000 * attempts opts) (V2.metaFetch upstream url token opts).
Proof.
  intros w. unfold V2.metaFetch, attempts.
  pose proof (metaFetchLoop_clock upstream (Z.to_nat (maxRetriesOf opts + 1))
                (requestOf url token opts) w) as H.
  unfold elapsed in *. lia.
Qed.

Lemma elapsed_sleep (d : option Z) : spends elapsed (1 * timerDelay d) (sleep d).
Proof. intros w. unfold elapsed. simpl. pose proof (timerDelay_range d). lia. Qed.

Lemma elapsed_set (uid : string) (ws : list (string * FieldWrite)) :
  spends elapsed 0 (docSetMerge uid ws).
Proof.
  intros w. unfold elapsed, docSetMerge. destruct (hasUndefined ws); simpl; lia.
Qed.

Lemma elapsed_update (uid : string) (ws : list (string * FieldWrite)) :
  spends elapsed 0 (docUpdate uid ws).
Proof.
  intros w. unfold elapsed, docUpdate. destruct (hasUndefined ws); simpl; [lia|].
  destruct (store w !! uid); simpl; lia.
Qed.

Lemma storeKept_fetch (upstream : Upstream) (token url : string) (opts : Opts) :
  spends storeKept (0 * attempts opts) (V2.metaFetch upstream url token opts).
Proof.
  intros w. destruct (metaFetch_frame upstream url token opts w) as (evs & _ & Hs & _).
  exact Hs.
Qed.

(** ** Guards *)

(** X1: without a verified identity every operation of both files fails with
    the [unauthenticated] failure before anything else happens: nothing is
    read into the result, nothing is sent upstream, nothing is written. *)
Theorem unauthenticated_rejected (upstream : Upstream) (toISOString : Z -> string)
    (token : string) (configToken configRegion : option string) (data : JsVal) (w : World) :
  let request := V2.mkCallableRequest None data in
  let ctx := V1.mkCallableContext None in
  (rejectedAs "unauthenticated" w (V2.connectBroker upstream token request w) /\
   rejectedAs "unauthenticated" w (V2.getUserStatus request w) /\
   rejectedAs "unauthenticated" w (V2.getAccountInfo upstream token request w) /\
   rejectedAs "unauthenticated" w (V2.getMetrics upstream token request w) /\
   rejectedAs "unauthenticated" w (V2.getTrades upstream toISOString token request w) /\
   rejectedAs "unauthenticated" w (V2.getDailyGrowth upstream token request w) /\
   rejectedAs "unauthenticated" w (V2.disconnectBroker upstream token request w)) /\
  (rejectedAs "unauthenticated" w
     (V1.connectBroker upstream configToken configRegion data ctx w) /\
   rejectedAs "unauthenticated" w (V1.getUserStatus data ctx w) /\
   rejectedAs "unauthenticated" w
     (V1.getAccountInfo upstream configToken configRegion data ctx w) /\
   rejectedAs "unauthenticated" w
     (V1.getMetrics upstream configToken configRegion data ctx w) /\
   rejectedAs "unauthenticated" w
     (V1.getTrades upstream toISOString configToken configRegion data ctx w) /\
   rejectedAs "unauthenticated" w
     (V1.getDailyGrowth upstream configToken configRegion data ctx w) /\
   rejectedAs "unauthenticated" w
     (V1.disconnectBroker upstream configToken configRegion data ctx w)).
Proof.
  intros request ctx. unfold rejectedAs.
  repeat split; eexists; reflexivity.
Qed.

Lemma getAccountId_unlinked (uid : string) (w : World) :
  linked w uid = false ->
  V2.getAccountId uid w
  = (Throw (HttpsError "not-found" "No tienes cuenta de broker conectada."), w).
Proof.
  unfold linked, V2.getAccountId. run.
  destruct (store w !! uid) as [d|]; [intros ->|]; reflexivity.
Qed.

Lemma getAccountId_linked (uid : string) (w : World) (d : gmap string JsVal) :
  store w !! uid = Some d ->
  truthy (field d "metaApiAccountId") = true ->
  V2.getAccountId uid w = (Normal (field d "metaApiAccountId"), w).
Proof. intros Hd Hid. unfold V2.getAccountId. run. rewrite Hd, Hid. reflexivity. Qed.

Lemma V2_unlinked (upstream : Upstream) (toISOString : Z -> string) (token : string)
    (a : Auth) (data : JsVal) (w : World) :
  linked w (auth_uid a) = false ->
  let request := V2.mkCallableRequest (Some a) data in
  V2.getUserStatus request w = (Normal (JObj [("connected", JBool false)]), w) /\
  rejectedAs "not-found" w (V2.getAccountInfo upstream token request w) /\
  rejectedAs "not-found" w (V2.getMetrics upstream token request w) /\
  rejectedAs "not-found" w (V2.getTrades upstream toISOString token request w) /\
  rejectedAs "not-found" w (V2.getDailyGrowth upstream token request w).
Proof.
  intros Hun request.
  pose proof (getAccountId_unlinked (auth_uid a) w Hun) as Hid.
  unfold linked in Hun. unfold rejectedAs.
  split; [|repeat split; eexists].
  - unfold V2.getUserStatus, V2.requireAuth. run.
    destruct (store w !! auth_uid a); [rewrite Hun|]; reflexivity.
  - unfold V2.getAccountInfo, V2.requireAuth. simpl. unfold bind at 1 2. unfold ret at 1.
    rewrite Hid. reflexivity.
  - unfold V2.getMetrics, V2.requireAuth. simpl. unfold bind at 1 2. unfold ret at 1.
    rewrite Hid. reflexivity.
  - unfold V2.getTrades, V2.requireAuth. simpl. unfold bind at 1 2. unfold ret at 1.
    rewrite Hid. reflexivity.
  - unfold V2.getDailyGrowth, V2.requireAuth. simpl. unfold bind at 1 2. unfold ret at 1.
    rewrite Hid. reflexivity.
Qed.

Lemma V1_unlinked (upstream : Upstream) (toISOString : Z -> string)
    (configToken configRegion : option string) (a : Auth) (data : JsVal) (w : World) :
  linked w (auth_uid a) = false ->
  let ctx := V1.mkCallableContext (Some a) in
  V1.getUserStatus data ctx w = (Normal (JObj [("connected", JBool false)]), w) /\
  rejectedAs "not-found" w
    (V1.getAccountInfo upstream configToken configRegion data ctx w) /\
  rejectedAs "not-found" w (V1.getMetrics upstream configToken configRegion data ctx w) /\
  rejectedAs "not-found" w
    (V1.getTrades upstream toISOString configToken configRegion data ctx w) /\
  rejectedAs "not-found" w
    (V1.getDailyGrowth upstream configToken configRegion data ctx w).
Proof.
  intros Hun ctx.
  assert (Hid1 : V1.getAccountId (auth_uid a) w
                 = (Throw (HttpsError "not-found" "No tienes cuenta de broker conectada."), w))
    by exact (getAccountId_unlinked (auth_uid a) w Hun).
  unfold linked in Hun. unfold rejectedAs.
  split; [|repeat split; eexists].
  - unfold V1.getUserStatus, V1.requireAuth. run.
    destruct (store w !! auth_uid a); [rewrite Hun|]; reflexivity.
  - unfold V1.getAccountInfo, V1.requireAuth. simpl. unfold bind at 1 2. unfold ret at 1.
    rewrite Hid1. reflexivity.
  - unfold V1.getMetrics, V1.requireAuth. simpl. unfold bind at 1 2. unfold ret at 1.
    rewrite Hid1. reflexivity.
  - unfold V1.getTrades, V1.requireAuth. simpl. unfold bind at 1 2. unfold ret at 1.
    rewrite Hid1. reflexivity.
  - unfold V1.getDailyGrowth, V1.requireAuth. simpl. unfold bind at 1 2. unfold ret at 1.
    rewrite Hid1. reflexivity.
Qed.

(** X2: for an authenticated caller without a linked account, the four data
    operations of both files fail with [not-found] and the status operation
    answers [{connected: false}]; none of them sends a request or changes
    anything. *)
Theorem unlinked_caller (upstream : Upstream) (toISOString : Z -> string)
    (token : string) (configToken configRegion : option string) (a : Auth)
    (data : JsVal) (w : World) :
  linked w (auth_uid a) = false ->
  let request := V2.mkCallableRequest (Some a) data in
  let ctx := V1.mkCallableContext (Some a) in
  (V2.getUserStatus request w = (Normal (JObj [("connected", JBool false)]), w) /\
   rejectedAs "not-found" w (V2.getAccountInfo upstream token request w) /\
   rejectedAs "not-found" w (V2.getMetrics upstream token request w) /\
   rejectedAs "not-found" w (V2.getTrades upstream toISOString token request w) /\
   rejectedAs "not-found" w (V2.getDailyGrowth upstream token request w)) /\
  (V1.getUserStatus data ctx w = (Normal (JObj [("connected", JBool false)]), w) /\
   rejectedAs "not-found" w
     (V1.getAccountInfo upstream configToken configRegion data ctx w) /\
   rejectedAs "not-found" w (V1.getMetrics upstream configToken configRegion data ctx w) /\
   rejectedAs "not-found" w
     (V1.getTrades upstream toISOString configToken configRegion data ctx w) /\
   rejectedAs "not-found" w
     (V1.getDailyGrowth upstream configToken configRegion data ctx w)).
Proof.
  intros Hun request ctx. split.
  - apply V2_unlinked. exact Hun.
  - apply V1_unlinked. exact Hun.
Qed.

Lemma unlinked_caller_witness :
  V2.getUserStatus (V2.mkCallableRequest (Some alice) JNull) emptyWorld
  = (Normal (JObj [("connected", JBool false)]), emptyWorld) /\
  rejectedAs "not-found" emptyWorld
    (V2.getAccountInfo busy "t" (V2.mkCallableRequest (Some alice) JNull) emptyWorld).
Proof.
  destruct (unlinked_caller busy decimal "t" None None alice JNull emptyWorld)
    as [(Hs & Hi & _) _]; [reflexivity|].
  split; assumption.
Defined.

(** ** What an invocation sends, and where *)

Section Relayed.

Variable upstream : Upstream.
Variable toISOString : Z -> string.
Variable token : string.
Variable a : Auth.
Variable data : JsVal.

Let request : V2.CallableRequest := V2.mkCallableRequest (Some a) data.
Let rel : Z -> World -> World -> Prop := relayed token (auth_uid a).

Lemma connectBroker_relayed (w : World) :
  rel 32 w (snd (V2.connectBroker upstream token request w)).
Proof.
  apply (connectBroker_spends rel (relayed_refl _ _) (relayed_trans _ _) (relayed_mono _ _)
           upstream token a 1 0); try lia.
  - intros url opts. apply relayed_fetch.
  - apply relayed_sleep.
  - apply relayed_set.
Qed.

Lemma getUserStatus_relayed (w : World) :
  rel 0 w (snd (V2.getUserStatus request w)).
Proof.
  apply (getUserStatus_spends rel (relayed_refl _ _) (relayed_trans _ _) (relayed_mono _ _)).
Qed.

Lemma getAccountInfo_relayed (w : World) :
  rel 6 w (snd (V2.getAccountInfo upstream token request w)).
Proof.
  apply (getAccountInfo_spends rel (relayed_refl _ _) (relayed_trans _ _) (relayed_mono _ _)
           upstream token a 1); try lia.
  intros url opts. apply relayed_fetch.
Qed.

Lemma getMetrics_relayed (w : World) :
  rel 7 w (snd (V2.getMetrics upstream token request w)).
Proof.
  apply (getMetrics_spends rel (relayed_refl _ _) (relayed_trans _ _) (relayed_mono _ _)
           upstream token a 1); try lia.
  intros url opts. apply relayed_fetch.
Qed.

Lemma getTrades_relayed (w : World) :
  rel 12 w (snd (V2.getTrades upstream toISOString token request w)).
Proof.
  apply (getTrades_spends rel (relayed_refl _ _) (relayed_trans _ _) (relayed_mono _ _)
           upstream token a 1); try lia.
  intros url opts. apply relayed_fetch.
Qed.

Lemma getDailyGrowth_relayed (w : World) :
  rel 6 w (snd (V2.getDailyGrowth upstream token request w)).
Proof.
  apply (getDailyGrowth_spends rel (relayed_refl _ _) (relayed_trans _ _) (relayed_mono _ _)
           upstream token a 1); try lia.
  intros url opts. apply relayed_fetch.
Qed.

Lemma disconnectBroker_relayed (w : World) :
  rel 1 w (snd (V2.disconnectBroker upstream token request w)).
Proof.
  apply (disconnectBroker_spends rel (relayed_refl _ _) (relayed_trans _ _)
           (relayed_mono _ _) upstream token a 1); try lia.
  - intros url opts. apply relayed_fetch.
  - apply relayed_update.
Qed.

End Relayed.

Lemma relayed_sent (token uid : string) (n : Z) (w w' : World) :
  relayed token uid n w w' ->
  Z.of_nat (fetchCount (newEvents w w')) <= n /\
  (forall q, In q (requestsOf (newEvents w w')) -> relayRequest token q) /\
  (forall u, u <> uid -> store w' !! u = store w !! u).
Proof.
  intros (evs & Ht & Hc & Hq & Hs). rewrite (newEvents_app w w' evs Ht). auto.
Qed.

(** X3: an authenticated invocation sends at most 32 requests upstream for
    Connect (one lookup, one creation, thirty status polls), none for Status,
    at most 6 for AccountInfo and for DailyGrowth, 7 for Metrics, 12 for
    TradeHistory and 1 for Disconnect, whatever the upstream service answers. *)
Theorem request_budget (upstream : Upstream) (toISOString : Z -> string) (token : string)
    (a : Auth) (data : JsVal) (w : World) :
  let request := V2.mkCallableRequest (Some a) data in
  let sent := fun out : Completion JsVal * World =>
                Z.of_nat (fetchCount (newEvents w (snd out))) in
  sent (V2.connectBroker upstream token request w) <= 32 /\
  sent (V2.getUserStatus request w) = 0 /\
  sent (V2.getAccountInfo upstream token request w) <= 6 /\
  sent (V2.getMetrics upstream token request w) <= 7 /\
  sent (V2.getTrades upstream toISOString token request w) <= 12 /\
  sent (V2.getDailyGrowth upstream token request w) <= 6 /\
  sent (V2.disconnectBroker upstream token request w) <= 1.
Proof.
  intros request sent. subst sent request. cbv beta.
  split; [apply (relayed_sent token (auth_uid a)), connectBroker_relayed|].
  split; [pose proof (relayed_sent token (auth_uid a) _ _ _
                        (getUserStatus_relayed token a data w)) as [H _]; lia|].
  split; [apply (relayed_sent token (auth_uid a)), getAccountInfo_relayed|].
  split; [apply (relayed_sent token (auth_uid a)), getMetrics_relayed|].
  split; [apply (relayed_sent token (auth_uid a)), getTrades_relayed|].
  split; [apply (relayed_sent token (auth_uid a)), getDailyGrowth_relayed|].
  apply (relayed_sent token (auth_uid a)), disconnectBroker_relayed.
Qed.

(** X4: every request an authenticated invocation sends goes to a URL under
    one of the three base URLs of the upstream service (provisioning,
    trading-session, statistics; region london) and carries the credential in
    its [auth-token] header. *)
Theorem requests_relayed (upstream : Upstream) (toISOString : Z -> string) (token : string)
    (a : Auth) (data : JsVal) (w : World) (q : Request) :
  let request := V2.mkCallableRequest (Some a) data in
  let sent := fun out : Completion JsVal * World => requestsOf (newEvents w (snd out)) in
  (In q (sent (V2.connectBroker upstream token request w)) \/
   In q (sent (V2.getUserStatus request w)) \/
   In q (sent (V2.getAccountInfo upstream token request w)) \/
   In q (sent (V2.getMetrics upstream token request w)) \/
   In q (sent (V2.getTrades upstream toISOString token request w)) \/
   In q (sent (V2.getDailyGrowth upstream token request w)) \/
   In q (sent (V2.disconnectBroker upstream token request w))) ->
  req_token q = token /\
  (String.prefix "https://mt-provisioning-api-v1.london.agiliumtrade.ai" (req_url q) = true \/
   String.prefix "https://mt-client-api-v1.london.agiliumtrade.ai" (req_url q) = true \/
   String.prefix "https://metastats-api-v1.london.agiliumtrade.ai" (req_url q) = true).
Proof.
  intros request sent Hin. subst sent request. cbv beta in Hin.
  change (relayRequest token q).
  destruct Hin as [H|[H|[H|[H|[H|[H|H]]]]]]; revert H.
  - apply (relayed_sent token (auth_uid a) _ _ _ (connectBroker_relayed upstream token a data w)).
  - apply (relayed_sent token (auth_uid a) _ _ _ (getUserStatus_relayed token a data w)).
  - apply (relayed_sent token (auth_uid a) _ _ _ (getAccountInfo_relayed upstream token a data w)).
  - apply (relayed_sent token (auth_uid a) _ _ _ (getMetrics_relayed upstream token a data w)).
  - apply (relayed_sent token (auth_uid a) _ _ _
             (getTrades_relayed upstream toISOString token a data w)).
  - apply (relayed_sent token (auth_uid a) _ _ _ (getDailyGrowth_relayed upstream token a data w)).
  - apply (relayed_sent token (auth_uid a) _ _ _ (disconnectBroker_relayed upstream token a data w)).
Qed.

Lemma requests_relayed_witness :
  req_token (createRequest "london" "t" credentials) = "t" /\
  (String.prefix "https://mt-provisioning-api-v1.london.agiliumtrade.ai"
     (req_url (createRequest "london" "t" credentials)) = true \/
   String.prefix "https://mt-client-api-v1.london.agiliumtrade.ai"
     (req_url (createRequest "london" "t" credentials)) = true \/
   String.prefix "https://metastats-api-v1.london.agiliumtrade.ai"
     (req_url (createRequest "london" "t" credentials)) = true).
Proof.
  apply (requests_relayed provisioner decimal "t" alice credentials emptyWorld
           (createRequest "london" "t" credentials)).
  left. vm_compute. left. reflexivity.
Defined.

(** X5: Connect and Disconnect change no record but the caller's: every other
    user's document is after the invocation what it was before. *)
Theorem other_users_untouched (upstream : Upstream) (token : string) (a : Auth)
    (data : JsVal) (w : World) (u : string) :
  u <> auth_uid a ->
  store (snd (V2.connectBroker upstream token (V2.mkCallableRequest (Some a) data) w)) !! u
  = store w !! u /\
  store (snd (V2.disconnectBroker upstream token (V2.mkCallableRequest (Some a) data) w)) !! u
  = store w !! u.
Proof.
  intros Hu. split.
  - apply (relayed_sent token (auth_uid a) _ _ _ (connectBroker_relayed upstream token a data w)).
    exact Hu.
  - apply (relayed_sent token (auth_uid a) _ _ _
             (disconnectBroker_relayed upstream token a data w)).
    exact Hu.
Qed.

Lemma other_users_untouched_witness :
  store (snd (V2.connectBroker provisioner "t"
                (V2.mkCallableRequest (Some (mkAuth "bob" JUndefined)) credentials)
                linkedWorld)) !! "alice"
  = Some aliceDoc.
Proof.
  destruct (other_users_untouched provisioner "t" (mkAuth "bob" JUndefined) credentials
              linkedWorld "alice") as [H _]; [discriminate|].
  rewrite H. vm_compute. reflexivity.
Defined.

Lemma storeKept_refl (n : Z) (w : World) : 0 <= n -> storeKept n w w.
Proof. reflexivity. Qed.

Lemma storeKept_trans (n k : Z) (w1 w2 w3 : World) :
  storeKept n w1 w2 -> storeKept k w2 w3 -> storeKept (n + k) w1 w3.
Proof. unfold storeKept. congruence. Qed.

Lemma storeKept_mono (n k : Z) (w w' : World) :
  n <= k -> storeKept n w w' -> storeKept k w w'.
Proof. intros _ H. exact H. Qed.

(** X6: Status, AccountInfo, Metrics, TradeHistory and DailyGrowth are
    read-only: whatever the upstream service answers, and whether they return
    or fail, the document store is left exactly as it was. *)
Theorem readers_keep_store (upstream : Upstream) (toISOString : Z -> string)
    (token : string) (a : Auth) (data : JsVal) (w : World) :
  let request := V2.mkCallableRequest (Some a) data in
  store (snd (V2.getUserStatus request w)) = store w /\
  store (snd (V2.getAccountInfo upstream token request w)) = store w /\
  store (snd (V2.getMetrics upstream token request w)) = store w /\
  store (snd (V2.getTrades upstream toISOString token request w)) = store w /\
  store (snd (V2.getDailyGrowth upstream token request w)) = store w.
Proof.
  intros request. subst request.
  split; [apply (getUserStatus_spends storeKept storeKept_refl storeKept_trans
                   storeKept_mono a data w)|].
  split; [apply (getAccountInfo_spends storeKept storeKept_refl storeKept_trans
                   storeKept_mono upstream token a 0 (Z.le_refl 0)
                   (fun url opts _ => storeKept_fetch upstream token url opts) data w)|].
  split; [apply (getMetrics_spends storeKept storeKept_refl storeKept_trans
                   storeKept_mono upstream token a 0 (Z.le_refl 0)
                   (fun url opts _ => storeKept_fetch upstream token url opts) data w)|].
  split; [apply (getTrades_spends storeKept storeKept_refl storeKept_trans
                   storeKept_mono upstream token a 0 (Z.le_refl 0)
                   (fun url opts _ => storeKept_fetch upstream token url opts)
                   toISOString data w)|].
  apply (getDailyGrowth_spends storeKept storeKept_refl storeKept_trans
           storeKept_mono upstream token a 0 (Z.le_refl 0)
           (fun url opts _ => storeKept_fetch upstream token url opts) data w).
Qed.

Lemma elapsed_refl (n : Z) (w : World) : 0 <= n -> elapsed n w w.
Proof. unfold elapsed. lia. Qed.

Lemma elapsed_trans (n k : Z) (w1 w2 w3 : World) :
  elapsed n w1 w2 -> elapsed k w2 w3 -> elapsed (n + k) w1 w3.
Proof. unfold elapsed. lia. Qed.

Lemma elapsed_mono (n k : Z) (w w' : World) :
  n <= k -> elapsed n w w' -> elapsed k w w'.
Proof. unfold elapsed. lia. Qed.

(** X7: the time an authenticated invocation spends sleeping is bounded: at
    most 540 s for Connect (15 s for each of its 32 requests and 2 s before
    each of the 30 polls), none for Status, 90 s for AccountInfo and
    DailyGrowth, 105 s for Metrics, 180 s for TradeHistory and 15 s for
    Disconnect; the clock never goes back. *)
Theorem sleep_budget (upstream : Upstream) (toISOString : Z -> string) (token : string)
    (a : Auth) (data : JsVal) (w : World) :
  let request := V2.mkCallableRequest (Some a) data in
  let slept_ms := fun out : Completion JsVal * World => clock (snd out) - clock w in
  0 <= slept_ms (V2.connectBroker upstream token request w) <= 540000 /\
  slept_ms (V2.getUserStatus request w) = 0 /\
  0 <= slept_ms (V2.getAccountInfo upstream token request w) <= 90000 /\
  0 <= slept_ms (V2.getMetrics upstream token request w) <= 105000 /\
  0 <= slept_ms (V2.getTrades upstream toISOString token request w) <= 180000 /\
  0 <= slept_ms (V2.getDailyGrowth upstream token request w) <= 90000 /\
  0 <= slept_ms (V2.disconnectBroker upstream token request w) <= 15000.
Proof.
  intros request slept_ms. subst request slept_ms. cbv beta.
  pose proof (connectBroker_spends elapsed elapsed_refl elapsed_trans elapsed_mono
                upstream token a 15000 1 ltac:(lia) ltac:(lia)
                (fun url opts _ => elapsed_fetch upstream token url opts)
                elapsed_sleep (elapsed_set (auth_uid a)) data w) as H1.
  pose proof (getUserStatus_spends elapsed elapsed_refl elapsed_trans elapsed_mono
                a data w) as H2.
  pose proof (getAccountInfo_spends elapsed elapsed_refl elapsed_trans elapsed_mono
                upstream token a 15000 ltac:(lia)
                (fun url opts _ => elapsed_fetch upstream token url opts) data w) as H3.
  pose proof (getMetrics_spends elapsed elapsed_refl elapsed_trans elapsed_mono
                upstream token a 15000 ltac:(lia)
                (fun url opts _ => elapsed_fetch upstream token url opts) data w) as H4.
  pose proof (getTrades_spends elapsed elapsed_refl elapsed_trans elapsed_mono
                upstream token a 15000 ltac:(lia)
                (fun url opts _ => elapsed_fetch upstream token url opts)
                toISOString data w) as H5.
  pose proof (getDailyGrowth_spends elapsed elapsed_refl elapsed_trans elapsed_mono
                upstream token a 15000 ltac:(lia)
                (fun url opts _ => elapsed_fetch upstream token url opts) data w) as H6.
  pose proof (disconnectBroker_spends elapsed elapsed_refl elapsed_trans elapsed_mono
                upstream token a 15000 ltac:(lia)
                (fun url opts _ => elapsed_fetch upstream token url opts)
                (elapsed_update (auth_uid a)) data w) as H7.
  unfold elapsed in *. lia.
Qed.

(** ** The client: the first answer that is not a 202 decides *)

(** X8: if the upstream service answers 202 to the first [k] attempts of a
    call, with [k] at most [maxRetries], the call ends with its attempt
    [k + 1] and its outcome is decided by that answer alone: the parsed body
    of a 2xx response, the upstream error of any other response, the syntax
    error of a 2xx body that is not JSON, or the rejection of [fetch], which is
    never retried. *)
Theorem metaFetch_decided (upstream : Upstream) (url token : string) (opts : Opts)
    (w : World) (k : nat) (o : FetchOutcome) :
  Z.of_nat k <= maxRetriesOf opts ->
  (forall evs, (fetchCount evs < k)%nat ->
               exists r, upstream (trace w ++ evs) (requestOf url token opts) = Responded r /\
                         res_status r = 202) ->
  (forall evs, fetchCount evs = k ->
               upstream (trace w ++ evs) (requestOf url token opts) = o) ->
  (forall r, o = Responded r -> res_status r <> 202) ->
  exists evs w',
    V2.metaFetch upstream url token opts w = (settle o, w') /\
    trace w' = trace w ++ evs /\
    fetchCount evs = S k /\
    store w' = store w.
Proof.
  intros Hk Hbusy Hfinal Hnot. unfold V2.metaFetch.
  apply (metaFetchLoop_decided upstream (requestOf url token opts) k); auto. lia.
Qed.

Lemma metaFetch_decided_witness :
  exists evs w',
    V2.metaFetch readyAtThird "u" "t" noOpts emptyWorld
    = (Normal (JObj [("state", JStr "DEPLOYED")]), w') /\
    trace w' = evs /\ fetchCount evs = 3%nat /\ clock w' = 2000.
Proof.
  destruct (metaFetch_decided readyAtThird "u" "t" noOpts emptyWorld 2
              (Responded (mkResponse 200 None (Json (JObj [("state", JStr "DEPLOYED")])))))
    as (evs & w' & Hrun & Ht & Hc & _).
  - vm_compute. discriminate.
  - intros evs Hev. unfold readyAtThird. simpl.
    destruct (Nat.ltb_spec (fetchCount evs) 2); [eauto|lia].
  - intros evs Hev. unfold readyAtThird. simpl. rewrite Hev. reflexivity.
  - intros r Hr. injection Hr as <-. discriminate.
  - exists evs, w'. repeat split; auto.
    assert (Hw : snd (V2.metaFetch readyAtThird "u" "t" noOpts emptyWorld) = w')
      by (rewrite Hrun; reflexivity).
    rewrite <- Hw. vm_compute. reflexivity.
Defined.

(** ** Connect: argument check and failed creation *)

Lemma getProp_inputField (data : JsVal) (what k : string) :
  nullish data = false ->
  getProp data k = Normal (inputField data k) /\
  destructure data what k = Normal (inputField data k).
Proof.
  unfold inputField. destruct data; simpl; try discriminate; auto.
Qed.

(** X9: Connect checks its arguments before it reads the store or contacts
    the upstream service: an input without a truthy server, login or password
    fails with [invalid-argument], and an input that is [null] or [undefined]
    fails with a [TypeError] on its destructuring; in both files, with the
    world left as it was. *)
Theorem connectBroker_argument_check (upstream : Upstream) (token : string)
    (configToken configRegion : option string) (a : Auth) (data : JsVal) (w : World) :
  hasCredentials data = false ->
  (nullish data = false ->
   rejectedAs "invalid-argument" w
     (V2.connectBroker upstream token (V2.mkCallableRequest (Some a) data) w) /\
   rejectedAs "invalid-argument" w
     (V1.connectBroker upstream configToken configRegion data
        (V1.mkCallableContext (Some a)) w)) /\
  (nullish data = true ->
   (exists m, V2.connectBroker upstream token (V2.mkCallableRequest (Some a) data) w
              = (Throw (TypeError m), w)) /\
   (exists m, V1.connectBroker upstream configToken configRegion data
                (V1.mkCallableContext (Some a)) w
              = (Throw (TypeError m), w))).
Proof.
  intros Hcred. split.
  - intros Hnn.
    destruct (getProp_inputField data "request.data" "brokerServer" Hnn) as [_ D2].
    destruct (getProp_inputField data "data" "brokerServer" Hnn) as [_ D1].
    destruct (getProp_inputField data "x" "mtLogin" Hnn) as [E2 _].
    destruct (getProp_inputField data "x" "mtPassword" Hnn) as [E3 _].
    destruct (getProp_inputField data "x" "platform" Hnn) as [E4 _].
    assert (Hbad : (negb (truthy (inputField data "brokerServer"))
                    || negb (truthy (inputField data "mtLogin"))
                    || negb (truthy (inputField data "mtPassword")))%bool = true).
    { unfold hasCredentials in Hcred.
      destruct (truthy (inputField data "brokerServer")),
               (truthy (inputField data "mtLogin")),
               (truthy (inputField data "mtPassword")); simpl in *; congruence. }
    unfold rejectedAs. split; eexists.
    + unfold V2.connectBroker, V2.requireAuth. simpl.
      unfold bind at 1. unfold ret at 1. unfold bind at 1. unfold lift at 1. rewrite D2.
      unfold bind at 1. unfold lift at 1. rewrite E2.
      unfold bind at 1. unfold lift at 1. rewrite E3.
      unfold bind at 1. unfold lift at 1. rewrite E4.
      rewrite Hbad. reflexivity.
    + unfold V1.connectBroker, V1.requireAuth. simpl.
      unfold bind at 1. unfold ret at 1. unfold bind at 1. unfold lift at 1. rewrite D1.
      unfold bind at 1. unfold lift at 1. rewrite E2.
      unfold bind at 1. unfold lift at 1. rewrite E3.
      unfold bind at 1. unfold lift at 1. rewrite E4.
      rewrite Hbad. reflexivity.
  - intros Hn. destruct data; try discriminate; split; eexists; reflexivity.
Qed.

Lemma connectBroker_argument_check_witness :
  rejectedAs "invalid-argument" emptyWorld
    (V2.connectBroker busy "t"
       (V2.mkCallableRequest (Some alice)
          (JObj [("brokerServer", JStr "Xyz-Live"); ("mtLogin", JStr "12345")]))
       emptyWorld) /\
  exists m, V2.connectBroker busy "t" (V2.mkCallableRequest (Some alice) JNull) emptyWorld
            = (Throw (TypeError m), emptyWorld).
Proof.
  split.
  - apply (connectBroker_argument_check busy "t" None None alice
             (JObj [("brokerServer", JStr "Xyz-Live"); ("mtLogin", JStr "12345")])
             emptyWorld); reflexivity.
  - apply (connectBroker_argument_check busy "t" None None alice JNull emptyWorld);
      reflexivity.
Defined.

Lemma checkExisting_keeps_store (upstream : Upstream) (token : string)
    (doc : option (gmap string JsVal)) (w : World) :
  store (snd (V2.checkExisting upstream token doc w)) = store w.
Proof.
  apply (checkExisting_spends storeKept storeKept_refl storeKept_trans storeKept_mono
           upstream token 0 (Z.le_refl 0)
           (fun url opts _ => storeKept_fetch upstream token url opts) doc w).
Qed.

Lemma includes_nonempty (m : string) :
  includes m "already exists" = true -> String.eqb m "" = false.
Proof. destruct m; [intros H; discriminate H|reflexivity]. Qed.

(** X10: when the create-account request of Connect fails, Connect fails
    with [already-exists] if the failure's message contains "already exists"
    and with [internal] and the message "Error MetaApi: ..." otherwise; no
    link is written: the store is what it was before the call. *)
Theorem connectBroker_creation_failure (upstream : Upstream) (token : string) (a : Auth)
    (data : JsVal) (w w1 w2 : World) (e : Thrown) :
  hasCredentials data = true ->
  V2.checkExisting upstream token (store w !! auth_uid a) w = (Normal None, w1) ->
  V2.metaFetch upstream (req_url (createRequest "london" token data)) token
    (createOpts token data) w1 = (Throw e, w2) ->
  V2.connectBroker upstream token (V2.mkCallableRequest (Some a) data) w
  = (Throw (if includes (message_of e) "already exists"
            then HttpsError "already-exists" "Esta cuenta MT5 ya esta registrada."
            else HttpsError "internal" ("Error MetaApi: " +:+ message_of e)), w2) /\
  store w2 = store w.
Proof.
  intros Hcred Hcheck Hrun. split.
  - rewrite (connectBroker_creation upstream token a data Hcred w w1 Hcheck).
    unfold V2.createAccount, tryCatch. change V2.REGION with "london".
    change (V2.metaFetch upstream (req_url (createRequest "london" token data)) token
              (createOpts token data) w1 = (Throw e, w2)) in Hrun.
    unfold createOpts, createRequest in Hrun. simpl in Hrun. rewrite Hrun.
    destruct (includes (message_of e) "already exists") eqn:Hinc.
    + rewrite (includes_nonempty _ Hinc). reflexivity.
    + rewrite andb_false_r. reflexivity.
  - pose proof (checkExisting_keeps_store upstream token (store w !! auth_uid a) w) as H1.
    rewrite Hcheck in H1. simpl in H1.
    destruct (metaFetch_frame upstream (req_url (createRequest "london" token data)) token
                (createOpts token data) w1) as (evs & _ & Hs & _).
    rewrite Hrun in Hs. simpl in Hs. congruence.
Qed.

Lemma connectBroker_creation_failure_witness :
  exists w2,
    V2.connectBroker duplicateAccount "t" (V2.mkCallableRequest (Some alice) credentials)
      emptyWorld
    = (Throw (HttpsError "already-exists" "Esta cuenta MT5 ya esta registrada."), w2) /\
    store w2 = store emptyWorld.
Proof.
  eexists.
  apply (connectBroker_creation_failure duplicateAccount "t" alice credentials
           emptyWorld emptyWorld _
           (Error "Account already exists in the system" (Some 400)));
    [reflexivity|vm_compute; reflexivity|vm_compute; reflexivity].
Defined.

(** ** Connect, Status and Disconnect in sequence *)

Lemma linkWrites_defined (a : Auth) (data accountId : JsVal) :
  hasCredentials data = true ->
  accountId <> JUndefined ->
  hasUndefined (linkWrites a data accountId) = false.
Proof.
  intros Hcred Hdef.
  destruct (hasCredentials_destructure data "d" Hcred) as (_ & _ & _ & _ & T1 & _ & _).
  unfold linkWrites, hasUndefined, jsOr. simpl.
  destruct accountId; try reflexivity; try contradiction.
  all: destruct (truthy (auth_email a)) eqn:Te;
    destruct (truthy (inputField data "platform")) eqn:Tp;
    destruct (auth_email a); try discriminate;
    destruct (inputField data "platform"); try discriminate;
    destruct (inputField data "brokerServer"); try discriminate; reflexivity.
Qed.

Lemma linkWrites_applied (now : Z) (a : Auth) (data accountId : JsVal)
    (old : gmap string JsVal) :
  let d' := applyWrites now (linkWrites a data accountId) old in
  d' !! "metaApiAccountId" = Some accountId /\
  d' !! "brokerServer" = Some (inputField data "brokerServer") /\
  d' !! "mtLogin" = Some (JStr (toStr (inputField data "mtLogin"))) /\
  d' !! "platform" = Some (jsOr (inputField data "platform") (JStr "mt5")) /\
  d' !! "email" = Some (jsOr (auth_email a) (JStr "")) /\
  d' !! "connectedAt" = Some (JTimestamp now) /\
  d' !! "updatedAt" = Some (JTimestamp now) /\
  (forall k, ~ In k linkKeys -> d' !! k = old !! k).
Proof.
  unfold applyWrites, applyWrite, linkWrites, linkKeys. simpl.
  repeat (split; [by simplify_map_eq|]).
  intros k Hk.
  rewrite !lookup_insert_ne; [reflexivity| | | | | | |];
    intros E; apply Hk; subst k; simpl; auto 10.
Qed.

(** The store after a Connect that created the account. *)
Lemma connectBroker_store (upstream : Upstream) (token : string) (a : Auth)
    (data : JsVal) (w w1 w2 : World) (account accountId : JsVal) :
  hasCredentials data = true ->
  V2.checkExisting upstream token (store w !! auth_uid a) w = (Normal None, w1) ->
  V2.createAccount upstream token (inputField data "brokerServer")
    (inputField data "mtLogin") (inputField data "mtPassword")
    (inputField data "platform") w1 = (Normal account, w2) ->
  getProp account "id" = Normal accountId ->
  accountId <> JUndefined ->
  store (snd (V2.connectBroker upstream token (V2.mkCallableRequest (Some a) data) w))
  = <[auth_uid a :=
        applyWrites (clock w2) (linkWrites a data accountId)
          (match store w !! auth_uid a with Some d => d | None => ∅ end)]> (store w).
Proof.
  intros Hcred Hcheck Hcreate Hid Hdef.
  assert (Hs2 : store w2 = store w).
  { pose proof (checkExisting_keeps_store upstream token (store w !! auth_uid a) w) as H1.
    rewrite Hcheck in H1. simpl in H1.
    destruct (createAccount_trace upstream token data w1) as (rest & _ & Hs & _).
    rewrite Hcreate in Hs. simpl in Hs. congruence. }
  rewrite (connectBroker_creation upstream token a data Hcred w w1 Hcheck).
  rewrite Hcreate, Hid. unfold docSetMerge.
  rewrite (linkWrites_defined a data accountId Hcred Hdef).
  match goal with
  | |- context [V2.pollDeploy upstream token accountId 30 ?w3] =>
      destruct (pollDeploy_rounds upstream token accountId 30 w3)
        as (dep & rounds & w4 & Hrun & _ & Hst & _);
      rewrite Hrun
  end.
  simpl in *. rewrite Hst, Hs2. reflexivity.
Qed.

(** X11: after a Connect that created an account with a truthy identifier,
    Status reports the caller as connected, with the server as supplied, the
    login as a string and the platform defaulting to "mt5"; the upsert merges:
    fields of an earlier record that Connect does not write are still there. *)
Theorem connect_then_status (upstream : Upstream) (token : string) (a : Auth)
    (data data' : JsVal) (w w1 w2 : World) (account accountId : JsVal) :
  hasCredentials data = true ->
  V2.checkExisting upstream token (store w !! auth_uid a) w = (Normal None, w1) ->
  V2.createAccount upstream token (inputField data "brokerServer")
    (inputField data "mtLogin") (inputField data "mtPassword")
    (inputField data "platform") w1 = (Normal account, w2) ->
  getProp account "id" = Normal accountId ->
  truthy accountId = true ->
  let w' := snd (V2.connectBroker upstream token (V2.mkCallableRequest (Some a) data) w) in
  V2.getUserStatus (V2.mkCallableRequest (Some a) data') w'
  = (Normal (JObj [("connected", JBool true);
                   ("brokerServer", inputField data "brokerServer");
                   ("mtLogin", JStr (toStr (inputField data "mtLogin")));
                   ("platform", jsOr (inputField data "platform") (JStr "mt5"))]), w') /\
  (forall d d' k,
      store w !! auth_uid a = Some d ->
      store w' !! auth_uid a = Some d' ->
      ~ In k linkKeys ->
      d' !! k = d !! k).
Proof.
  intros Hcred Hcheck Hcreate Hid Htruthy w'.
  assert (Hdef : accountId <> JUndefined) by (intros ->; discriminate Htruthy).
  pose proof (connectBroker_store upstream token a data w w1 w2 account accountId
                Hcred Hcheck Hcreate Hid Hdef) as Hstore.
  fold w' in Hstore.
  destruct (linkWrites_applied (clock w2) a data accountId
              (match store w !! auth_uid a with Some d => d | None => ∅ end))
    as (L1 & L2 & L3 & L4 & _ & _ & _ & Lk).
  split.
  - unfold V2.getUserStatus, V2.requireAuth. run.
    rewrite Hstore, lookup_insert_eq. unfold field. rewrite L1, L2, L3, L4, Htruthy.
    reflexivity.
  - intros d d' k Hd Hd' Hk. rewrite Hstore, lookup_insert_eq, Hd in Hd'.
    replace d' with (applyWrites (clock w2) (linkWrites a data accountId) d)
      by congruence.
    apply (linkWrites_applied (clock w2) a data accountId d). exact Hk.
Qed.

Lemma connect_then_status_witness :
  V2.getUserStatus (V2.mkCallableRequest (Some alice) JNull)
    (snd (V2.connectBroker provisioner "t" (V2.mkCallableRequest (Some alice) credentials)
            emptyWorld))
  = (Normal (JObj [("connected", JBool true);
                   ("brokerServer", JStr "Xyz-Live");
                   ("mtLogin", JStr "12345");
                   ("platform", JStr "mt5")]),
     snd (V2.connectBroker provisioner "t" (V2.mkCallableRequest (Some alice) credentials)
            emptyWorld)).
Proof.
  apply (connect_then_status provisioner "t" alice credentials JNull emptyWorld emptyWorld
           (log (EvFetch (createRequest "london" "t" credentials)) emptyWorld)
           (JObj [("id", JStr "acc-9"); ("state", JStr "DEPLOYING")]) (JStr "acc-9"));
    [reflexivity|vm_compute; reflexivity|vm_compute; reflexivity|reflexivity|reflexivity].
Defined.

Lemma disconnect_unlinks (upstream : Upstream) (token : string) (a : Auth)
    (data : JsVal) (w : World) :
  linked (snd (V2.disconnectBroker upstream token (V2.mkCallableRequest (Some a) data) w))
         (auth_uid a) = false.
Proof.
  destruct (V2_disconnect_effect upstream token a data w) as (_ & Hno & Hyes).
  unfold linked in *.
  destruct (store w !! auth_uid a) as [d|] eqn:Hd.
  - destruct (truthy (field d "metaApiAccountId")) eqn:Hid.
    + destruct (Hyes d eq_refl Hid) as (d' & Hd' & Hgone & _).
      rewrite Hd'. unfold field. rewrite (Hgone "metaApiAccountId"); [reflexivity|].
      left. reflexivity.
    + rewrite (Hno eq_refl), Hd. exact Hid.
  - rewrite (Hno I), Hd. reflexivity.
Qed.

(** X12: after a Disconnect the caller is unlinked, whatever the upstream
    service did with the DELETE: Status answers [{connected: false}], the data
    operations fail with [not-found], and a second Disconnect returns
    [{ok: true}] without sending a request or changing anything. *)
Theorem disconnect_then (upstream upstream' : Upstream) (token : string) (a : Auth)
    (data data' : JsVal) (w : World) :
  let w' := snd (V2.disconnectBroker upstream token (V2.mkCallableRequest (Some a) data) w) in
  let request := V2.mkCallableRequest (Some a) data' in
  V2.getUserStatus request w' = (Normal (JObj [("connected", JBool false)]), w') /\
  rejectedAs "not-found" w' (V2.getAccountInfo upstream' token request w') /\
  rejectedAs "not-found" w' (V2.getMetrics upstream' token request w') /\
  V2.disconnectBroker upstream' token request w' = (Normal (JObj [("ok", JBool true)]), w').
Proof.
  intros w' request.
  pose proof (disconnect_unlinks upstream token a data w) as Hun. fold w' in Hun.
  destruct (V2_unlinked upstream' (fun _ => "") token a data' w' Hun)
    as (Hs & Hi & Hm & _).
  split; [exact Hs|]. split; [exact Hi|]. split; [exact Hm|].
  destruct (V2_disconnect_effect upstream' token a data' w') as (Hok & Hno & _).
  fold request in Hok, Hno.
  destruct (V2.disconnectBroker upstream' token request w') as [c w''].
  simpl in Hok, Hno. rewrite Hok. f_equal. apply Hno.
  unfold linked in Hun. destruct (store w' !! auth_uid a); [exact Hun|exact I].
Qed.

(** ** DailyGrowth and Disconnect towards the upstream service *)

(** X13: for a linked, authenticated caller DailyGrowth never fails: it
    returns [{data: ...}] in the world the client left; the data are the empty
    sequence when the client fails and when the body is [null], the body
    itself when it is an array, and its truthy [dailyGrowth] field when it has
    one. *)
Theorem getDailyGrowth_never_fails (upstream : Upstream) (token : string) (a : Auth)
    (data : JsVal) (w : World) (d : gmap string JsVal) :
  store w !! auth_uid a = Some d ->
  truthy (field d "metaApiAccountId") = true ->
  let fetched := V2.metaFetch upstream (dailyGrowthUrl (field d "metaApiAccountId"))
                   token noOpts w in
  exists v,
    V2.getDailyGrowth upstream token (V2.mkCallableRequest (Some a) data) w
    = (Normal (JObj [("data", v)]), snd fetched) /\
    (forall e, fst fetched = Throw e -> v = JArr []) /\
    (fst fetched = Normal JNull -> v = JArr []) /\
    (forall items, fst fetched = Normal (JArr items) -> v = JArr items) /\
    (forall fields g, fst fetched = Normal (JObj fields) ->
                      lookupField "dailyGrowth" fields = Some g ->
                      truthy g = true -> v = g).
Proof.
  intros Hd Hid fetched. subst fetched. unfold dailyGrowthUrl.
  unfold V2.getDailyGrowth, V2.requireAuth. simpl.
  unfold bind at 1. unfold ret at 1. unfold bind at 1.
  rewrite (getAccountId_linked (auth_uid a) w d Hd Hid).
  unfold tryCatch, bind, lift, ret. change V2.REGION with "london".
  destruct (V2.metaFetch upstream _ token noOpts w) as [[res|e] w1]; simpl.
  - destruct res; simpl; eexists; (split; [reflexivity|]);
      (split; [intros ? H; discriminate H|]);
      (split; [intros H; try discriminate H; try reflexivity|]);
      (split;
       [intros ? H; try discriminate H; try (injection H as <-; reflexivity)
       |intros ? ? H Hg Ht; try discriminate H;
        try (injection H as <-; rewrite Hg; unfold jsOr; rewrite Ht; reflexivity)]).
  - exists (JArr []). split; [reflexivity|]. split; [reflexivity|].
    split; [intros H; discriminate H|].
    split; [intros ? H; discriminate H|intros ? ? H; discriminate H].
Qed.

Lemma getDailyGrowth_never_fails_witness :
  exists w',
    V2.getDailyGrowth forbidden "t" (V2.mkCallableRequest (Some alice) JNull) linkedWorld
    = (Normal (JObj [("data", JArr [])]), w').
Proof.
  destruct (getDailyGrowth_never_fails forbidden "t" alice JNull linkedWorld aliceDoc)
    as (v & Hrun & Hthrow & _); [vm_compute; reflexivity|reflexivity|].
  eexists. rewrite Hrun.
  rewrite (Hthrow (Error "MetaStats API is not enabled" (Some 403)));
    [reflexivity|vm_compute; reflexivity].
Defined.

(** X14: for a linked, authenticated caller Disconnect sends exactly one
    request upstream, the DELETE of the stored account, before it clears the
    link. *)
Theorem disconnectBroker_deletes_once (upstream : Upstream) (token : string) (a : Auth)
    (data : JsVal) (w : World) (d : gmap string JsVal) :
  store w !! auth_uid a = Some d ->
  truthy (field d "metaApiAccountId") = true ->
  exists rest,
    newEvents w (snd (V2.disconnectBroker upstream token
                        (V2.mkCallableRequest (Some a) data) w))
    = EvFetch (deleteRequest token (field d "metaApiAccountId")) :: rest /\
    fetchCount rest = O.
Proof.
  intros Hd Hid.
  destruct (metaFetch_single upstream
              (provisioningUrl "london" +:+ "/users/current/accounts/"
               +:+ toStr (field d "metaApiAccountId"))
              token (mkOpts (Some 0) (Some "DELETE") None) w eq_refl)
    as (rest & Ht & Hs & Hc & _).
  exists rest. split; [|exact Hc].
  apply newEvents_app.
  unfold V2.disconnectBroker, V2.requireAuth. run.
  rewrite Hd, Hid. simpl. change V2.REGION with "london".
  destruct (V2.metaFetch upstream _ token _ w) as [[v|e] w1]; simpl in *;
    unfold docUpdate; simpl; rewrite Hs, Hd; simpl; exact Ht.
Qed.

Lemma disconnectBroker_deletes_once_witness :
  exists rest,
    newEvents linkedWorld
      (snd (V2.disconnectBroker noContent "t" (V2.mkCallableRequest (Some alice) JNull)
              linkedWorld))
    = EvFetch (deleteRequest "t" (JStr "acc-1")) :: rest /\
    fetchCount rest = O.
Proof.
  apply (disconnectBroker_deletes_once noContent "t" alice JNull linkedWorld aliceDoc);
    [vm_compute; reflexivity|reflexivity].
Defined.

(** ** Waiting: the retry-after hint and the polling loop *)

Lemma readDigits_acc (d : Decimal.uint) : forall p : positive,
  readDigits (Z.pos p) (NilEmpty.string_of_uint d) = Z.pos (Pos.of_uint_acc d p).
Proof.
  induction d; intros p; [reflexivity|..];
    cbn [NilEmpty.string_of_uint readDigits Pos.of_uint_acc];
    match goal with
    | |- match digitOf ?c with _ => _ end = _ =>
        let v := eval vm_compute in (digitOf c) in change (digitOf c) with v
    end;
    cbv iota; rewrite <- IHd; f_equal; lia.
Qed.

Lemma readDigits_uint (d : Decimal.uint) :
  readDigits 0 (NilEmpty.string_of_uint d) = Z.of_N (Pos.of_uint d).
Proof.
  induction d; [reflexivity|exact IHd|..];
    cbn [NilEmpty.string_of_uint readDigits Pos.of_uint];
    match goal with
    | |- match digitOf ?c with _ => _ end = _ =>
        let v := eval vm_compute in (digitOf c) in change (digitOf c) with v
    end;
    cbv iota; apply readDigits_acc.
Qed.

Lemma parseInt_digits (d : Decimal.uint) :
  d <> Decimal.Nil ->
  parseInt (NilEmpty.string_of_uint d) = Some (readDigits 0 (NilEmpty.string_of_uint d)).
Proof. destruct d; [contradiction|..]; intros _; reflexivity. Qed.

(** [parseInt] reads back the decimal rendering of a natural number. *)
Lemma parseInt_decimal (n : Z) : 0 <= n -> parseInt (decimal n) = Some n.
Proof.
  intros Hn. destruct n as [|p|p]; [reflexivity| |lia].
  unfold decimal. simpl Z.to_int. unfold NilZero.string_of_int, NilZero.string_of_uint.
  pose proof (DecimalPos.Unsigned.to_uint_nonnil p) as Hnil.
  pose proof (DecimalPos.Unsigned.of_to p) as Hof.
  destruct (Pos.to_uint p) eqn:Hd; [contradiction|..];
    rewrite parseInt_digits by discriminate;
    rewrite readDigits_uint, Hof; reflexivity.
Qed.



(** X16: the polling loop of Connect with [n] rounds left sleeps at most 17
    seconds per round (2 before the poll, at most 15 inside the client on a
    202), and when it gives up, reporting [false], it has slept at least 2
    seconds for each of the [n] rounds: at least a minute for the 30 rounds
    Connect asks for. *)
Theorem pollDeploy_time (upstream : Upstream) (token : string) (id : JsVal) (n : nat)
    (w : World) :
  let out := V2.pollDeploy upstream token id n w in
  clock w <= clock (snd out) <= clock w + 17000 * Z.of_nat n /\
  (fst out = Normal false -> clock w + 2000 * Z.of_nat n <= clock (snd out)).
Proof.
  intros out. subst out. split.
  - pose proof (pollDeploy_spends elapsed elapsed_refl elapsed_trans elapsed_mono
                  upstream token 15000 1 ltac:(lia) ltac:(lia)
                  (fun url opts _ => elapsed_fetch upstream token url opts)
                  elapsed_sleep id n w) as H.
    unfold elapsed in H. lia.
  - revert w. induction n as [|n IH]; intros w Hgive.
    + change (V2.pollDeploy upstream token id 0 w) with (@ret bool false w).
      simpl. lia.
    + rewrite pollDeploy_step in Hgive |- *.
      pose proof (elapsed_fetch upstream token
                    (provisioningUrl "london" +:+ "/users/current/accounts/" +:+ toStr id)
                    singleAttempt (slept w)) as Hfetch.
      unfold elapsed in Hfetch. simpl in Hfetch.
      destruct (reportsDeployed _); [discriminate Hgive|].
      specialize (IH _ Hgive). lia.
Qed.

(** ** The second file under its default configuration *)

(** X17: with no region configured (absent or empty) the operations of
    [src/pagina_Invert/functions/index.js] keep the same bounds: an
    authenticated invocation sends at most 32, 0, 6, 7, 12, 6 and 1 requests,
    all of them to the london base URLs and with the configured token (the
    empty string when none is configured), and changes no record but the
    caller's. *)
Theorem V1_default_configuration (upstream : Upstream) (toISOString : Z -> string)
    (configToken configRegion : option string) (a : Auth) (data : JsVal) (w : World) :
  configRegion = None \/ configRegion = Some "" ->
  let ctx := V1.mkCallableContext (Some a) in
  let rel := relayed (match configToken with Some t => t | None => "" end) (auth_uid a) in
  rel 32 w (snd (V1.connectBroker upstream configToken configRegion data ctx w)) /\
  rel 0 w (snd (V1.getUserStatus data ctx w)) /\
  rel 6 w (snd (V1.getAccountInfo upstream configToken configRegion data ctx w)) /\
  rel 7 w (snd (V1.getMetrics upstream configToken configRegion data ctx w)) /\
  rel 12 w (snd (V1.getTrades upstream toISOString configToken configRegion data ctx w)) /\
  rel 6 w (snd (V1.getDailyGrowth upstream configToken configRegion data ctx w)) /\
  rel 1 w (snd (V1.disconnectBroker upstream configToken configRegion data ctx w)).
Proof.
  intros Hcfg ctx rel. subst ctx rel.
  assert (Hregion : V1.REGION configRegion = "london")
    by (destruct Hcfg as [->| ->]; reflexivity).
  change (match configToken with Some t => t | None => "" end)
    with (V1.META_TOKEN configToken).
  split; [rewrite <- (proj1 (connectBroker_agree upstream configToken configRegion
                               Hregion (Some a) data w));
          apply connectBroker_relayed|].
  split; [rewrite <- (proj1 (getUserStatus_agree (Some a) data w));
          apply getUserStatus_relayed|].
  split; [rewrite <- (proj1 (getAccountInfo_agree upstream configToken configRegion
                               Hregion (Some a) data w));
          apply getAccountInfo_relayed|].
  split; [rewrite <- (proj1 (getMetrics_agree upstream configToken configRegion
                               Hregion (Some a) data w));
          apply getMetrics_relayed|].
  split; [rewrite <- (proj1 (getTrades_agree upstream toISOString configToken configRegion
                               Hregion (Some a) data w));
          apply getTrades_relayed|].
  split; [rewrite <- (proj1 (getDailyGrowth_agree upstream configToken configRegion
                               Hregion (Some a) data w));
          apply getDailyGrowth_relayed|].
  rewrite <- (proj1 (disconnectBroker_agree upstream configToken configRegion
                       Hregion (Some a) data w)).
  apply disconnectBroker_relayed.
Qed.

Lemma V1_default_configuration_witness :
  relayed "" "alice" 1 linkedWorld
    (snd (V1.disconnectBroker noContent None None JNull
            (V1.mkCallableContext (Some alice)) linkedWorld)).
Proof.
  apply (V1_default_configuration noContent decimal None None alice JNull linkedWorld).
  left. reflexivity.
Defined.

(** ** TradeHistory: the date range *)

(** X18: for a linked, authenticated caller the first request of
    TradeHistory goes to the statistics historical-trades endpoint of the
    stored account for the range the caller supplied; a start date that is
    missing or falsy is replaced by the time 365 days before now, an end date
    by now. *)
Theorem getTrades_range (upstream : Upstream) (toISOString : Z -> string) (token : string)
    (a : Auth) (data : JsVal) (w : World) (d : gmap string JsVal) :
  store w !! auth_uid a = Some d ->
  truthy (field d "metaApiAccountId") = true ->
  exists start end_ rest,
    newEvents w (snd (V2.getTrades upstream toISOString token
                        (V2.mkCallableRequest (Some a) data) w))
    = EvFetch (primaryRequest token (field d "metaApiAccountId") start end_) :: rest /\
    start = (if truthy (rangeField data "startDate") then inputField data "startDate"
             else JStr (toISOString (clock w - 31536000000))) /\
    end_ = (if truthy (rangeField data "endDate") then inputField data "endDate"
            else JStr (toISOString (clock w))).
Proof.
  intros Hd Hid.
  exists (jsOr (rangeField data "startDate") (JStr (toISOString (clock w - 365 * 86400000)))),
         (jsOr (rangeField data "endDate") (JStr (toISOString (clock w)))).
  pose proof (getTrades_blocks upstream toISOString token a data w d Hd Hid) as Hblocks.
  cbv zeta in Hblocks. rewrite Hblocks.
  set (id := field d "metaApiAccountId").
  set (start := jsOr (rangeField data "startDate") _).
  set (end_ := jsOr (rangeField data "endDate") _).
  destruct (metaFetch_default_first upstream (req_url (primaryRequest token id start end_))
              token w) as (rest1 & Ht1).
  rewrite <- (tradesPrimary_world upstream token id start end_ w) in Ht1.
  assert (Hrange : start = (if truthy (rangeField data "startDate")
                            then inputField data "startDate"
                            else JStr (toISOString (clock w - 31536000000))) /\
                   end_ = (if truthy (rangeField data "endDate")
                           then inputField data "endDate"
                           else JStr (toISOString (clock w)))).
  { subst start end_. unfold jsOr, rangeField.
    destruct (truthy data) eqn:Hdata.
    - split; [destruct (truthy (inputField data "startDate"))
             |destruct (truthy (inputField data "endDate"))]; reflexivity.
    - rewrite Hdata. split; reflexivity. }
  destruct (V2.tradesPrimary upstream token id start end_ w) as [[p|e] w1]; simpl in Ht1.
  - exists rest1. split; [apply newEvents_app; exact Ht1|exact Hrange].
  - destruct (metaFetch_frame upstream (req_url (secondaryRequest token id start end_))
                token noOpts w1) as (evs2 & Ht2 & _).
    rewrite <- (tradesSecondary_world upstream token id start end_ w1) in Ht2.
    exists (rest1 ++ evs2). split; [|exact Hrange].
    apply newEvents_app.
    destruct (V2.tradesSecondary upstream token id start end_ w1) as [[p2|e2] w2];
      simpl in *; rewrite Ht2, Ht1, <- app_assoc; reflexivity.
Qed.

Lemma getTrades_range_witness :
  exists rest,
    newEvents linkedWorld
      (snd (V2.getTrades statsDisabled decimal "t"
              (V2.mkCallableRequest (Some alice)
                 (JObj [("startDate", JStr "2024-01-01")])) linkedWorld))
    = EvFetch (primaryRequest "t" (JStr "acc-1") (JStr "2024-01-01") (JStr "5000")) :: rest.
Proof.
  destruct (getTrades_range statsDisabled decimal "t" alice
              (JObj [("startDate", JStr "2024-01-01")]) linkedWorld aliceDoc)
    as (start & end_ & rest & Hev & -> & ->); [vm_compute; reflexivity|reflexivity|].
  exists rest. exact Hev.
Defined.
